(** * Financial SMS parsing: a shallow embedding of the Python backend

    The development follows the two backend modules of the repository,
    [Backend/main_with_api.py] (module [MainWithApi] below) and
    [Backend/routes.py] (module [Routes] below), and proves the
    properties that the specification states about them.

    Conventions of the embedding:
    - text is a Rocq [string], one [ascii] per character; the model is
      exact for ASCII text, and the only non-ASCII character of the
      sources, the rupee sign of the amount patterns, is written as its
      three UTF-8 bytes and only ever occurs as a literal alternative;
    - patterns are kept as written in the sources and run by a
      backtracking matcher with the priorities of Python's [re];
    - a dictionary is a [gmap string value], a float is the decimal it
      was read from;
    - code that may raise returns a [result]; [try]/[except] blocks are
      written out;
    - what lies outside the two modules (the remote model, [json.loads],
      the database, number formatting, the response model's coercions)
      is a [Variable] of the section that uses it. *)

From Stdlib Require Import ZArith QArith Ascii String List Bool Lia DecimalString.
From stdpp Require Import base option gmap strings.
Import ListNotations.

Open Scope string_scope.

(** ** Python's built-in string operations *)

Module Py.

Definition code (c : ascii) : nat := nat_of_ascii c.

Definition between (lo hi : nat) (c : ascii) : bool :=
  (lo <=? code c)%nat && (code c <=? hi)%nat.

(** [c.isdigit()], [c.isupper()], [c.islower()] on ASCII characters. *)
Definition is_digit (c : ascii) : bool := between 48 57 c.
Definition is_upper (c : ascii) : bool := between 65 90 c.
Definition is_lower (c : ascii) : bool := between 97 122 c.
Definition is_alpha (c : ascii) : bool := is_upper c || is_lower c.

(** [c.isspace()]: tab, line feed, vertical tab, form feed, carriage
    return, the four separators 0x1c-0x1f and the blank. *)
Definition is_space (c : ascii) : bool :=
  between 9 13 c || between 28 31 c || (code c =? 32)%nat.

Definition lower_char (c : ascii) : ascii :=
  if is_upper c then ascii_of_nat (code c + 32) else c.
Definition upper_char (c : ascii) : ascii :=
  if is_lower c then ascii_of_nat (code c - 32) else c.

Fixpoint map_chars (f : ascii -> ascii) (s : string) : string :=
  match s with
  | EmptyString => EmptyString
  | String c t => String (f c) (map_chars f t)
  end.

(** [s.lower()] and [s.upper()]. *)
Definition lower (s : string) : string := map_chars lower_char s.
Definition upper (s : string) : string := map_chars upper_char s.

(** [len(s)]. *)
Definition len (s : string) : nat := String.length s.

(** [s.startswith(p)]. *)
Fixpoint startswith (p s : string) : bool :=
  match p, s with
  | EmptyString, _ => true
  | String a p', String b s' => Ascii.eqb a b && startswith p' s'
  | String _ _, EmptyString => false
  end.

(** [sub in s]. *)
Fixpoint contains (sub s : string) : bool :=
  startswith sub s ||
  match s with
  | EmptyString => false
  | String _ t => contains sub t
  end.

(** [s.lstrip()], [s.rstrip()] and [s.strip()]. *)
Fixpoint lstrip (s : string) : string :=
  match s with
  | EmptyString => EmptyString
  | String c t => if is_space c then lstrip t else s
  end.

Fixpoint rstrip (s : string) : string :=
  match s with
  | EmptyString => EmptyString
  | String c t =>
      match rstrip t with
      | EmptyString => if is_space c then EmptyString else String c EmptyString
      | t' => String c t'
      end
  end.

Definition strip (s : string) : string := rstrip (lstrip s).

(** [s.replace(old, new)] and [s.replace(old, new, 1)] for a
    one-character [old], the only form the sources use. *)
Fixpoint replace (old : ascii) (new : string) (s : string) : string :=
  match s with
  | EmptyString => EmptyString
  | String c t =>
      if Ascii.eqb c old then new ++ replace old new t
      else String c (replace old new t)
  end.

Fixpoint replace_first (old : ascii) (new : string) (s : string) : string :=
  match s with
  | EmptyString => EmptyString
  | String c t =>
      if Ascii.eqb c old then new ++ t
      else String c (replace_first old new t)
  end.

(** [s.endswith(c)] for a one-character suffix. *)
Fixpoint endswith (c : ascii) (s : string) : bool :=
  match s with
  | EmptyString => false
  | String a EmptyString => Ascii.eqb a c
  | String _ t => endswith c t
  end.

(** [s.count(c)] for a one-character needle. *)
Fixpoint count (c : ascii) (s : string) : nat :=
  match s with
  | EmptyString => 0
  | String a t => (if Ascii.eqb a c then 1 else 0) + count c t
  end.

(** [s.find(c)]: the first index of [c], or [-1]. *)
Fixpoint find (c : ascii) (s : string) : Z :=
  match s with
  | EmptyString => (-1)%Z
  | String a t =>
      if Ascii.eqb a c then 0%Z
      else match find c t with
           | Zneg _ => (-1)%Z
           | i => (i + 1)%Z
           end
  end.

Fixpoint take (n : nat) (s : string) : string :=
  match n, s with
  | S n', String c t => String c (take n' t)
  | _, _ => EmptyString
  end.

Fixpoint drop (n : nat) (s : string) : string :=
  match n, s with
  | S n', String _ t => drop n' t
  | _, _ => s
  end.

(** A slice bound [i] of [s[:i]] or [s[i:]]: negative bounds count from
    the end, and every bound is clipped to [0 .. len(s)]. *)
Definition bound (s : string) (i : Z) : nat :=
  if (i <? 0)%Z then Z.to_nat (Z.of_nat (len s) + i)
  else Nat.min (Z.to_nat i) (len s).

(** [s[:i]] and [s[i:]]. *)
Definition slice_to (s : string) (i : Z) : string := take (bound s i) s.
Definition slice_from (s : string) (i : Z) : string := drop (bound s i) s.

Fixpoint all_chars (p : ascii -> bool) (s : string) : bool :=
  match s with
  | EmptyString => true
  | String c t => p c && all_chars p t
  end.

(** [s.isdigit()]: non-empty and made of digits. *)
Definition isdigit (s : string) : bool :=
  negb (String.eqb s "") && all_chars is_digit s.

(** [s.zfill(w)] on unsigned text. *)
Fixpoint zeros (n : nat) : string :=
  match n with
  | O => EmptyString
  | S n' => String "0" (zeros n')
  end.

Definition zfill (w : nat) (s : string) : string := zeros (w - len s) ++ s.

(** [s.split(sep)] for a separator of any length; [fuel] bounds the
    number of characters read and [len s] is enough. *)
Fixpoint split_fuel (fuel : nat) (sep s : string) : list string :=
  match fuel with
  | O => [s]
  | S fuel' =>
      match s with
      | EmptyString => [EmptyString]
      | String c t =>
          if startswith sep s
          then EmptyString :: split_fuel fuel' sep (drop (len sep) s)
          else match split_fuel fuel' sep t with
               | [] => [String c EmptyString]
               | w :: ws => String c w :: ws
               end
      end
  end.

Definition split_str (sep s : string) : list string :=
  split_fuel (len s) sep s.

(** [s.rfind(c)]: the last index of [c], or [-1]. *)
Fixpoint rfind (c : ascii) (s : string) : Z :=
  match s with
  | EmptyString => (-1)%Z
  | String a t =>
      match rfind c t with
      | Zneg _ => if Ascii.eqb a c then 0%Z else (-1)%Z
      | i => (i + 1)%Z
      end
  end.

(** [s[i:j]]. *)
Definition slice (s : string) (i j : Z) : string :=
  take (bound s j - bound s i) (drop (bound s i) s).

(** The truth value of a string: [bool(s)]. *)
Definition truthy (s : string) : bool := negb (String.eqb s "").

End Py.

(** ** Regular expressions: the fragment of Python's [re] the sources use

    Patterns are kept as the text written in the sources and compiled
    by [Re.compile].  Matching is the backtracking search of [re]:
    alternatives are tried left to right, greedy repetitions try one
    more iteration before stopping, lazy ones stop first, and
    [re.search] returns the first success at the leftmost start. *)

Module Re.

(** One member of a bracketed set, or a lone character. *)
Inductive item : Type :=
| IChar (c : ascii)            (* a literal character *)
| IRange (lo hi : ascii)       (* a-z *)
| IDigit                       (* \d *)
| ISpace                       (* \s *)
| IWord                        (* \w *)
| IAny.                        (* . : anything but a line feed *)

Inductive regex : Type :=
| Eps
| Cls (negated : bool) (items : list item)
| Cat (r1 r2 : regex)
| Alt (r1 r2 : regex)
| Rep (greedy : bool) (lo : nat) (hi : option nat) (r : regex)
| Grp (i : nat) (r : regex).

Definition item_mem (it : item) (c : ascii) : bool :=
  match it with
  | IChar a => Ascii.eqb a c
  | IRange lo hi => Py.between (Py.code lo) (Py.code hi) c
  | IDigit => Py.is_digit c
  | ISpace => Py.is_space c
  | IWord => Py.is_alpha c || Py.is_digit c || Ascii.eqb c "_"
  | IAny => negb (Ascii.eqb c "010")
  end.

(** Under [re.IGNORECASE] a character matches when either of its cases
    does. *)
Definition item_mem_flag (ignorecase : bool) (it : item) (c : ascii) : bool :=
  item_mem it c ||
  (ignorecase && (item_mem it (Py.lower_char c) || item_mem it (Py.upper_char c))).

Definition cls_mem (ignorecase negated : bool) (items : list item) (c : ascii) : bool :=
  xorb negated (existsb (fun it => item_mem_flag ignorecase it c) items).

(** Captured groups, most recent first. *)
Definition captures : Type := list (nat * string).

Fixpoint group (cs : captures) (i : nat) : option string :=
  match cs with
  | [] => None
  | (j, s) :: rest => if (i =? j)%nat then Some s else group rest i
  end.

Definition below (n : nat) (hi : option nat) : bool :=
  match hi with
  | None => true
  | Some h => (n <? h)%nat
  end.

(** A matcher reads a prefix of the text and hands the rest to its
    continuation; a [None] from the continuation makes it backtrack. *)
Definition matcher (R : Type) : Type :=
  string -> captures -> (string -> captures -> option R) -> option R.

(** [iterate body greedy lo hi k fuel n s cs] repeats [body] after [n]
    iterations already done: a greedy repetition tries one more
    iteration before stopping, a lazy one stops first.  An iteration
    has to consume text (every repeated sub-pattern of the sources
    does), so [fuel = len s] is never exhausted. *)
Fixpoint iterate {R : Type} (body : matcher R) (greedy : bool) (lo : nat)
    (hi : option nat) (k : string -> captures -> option R)
    (fuel n : nat) (s : string) (cs : captures) {struct fuel} : option R :=
  let stop (_ : unit) : option R :=
    if (lo <=? n)%nat then k s cs else None in
  let more (_ : unit) : option R :=
    match fuel with
    | O => None
    | S fuel' =>
        if below n hi then
          body s cs
            (fun s1 c1 =>
               if (Py.len s1 <? Py.len s)%nat
               then iterate body greedy lo hi k fuel' (S n) s1 c1 else None)
        else None
    end in
  if greedy then
    match more tt with Some x => Some x | None => stop tt end
  else
    match stop tt with Some x => Some x | None => more tt end.

(** [run ic r] matches [r] at the head of the text. *)
Fixpoint run {R : Type} (ic : bool) (r : regex) (s : string) (cs : captures)
    (k : string -> captures -> option R) {struct r} : option R :=
  match r with
  | Eps => k s cs
  | Cls neg items =>
      match s with
      | EmptyString => None
      | String c t => if cls_mem ic neg items c then k t cs else None
      end
  | Cat r1 r2 => run ic r1 s cs (fun s1 c1 => run ic r2 s1 c1 k)
  | Alt r1 r2 =>
      match run ic r1 s cs k with
      | Some x => Some x
      | None => run ic r2 s cs k
      end
  | Grp i r1 =>
      run ic r1 s cs
        (fun s1 c1 => k s1 ((i, Py.take (Py.len s - Py.len s1) s) :: c1))
  | Rep greedy lo hi r1 =>
      iterate (run ic r1) greedy lo hi k (Py.len s) 0%nat s cs
  end.

(** [pattern.match(s)]: the groups and the unread rest of [s]. *)
Definition match_prefix (ic : bool) (r : regex) (s : string)
  : option (captures * string) :=
  run ic r s [] (fun rest cs => Some (cs, rest)).

(** [pattern.search(s)]: the groups of the leftmost match. *)
Fixpoint search_regex (ic : bool) (r : regex) (s : string) : option captures :=
  match match_prefix ic r s with
  | Some (cs, _) => Some cs
  | None =>
      match s with
      | EmptyString => None
      | String _ t => search_regex ic r t
      end
  end.

(** *** Reading a pattern *)

Definition ch (c : ascii) (d : string) : bool := String.eqb (String c EmptyString) d.

Definition escape_item (c : ascii) : item :=
  if ch c "d" then IDigit
  else if ch c "s" then ISpace
  else if ch c "w" then IWord
  else IChar c.

Definition lit (c : ascii) : regex := Cls false [IChar c].

(** The members of a bracketed set, up to the closing bracket. *)
Fixpoint parse_set (s : string) (acc : list item) : option (list item * string) :=
  match s with
  | EmptyString => None
  | String c t =>
      if ch c "]" then Some (rev acc, t)
      else if ch c "\" then
        match t with
        | String e t' => parse_set t' (escape_item e :: acc)
        | EmptyString => None
        end
      else
        match t with
        | String d (String hi t') =>
            if ch d "-" && negb (ch hi "]")
            then parse_set t' (IRange c hi :: acc)
            else parse_set t (IChar c :: acc)
        | _ => parse_set t (IChar c :: acc)
        end
  end.

Fixpoint parse_nat (s : string) (acc : option nat) : option nat * string :=
  match s with
  | String c t =>
      if Py.is_digit c
      then parse_nat t (Some (10 * default 0%nat acc + (Py.code c - 48)))%nat
      else (acc, s)
  | EmptyString => (acc, s)
  end.

(** A trailing [?] makes the quantifier lazy. *)
Definition laziness (lo : nat) (hi : option nat) (a : regex) (s : string)
  : regex * string :=
  match s with
  | String c t => if ch c "?" then (Rep false lo hi a, t) else (Rep true lo hi a, s)
  | EmptyString => (Rep true lo hi a, s)
  end.

(** The quantifier, if any, that follows the atom [a]. *)
Definition parse_quant (a : regex) (s : string) : option (regex * string) :=
  match s with
  | String c t =>
      if ch c "?" then Some (laziness 0 (Some 1%nat) a t)
      else if ch c "*" then Some (laziness 0 None a t)
      else if ch c "+" then Some (laziness 1 None a t)
      else if ch c "{" then
        match parse_nat t None with
        | (Some lo, String d t1) =>
            if ch d "}" then Some (laziness lo (Some lo) a t1)
            else if ch d "," then
              match parse_nat t1 None with
              | (hi, String e t2) =>
                  if ch e "}" then Some (laziness lo hi a t2) else None
              | _ => None
              end
            else None
        | _ => None
        end
      else Some (a, s)
  | EmptyString => Some (a, s)
  end.

(** Skips the name of a named group, [(?P<name>...)]. *)
Fixpoint skip_name (s : string) : option string :=
  match s with
  | EmptyString => None
  | String c t => if ch c ">" then Some t else skip_name t
  end.

Definition closing (res : option (regex * string * nat)) (wrap : regex -> regex)
  : option (regex * string * nat) :=
  match res with
  | Some (r, String c rest, g) =>
      if ch c ")" then Some (wrap r, rest, g) else None
  | _ => None
  end.

(** Alternations, sequences and atoms; [g] counts the capturing groups
    opened so far, which are numbered by their opening parenthesis. *)
Fixpoint parse_alt (fuel : nat) (s : string) (g : nat) {struct fuel}
  : option (regex * string * nat) :=
  match fuel with
  | O => None
  | S f =>
      match parse_seq f s g with
      | Some (r1, String c rest, g1) =>
          if ch c "|" then
            match parse_alt f rest g1 with
            | Some (r2, rest2, g2) => Some (Alt r1 r2, rest2, g2)
            | None => None
            end
          else Some (r1, String c rest, g1)
      | other => other
      end
  end
with parse_seq (fuel : nat) (s : string) (g : nat) {struct fuel}
  : option (regex * string * nat) :=
  match fuel with
  | O => None
  | S f =>
      match s with
      | EmptyString => Some (Eps, s, g)
      | String c _ =>
          if ch c "|" || ch c ")" then Some (Eps, s, g)
          else
            match parse_atom f s g with
            | Some (a, rest, g1) =>
                match parse_quant a rest with
                | Some (q, rest1) =>
                    match parse_seq f rest1 g1 with
                    | Some (Eps, rest2, g2) => Some (q, rest2, g2)
                    | Some (r, rest2, g2) => Some (Cat q r, rest2, g2)
                    | None => None
                    end
                | None => None
                end
            | None => None
            end
      end
  end
with parse_atom (fuel : nat) (s : string) (g : nat) {struct fuel}
  : option (regex * string * nat) :=
  match fuel with
  | O => None
  | S f =>
      match s with
      | EmptyString => None
      | String c t =>
          if ch c "(" then
            if Py.startswith "?:" t then
              closing (parse_alt f (Py.drop 2 t) g) (fun r => r)
            else if Py.startswith "?P<" t then
              match skip_name (Py.drop 3 t) with
              | Some t' => closing (parse_alt f t' (S g)) (Grp (S g))
              | None => None
              end
            else closing (parse_alt f t (S g)) (Grp (S g))
          else if ch c "[" then
            match t with
            | String n t' =>
                match (if ch n "^" then parse_set t' [] else parse_set t []) with
                | Some (items, rest) => Some (Cls (ch n "^") items, rest, g)
                | None => None
                end
            | EmptyString => None
            end
          else if ch c "\" then
            match t with
            | String e t' => Some (Cls false [escape_item e], t', g)
            | EmptyString => None
            end
          else if ch c "." then Some (Cls false [IAny], t, g)
          else Some (lit c, t, g)
      end
  end.

(** [m.group(i)] of a group that took part in the match. *)
Definition text (cs : captures) (i : nat) : string :=
  default EmptyString (group cs i).

(** [re.compile(pattern)]; [None] stands for [re.error]. *)
Definition compile (pattern : string) : option regex :=
  match parse_alt (3 * Py.len pattern + 3) pattern 0 with
  | Some (r, EmptyString, _) => Some r
  | _ => None
  end.

(** [re.search(pattern, s)] and [re.search(pattern, s, re.IGNORECASE)]. *)
Definition search (pattern : string) (ignorecase : bool) (s : string)
  : option captures :=
  match compile pattern with
  | Some r => search_regex ignorecase r s
  | None => None
  end.

End Re.

(** ** Python values, exceptions and conversions *)

(** A float is kept as the decimal number it was read from: [Finite q]
    stands for the binary64 value nearest to [q].  Rounding is a
    function of [q], so two floats with equal [q] are equal. *)
Inductive pyfloat : Type :=
| Finite (q : Q)
| Infinite (negative : bool)
| NaN.

(** The values that [json.loads] and the extractors produce. *)
#[warnings="-register-all"]
Inductive value : Type :=
| VNone
| VBool (b : bool)
| VInt (z : Z)
| VFloat (f : pyfloat)
| VStr (s : string)
| VList (l : list value)
| VDict (d : gmap string value).

Inductive exn : Type :=
| ValueError (msg : string)
| TypeError
| AttributeError
| KeyError (key : string)
| IndexError
| JSONDecodeError
| HTTPException (status_code : nat) (detail : string).

(** The outcome of a computation that may raise. *)
Inductive result (A : Type) : Type :=
| Ok (a : A)
| Raise (e : exn).
Arguments Ok {A} a.
Arguments Raise {A} e.

(** Sequencing, written [x ← r; k] below: an exception raised by [r]
    skips [k]. *)
#[global] Instance result_bind : MBind result := fun A B k r =>
  match r with
  | Ok a => k a
  | Raise e => Raise e
  end.
#[global] Instance result_ret : MRet result := fun A a => Ok a.

(** [try: body except Exception as e: handler]. *)
Definition try_except {A : Type} (body : result A) (handler : exn -> result A)
  : result A :=
  match body with
  | Ok a => Ok a
  | Raise e => handler e
  end.

Definition raised {A : Type} (r : result A) : bool :=
  match r with
  | Ok _ => false
  | Raise _ => true
  end.

Module Conv.

Definition digit (c : ascii) : Z := Z.of_nat (Py.code c - 48).

(** Reads [digit (["_"] digit)*]: the number, how many digits it has
    and the unread rest. *)
Fixpoint digits (s : string) (acc : Z) (n : nat) : Z * nat * string :=
  match s with
  | String c t =>
      if Py.is_digit c then digits t (10 * acc + digit c)%Z (S n)
      else if Ascii.eqb c "_" then
        match t with
        | String d t' =>
            if Py.is_digit d then digits t' (10 * acc + digit d)%Z (S n)
            else (acc, n, s)
        | EmptyString => (acc, n, s)
        end
      else (acc, n, s)
  | EmptyString => (acc, n, s)
  end.

Definition digitpart (s : string) : option (Z * nat * string) :=
  match s with
  | String c _ => if Py.is_digit c then Some (digits s 0%Z 0%nat) else None
  | EmptyString => None
  end.

(** [[digitpart] "." digitpart | digitpart ["."]]: the digits read as
    one integer, the number of them after the point, and the rest. *)
Definition number (s : string) : option (Z * nat * string) :=
  match digitpart s with
  | Some (i, _, String c t) =>
      if Ascii.eqb c "." then
        match digitpart t with
        | Some (f, nf, rest) => Some ((i * 10 ^ Z.of_nat nf + f)%Z, nf, rest)
        | None => Some (i, 0%nat, t)
        end
      else Some (i, 0%nat, String c t)
  | Some (i, _, EmptyString) => Some (i, 0%nat, EmptyString)
  | None =>
      match s with
      | String c t =>
          if Ascii.eqb c "." then
            match digitpart t with
            | Some (f, nf, rest) => Some (f, nf, rest)
            | None => None
            end
          else None
      | EmptyString => None
      end
  end.

Definition sign (s : string) : bool * string :=
  match s with
  | String c t =>
      if Ascii.eqb c "-" then (true, t)
      else if Ascii.eqb c "+" then (false, t)
      else (false, s)
  | EmptyString => (false, s)
  end.

(** [("e" | "E") [sign] digitpart], or nothing. *)
Definition exponent (s : string) : option (Z * string) :=
  match s with
  | String c t =>
      if Ascii.eqb (Py.lower_char c) "e" then
        let '(neg, t1) := sign t in
        match digitpart t1 with
        | Some (e, _, rest) => Some ((if neg then - e else e)%Z, rest)
        | None => None
        end
      else Some (0%Z, s)
  | EmptyString => Some (0%Z, s)
  end.

(** [m * 10^e] as a reduced fraction. *)
Definition scale10 (m e : Z) : Q :=
  if (0 <=? e)%Z then Qmake (m * 10 ^ e) 1
  else Qred (Qmake m (Z.to_pos (10 ^ (- e)))).

(** [float(s)] on text. *)
Definition float (s : string) : result pyfloat :=
  let '(neg, body) := sign (Py.strip s) in
  let word := Py.lower body in
  if String.eqb word "inf" || String.eqb word "infinity" then Ok (Infinite neg)
  else if String.eqb word "nan" then Ok NaN
  else
    match number body with
    | Some (m, nf, rest) =>
        match exponent rest with
        | Some (e, EmptyString) =>
            Ok (Finite (scale10 (if neg then - m else m) (e - Z.of_nat nf)))
        | _ => Raise (ValueError "could not convert string to float")
        end
    | None => Raise (ValueError "could not convert string to float")
    end.

(** [int(s)] on text that passed [s.isdigit()]. *)
Definition int (s : string) : Z := fst (fst (digits s 0%Z 0%nat)).

(** [str(n)] for an integer. *)
Definition str_int (z : Z) : string := NilZero.string_of_int (Z.to_int z).

(** [int(s)] on any text: white space around, a sign, and digits with
    single underscores between them. *)
Definition int_text (s : string) : result Z :=
  let '(neg, body) := Conv.sign (Py.strip s) in
  match Conv.digitpart body with
  | Some (n, _, EmptyString) => Ok (if neg then - n else n)%Z
  | _ => Raise (ValueError "invalid literal for int() with base 10")
  end.

End Conv.

(** ** The standard library's [datetime.strptime] and [strftime]

    [Date.strptime_iso date_string fmt] is
    [datetime.strptime(date_string, fmt).strftime("%Y-%m-%d")] for the
    directives [%d %b %m %y %Y] in the C locale, with the year printed
    on four digits. *)

Module Date.

Definition months : list string :=
  ["jan"; "feb"; "mar"; "apr"; "may"; "jun";
   "jul"; "aug"; "sep"; "oct"; "nov"; "dec"].

(** The regular expression that [_strptime] puts in place of a
    directive. *)
Definition directive_pattern (c : ascii) : option string :=
  if Ascii.eqb c "d" then Some "(?P<d>3[0-1]|[1-2]\d|0[1-9]|[1-9]| [1-9])"
  else if Ascii.eqb c "m" then Some "(?P<m>1[0-2]|0[1-9]|[1-9])"
  else if Ascii.eqb c "b" then
    Some "(?P<b>jan|feb|mar|apr|may|jun|jul|aug|sep|oct|nov|dec)"
  else if Ascii.eqb c "y" then Some "(?P<y>\d\d)"
  else if Ascii.eqb c "Y" then Some "(?P<Y>\d\d\d\d)"
  else None.

(** The pattern of a format and its directives in order of appearance. *)
Fixpoint format_pattern (fmt : string) : option (string * list ascii) :=
  match fmt with
  | EmptyString => Some (EmptyString, [])
  | String c t =>
      if Ascii.eqb c "%" then
        match t with
        | String d t' =>
            match directive_pattern d, format_pattern t' with
            | Some p, Some (rest, ds) => Some (p ++ rest, d :: ds)
            | _, _ => None
            end
        | EmptyString => None
        end
      else
        match format_pattern t with
        | Some (rest, ds) => Some (String "\" (String c rest), ds)
        | None => None
        end
  end.

Fixpoint index_of (x : string) (l : list string) (i : Z) : Z :=
  match l with
  | [] => 0%Z
  | y :: t => if String.eqb x y then i else index_of x t (i + 1)%Z
  end.

Record fields : Type := { year : Z; month : Z; day : Z }.

(** Stores the text matched by the directive [d]; two-digit years up
    to 68 are in the 2000s, the others in the 1900s. *)
Definition set_field (d : ascii) (text : string) (f : fields) : fields :=
  let n := Conv.int (Py.lstrip text) in
  if Ascii.eqb d "d" then {| year := year f; month := month f; day := n |}
  else if Ascii.eqb d "m" then {| year := year f; month := n; day := day f |}
  else if Ascii.eqb d "b" then
    {| year := year f; month := index_of (Py.lower text) months 1; day := day f |}
  else if Ascii.eqb d "y" then
    {| year := (if n <=? 68 then n + 2000 else n + 1900)%Z;
       month := month f; day := day f |}
  else {| year := n; month := month f; day := day f |}.

Fixpoint fill (ds : list ascii) (i : nat) (cs : Re.captures) (f : fields) : fields :=
  match ds with
  | [] => f
  | d :: t =>
      fill t (S i) cs (set_field d (default EmptyString (Re.group cs i)) f)
  end.

Definition is_leap (y : Z) : bool :=
  ((y mod 4 =? 0) && (negb (y mod 100 =? 0) || (y mod 400 =? 0)))%Z.

Definition days_in_month (y m : Z) : Z :=
  if (m =? 2)%Z then (if is_leap y then 29 else 28)%Z
  else if ((m =? 4) || (m =? 6) || (m =? 9) || (m =? 11))%Z then 30%Z
  else 31%Z.

(** [date(year, month, day)] accepts the triple. *)
Definition valid (f : fields) : bool :=
  ((1 <=? year f) && (year f <=? 9999) &&
   (1 <=? month f) && (month f <=? 12) &&
   (1 <=? day f) && (day f <=? days_in_month (year f) (month f)))%Z.

Definition two (n : Z) : string := Py.zfill 2 (Conv.str_int n).
Definition four (n : Z) : string := Py.zfill 4 (Conv.str_int n).

Definition isoformat (f : fields) : string :=
  four (year f) ++ "-" ++ two (month f) ++ "-" ++ two (day f).

Definition strptime_iso (date_string fmt : string) : result string :=
  match format_pattern fmt with
  | Some (pattern, ds) =>
      match Re.compile pattern with
      | Some r =>
          match Re.match_prefix true r date_string with
          | Some (cs, EmptyString) =>
              let f := fill ds 1 cs {| year := 1900; month := 1; day := 1 |} in
              if valid f then Ok (isoformat f)
              else Raise (ValueError "day is out of range for month")
          | Some (_, String _ _) => Raise (ValueError "unconverted data remains")
          | None => Raise (ValueError "time data does not match format")
          end
      | None => Raise (ValueError "bad directive in format")
      end
  | None => Raise (ValueError "bad directive in format")
  end.

End Date.

(** The rupee sign, U+20B9, as its UTF-8 bytes. *)
Definition rupee : string :=
  String "226" (String "130" (String "185" EmptyString)).

(** [x in d] and [d.update(other)] on dictionaries. *)
Definition has_key (k : string) (d : gmap string value) : bool :=
  bool_decide (is_Some (d !! k)).

Definition update (d other : gmap string value) : gmap string value :=
  other ∪ d.

(** ** Backend/main_with_api.py *)

Module MainWithApi.

(** *** Date parsing *)

Definition month_map : gmap string string :=
  list_to_map
    [("JAN", "01"); ("FEB", "02"); ("MAR", "03"); ("APR", "04");
     ("MAY", "05"); ("JUN", "06"); ("JUL", "07"); ("AUG", "08");
     ("SEP", "09"); ("OCT", "10"); ("NOV", "11"); ("DEC", "12")].

Definition pattern1 : string := "(\d{1,2})[-\s/]([A-Za-z]{3})[-\s/](\d{2,4})".
Definition pattern2 : string := "(\d{1,2})[-/](\d{1,2})[-/](\d{4})".
Definition pattern3 : string := "(\d{4})[-/](\d{1,2})[-/](\d{1,2})".
Definition pattern4 : string := "(\d{2})[-/](\d{1,2})[-/](\d{1,2})".

Definition strptime_formats : list string :=
  ["%d-%b-%y"; "%d/%m/%Y"; "%d-%m-%Y"; "%Y-%m-%d"; "%y-%m-%d"].

(** The loop over the [strptime] formats: the first format that parses
    wins, a [ValueError] moves on to the next one. *)
Fixpoint strptime_fallback (date_str : string) (formats : list string)
  : result (option string) :=
  match formats with
  | [] => Ok None
  | fmt :: rest =>
      match Date.strptime_iso date_str fmt with
      | Ok iso => Ok (Some iso)
      | Raise (ValueError _) => strptime_fallback date_str rest
      | Raise e => Raise e
      end
  end.

(** The body of the [try] block of [parse_date]. *)
Definition parse_date_try (date_str : string) : result (option string) :=
  match Re.search pattern1 false date_str with
  | Some match1 =>
      let day := Re.text match1 1 in
      let month_str := Re.text match1 2 in
      let year := Re.text match1 3 in
      let month := default "01" (month_map !! Py.upper month_str) in
      let year := if (Py.len year =? 2)%nat then "20" ++ year else year in
      let day := Py.zfill 2 day in
      Ok (Some (year ++ "-" ++ month ++ "-" ++ day))
  | None =>
  match Re.search pattern2 false date_str with
  | Some match2 =>
      let day := Py.zfill 2 (Re.text match2 1) in
      let month := Py.zfill 2 (Re.text match2 2) in
      let year := Re.text match2 3 in
      Ok (Some (year ++ "-" ++ month ++ "-" ++ day))
  | None =>
  match Re.search pattern3 false date_str with
  | Some match3 =>
      let year := Re.text match3 1 in
      let day := Py.zfill 2 (Re.text match3 3) in
      let month := Py.zfill 2 (Re.text match3 2) in
      Ok (Some (year ++ "-" ++ month ++ "-" ++ day))
  | None =>
  match Re.search pattern4 false date_str with
  | Some match4 =>
      let year := "20" ++ Re.text match4 1 in
      let day := Py.zfill 2 (Re.text match4 3) in
      let month := Py.zfill 2 (Re.text match4 2) in
      Ok (Some (year ++ "-" ++ month ++ "-" ++ day))
  | None => strptime_fallback date_str strptime_formats
  end end end end.

(** [parse_date]: whatever the [try] block raises is logged and
    answered with [None]. *)
Definition parse_date (date_str : string) : option string :=
  match parse_date_try date_str with
  | Ok parsed => parsed
  | Raise _ => None
  end.

(** *** Numeric clean-up *)

Definition clean_numeric_string (value_str : string) : option string :=
  if negb (Py.truthy value_str) then None
  else
    let cleaned := Py.replace "," "" value_str in
    let cleaned :=
      if Py.endswith "." cleaned
      then Py.slice_to cleaned (-1) else cleaned in
    let cleaned :=
      if (1 <? Py.count "." cleaned)%nat then
        let first_dot := Py.find "." cleaned in
        Py.slice_to cleaned (first_dot + 1)
        ++ Py.replace "." "" (Py.slice_from cleaned (first_dot + 1))
      else cleaned in
    Some cleaned.

(** *** Classification *)

(** The conditions of the decision list, on the lowercased message. *)
Definition salary_rule (message_lower : string) : bool :=
  Py.contains "salary" message_lower || Py.contains "credited" message_lower
  || Py.contains "deposited" message_lower.

Definition emi_rule (message_lower : string) : bool :=
  (Py.contains "loan" message_lower || Py.contains "emi" message_lower)
  && (Py.contains "debited" message_lower || Py.contains "deducted" message_lower
      || Py.contains "due on" message_lower).

Definition credit_card_rule (message_lower : string) : bool :=
  Py.contains "credit card" message_lower || Py.contains "creditcard" message_lower
  || Py.contains "card member" message_lower.

Definition sip_rule (message_lower : string) : bool :=
  Py.contains "sip" message_lower
  && existsb (fun keyword => Py.contains keyword message_lower)
       ["processed"; "deducted"; "under folio"; "has been processed"].

Definition insurance_rule (message_lower : string) : bool :=
  Py.contains "insurance" message_lower || Py.contains "premium" message_lower
  || Py.contains "policy" message_lower.

Definition credit_rule (message_lower : string) : bool :=
  Py.contains "credited" message_lower || Py.contains "deposited" message_lower.

Definition debit_rule (message_lower : string) : bool :=
  Py.contains "debited" message_lower || Py.contains "deducted" message_lower.

Definition classify_message_type (message : string) : string :=
  let message_lower := Py.lower message in
  if salary_rule message_lower then "SALARY_CREDIT"
  else if emi_rule message_lower then "EMI_PAYMENT"
  else if credit_card_rule message_lower then "CREDIT_CARD_TRANSACTION"
  else if sip_rule message_lower then "SIP_INVESTMENT"
  else if insurance_rule message_lower then "INSURANCE_PAYMENT"
  else if credit_rule message_lower then "CREDIT_TRANSACTION"
  else if debit_rule message_lower then "DEBIT_TRANSACTION"
  else "OTHER_FINANCIAL".

(** *** Field extraction *)

(** The block repeated for every numeric field: clean the captured
    text and, unless it is empty or [float] raises [ValueError], store
    the number under [key]. *)
Definition store_number (key captured : string) (data : gmap string value)
  : gmap string value :=
  match clean_numeric_string captured with
  | Some cleaned =>
      if Py.truthy cleaned then
        match Conv.float cleaned with
        | Ok f => <[key := VFloat f]> data
        | Raise _ => data
        end
      else data
  | None => data
  end.

(** Stores the normalised date unless [parse_date] gave nothing. *)
Definition store_date (date_str : string) (data : gmap string value)
  : gmap string value :=
  match parse_date date_str with
  | Some parsed_date =>
      if Py.truthy parsed_date
      then <["transaction_date" := VStr parsed_date]> data else data
  | None => data
  end.

(** The three date patterns anchored to the word SIP: the first one
    whose capture parses ends the loop. *)
Fixpoint sip_dates (patterns : list string) (message : string)
    (data : gmap string value) : gmap string value :=
  match patterns with
  | [] => data
  | pattern :: rest =>
      match Re.search pattern false message with
      | Some date_match =>
          match parse_date (Re.text date_match 1) with
          | Some parsed_date =>
              if Py.truthy parsed_date
              then <["transaction_date" := VStr parsed_date]> data
              else sip_dates rest message data
          | None => sip_dates rest message data
          end
      | None => sip_dates rest message data
      end
  end.

Definition extract_sip_data (message : string) : gmap string value :=
  let data : gmap string value := ∅ in
  let amount_pattern := "(?:Rs\.?|INR)\s*([\d,]+\.?\d*)" in
  let data :=
    match Re.search amount_pattern false message with
    | Some amount_match => store_number "amount" (Re.text amount_match 1) data
    | None => data
    end in
  let date_patterns :=
    ["SIP of (\d{2}/\d{2}/\d{4})";
     "SIP of (\d{2}-\d{2}-\d{4})";
     "SIP of (\d{2}-[A-Za-z]{3}-\d{2,4})"] in
  let data := sip_dates date_patterns message data in
  let data :=
    if negb (has_key "transaction_date" data) then
      let general_date_pattern :=
        "(\d{2}[-/]\d{2}[-/]\d{4}|\d{2}[-\s][A-Za-z]{3}[-\s]\d{2,4})" in
      match Re.search general_date_pattern false message with
      | Some date_match => store_date (Re.text date_match 1) data
      | None => data
      end
    else data in
  let folio_pattern := "[Ff]olio\s+([A-Z0-9]+)" in
  let data :=
    match Re.search folio_pattern false message with
    | Some folio_match => <["folio_number" := VStr (Re.text folio_match 1)]> data
    | None => data
    end in
  let fund_pattern := "in\s+([A-Za-z\s\-]+?)(?:Regular|has been)" in
  let data :=
    match Re.search fund_pattern false message with
    | Some fund_match =>
        <["fund_name" := VStr (Py.strip (Re.text fund_match 1))]> data
    | None => data
    end in
  let nav_pattern := "NAV of\s+([\d\.]+)" in
  match Re.search nav_pattern false message with
  | Some nav_match => store_number "nav_value" (Re.text nav_match 1) data
  | None => data
  end.

(** The first known insurer named in the message, if any. *)
Fixpoint insurance_company (companies : list string) (message : string)
    (data : gmap string value) : gmap string value :=
  match companies with
  | [] => data
  | company :: rest =>
      if Py.contains (Py.lower company) (Py.lower message)
      then <["insurance_company" := VStr company]> data
      else insurance_company rest message data
  end.

Definition extract_financial_data (message_type message : string)
  : gmap string value :=
  let data : gmap string value := ∅ in
  let amount_pattern := "(?:INR|Rs\.?|" ++ rupee ++ ")\s*([\d,]+\.?\d*)" in
  let account_pattern :=
    "(?:A/c(?:\s+no)?\.?|Ac(?:\s+no)?\.?|card ending|account)\s*[:\-]?\s*([A-Z0-9]+\d{4})" in
  let date_pattern :=
    "(\d{2}[-/]\d{2}[-/]\d{2,4}|\d{2}[-\s][A-Za-z]{3}[-\s]\d{2,4})" in
  let balance_pattern :=
    "(?:Avl bal|available balance|net available balance)[^0-9]*(?:INR|Rs\.?|"
    ++ rupee ++ ")\s*([\d,]+\.?\d*)" in
  let data :=
    match Re.search amount_pattern false message with
    | Some amount_match => store_number "amount" (Re.text amount_match 1) data
    | None => data
    end in
  let data :=
    match Re.search account_pattern true message with
    | Some account_match =>
        <["account_number" := VStr (Re.text account_match 1)]> data
    | None => data
    end in
  let data :=
    match Re.search date_pattern false message with
    | Some date_match => store_date (Re.text date_match 1) data
    | None => data
    end in
  let data :=
    match Re.search balance_pattern true message with
    | Some balance_match =>
        store_number "available_balance" (Re.text balance_match 1) data
    | None => data
    end in
  let data :=
    match Re.search "(?:from|to|by)?\s*([A-Z][A-Za-z\s]+)\s+(?:Bank|BANK|bank)"
            false message with
    | Some bank_match =>
        <["bank_name" := VStr (Py.strip (Re.text bank_match 1) ++ " Bank")]> data
    | None => data
    end in
  if String.eqb message_type "SALARY_CREDIT" then
    match Re.search "- ([A-Za-z\s]+) -" false message with
    | Some employer_match =>
        <["employer" := VStr (Py.strip (Re.text employer_match 1))]> data
    | None => <["employer" := VStr "General Transaction"]> data
    end
  else if String.eqb message_type "EMI_PAYMENT" then
    let data :=
      match Re.search "([A-Z0-9]+\d{6,})" false message with
      | Some loan_ref_match =>
          <["loan_reference" := VStr (Re.text loan_ref_match 1)]> data
      | None => data
      end in
    match Re.search "Loan\s+([A-Za-z]+)" true message with
    | Some loan_type_match =>
        <["loan_type" := VStr (Re.text loan_type_match 1)]> data
    | None => <["loan_type" := VStr "Personal Loan"]> data
    end
  else if String.eqb message_type "CREDIT_CARD_TRANSACTION" then
    let data :=
      match Re.search "at\s+([A-Za-z\s]+)\s+on" true message with
      | Some merchant_match =>
          <["merchant" := VStr (Py.strip (Re.text merchant_match 1))]> data
      | None => data
      end in
    let data :=
      match Re.search "Authorization code[-:]?\s*(\w+)" false message with
      | Some auth_code_match =>
          <["authorization_code" := VStr (Re.text auth_code_match 1)]> data
      | None => data
      end in
    match Re.search
            ("total outstanding is\s+(?:Rs\.?|INR|" ++ rupee ++ ")\s*([\d,]+\.?\d*)")
            true message with
    | Some outstanding_match =>
        store_number "total_outstanding" (Re.text outstanding_match 1) data
    | None => data
    end
  else if String.eqb message_type "SIP_INVESTMENT" then
    let sip_data := extract_sip_data message in
    update data sip_data
  else if String.eqb message_type "INSURANCE_PAYMENT" then
    let data :=
      match Re.search "policy(?:\s+no\.?| number)?[:\-]?\s*([A-Z0-9]+)"
              true message with
      | Some policy_match =>
          <["policy_number" := VStr (Re.text policy_match 1)]> data
      | None => data
      end in
    let data :=
      insurance_company
        ["LIC"; "HDFC Life"; "ICICI Prudential"; "SBI Life"; "Tata AIA"]
        message data in
    <["insurance_type" := VStr "Life Insurance"]> data
  else data.

(** *** Sanitising the fields returned by the remote model *)

Section Sanitizer.

(** [str(v)] for a float or a container is left to Python. *)
Variable repr : value -> string.

Definition str (v : value) : string :=
  match v with
  | VNone => "None"
  | VBool true => "True"
  | VBool false => "False"
  | VInt z => Conv.str_int z
  | VStr s => s
  | _ => repr v
  end.

Definition identifier_keys : list string :=
  ["account_number"; "card_number"; "folio_number"; "policy_number"].

Definition is_identifier (key : string) : bool :=
  existsb (String.eqb key) identifier_keys.

(** What the loop body assigns to [data[key]] for a value that is not
    [None]. *)
Definition sanitize_value (key : string) (v : value) : value :=
  if is_identifier key then VStr (Py.strip (str v))
  else
    match v with
    | VStr s =>
        let cleaned := Py.strip s in
        if Py.isdigit (Py.replace_first "." "" cleaned) then
          if Py.contains "." cleaned then
            match Conv.float cleaned with
            | Ok f => VFloat f
            | Raise _ => VStr cleaned
            end
          else VInt (Conv.int cleaned)
        else VStr cleaned
    | VInt _ | VFloat _ | VBool _ => v
    | _ => VStr (Py.strip (str v))
    end.

(** One turn of the loop; [None] values are skipped. *)
Definition sanitize_step (data : gmap string value) (item : string * value)
  : gmap string value :=
  let '(key, v) := item in
  match v with
  | VNone => data
  | _ => <[key := sanitize_value key v]> data
  end.

(** The loop runs over the items of [data] and assigns into [data]
    itself, which is also what it returns. *)
Definition sanitize_llm_data (data : gmap string value) : gmap string value :=
  foldl sanitize_step data (map_to_list data).

End Sanitizer.

(** *** The remote analysis and its caller *)

(** [key in v], [v[key]] and [bool(v)] on a value of any type. *)
Definition py_in (key : string) (v : value) : result bool :=
  match v with
  | VDict d => Ok (has_key key d)
  | VList l =>
      Ok (existsb (fun x => match x with
                            | VStr s => String.eqb s key
                            | _ => false
                            end) l)
  | VStr s => Ok (Py.contains key s)
  | _ => Raise TypeError
  end.

Definition getitem (v : value) (key : string) : result value :=
  match v with
  | VDict d =>
      match d !! key with
      | Some x => Ok x
      | None => Raise (KeyError key)
      end
  | _ => Raise TypeError
  end.

Definition is_zero (f : pyfloat) : bool :=
  match f with
  | Finite q => Qeq_bool q 0
  | _ => false
  end.

Definition truthy (v : value) : bool :=
  match v with
  | VNone => false
  | VBool b => b
  | VInt z => negb (z =? 0)%Z
  | VFloat f => negb (is_zero f)
  | VStr s => Py.truthy s
  | VList l => negb (bool_decide (l = []))
  | VDict d => negb (bool_decide (d = ∅))
  end.

Definition extract_json_block (text : string) : string :=
  let start := Py.find "{" text in
  let end_ := Py.rfind "}" text in
  if (negb (start =? -1) && negb (end_ =? -1) && (start <? end_))%Z
  then Py.slice text start (end_ + 1)
  else Py.strip text.

(** What [process_single_message] returns. *)
Record analysis : Type := {
  message_type : value;
  important_points : value;
  data : gmap string value
}.

Section Remote.

Variable repr : value -> string.

(** [invoke message]: the prompt is formatted around the message and
    sent with [model.invoke]; the result is the text of the reply, or
    the exception raised on the way. *)
Variable invoke : string -> result string.

(** [json.loads]. *)
Variable json_loads : string -> result value.

(** [store_financial_data]: the database is outside the model; the
    call either raises or leaves [data] as returned here. *)
Variable store_financial_data :
  value -> gmap string value -> string -> value -> result (gmap string value).

(** The body of the [try] block of [analyze_with_llm]. *)
Definition analyze_with_llm_try (message : string) : result value :=
  response_text ← invoke message;
  let clean_text := extract_json_block response_text in
  match json_loads clean_text with
  | Raise JSONDecodeError => Ok VNone
  | Raise e => Raise e
  | Ok reply =>
      has_type ← py_in "message_type" reply;
      has_data ← (if has_type : bool then py_in "extracted_data" reply
                  else Ok false);
      has_points ← (if has_data : bool then py_in "important_points" reply
                    else Ok false);
      if negb has_points
      then Raise (ValueError "Missing required fields in LLM response")
      else
        extracted ← getitem reply "extracted_data";
        match extracted, reply with
        | VDict fields, VDict d =>
            Ok (VDict (<["extracted_data" := VDict (sanitize_llm_data repr fields)]> d))
        | _, _ => Raise AttributeError
        end
  end.

(** [analyze_with_llm]: every exception is logged and answered with
    [None]. *)
Definition analyze_with_llm (message : string) : value :=
  match analyze_with_llm_try message with
  | Ok result => result
  | Raise _ => VNone
  end.

Definition process_single_message (date_str message : string)
    (customer_info : value) : result analysis :=
  if negb (Py.truthy (Py.strip message))
  then Raise (ValueError "Message is empty or blank.")
  else
    let llm_result := analyze_with_llm message in
    if negb (truthy llm_result)
    then Raise (ValueError "LLM returned no result or failed to extract information")
    else
      message_type ← getitem llm_result "message_type";
      extracted ← getitem llm_result "extracted_data";
      important_points ← getitem llm_result "important_points";
      match extracted with
      | VDict data =>
          let data :=
            if negb (has_key "transaction_date" data)
               || negb (truthy (default VNone (data !! "transaction_date")))
            then
              let parsed_date :=
                if Py.truthy date_str then parse_date date_str else None in
              match parsed_date with
              | Some parsed =>
                  if Py.truthy parsed
                  then <["transaction_date" := VStr parsed]> data else data
              | None => data
              end
            else data in
          data ← store_financial_data message_type data message customer_info;
          Ok {| message_type := message_type;
                important_points := important_points;
                data := data |}
      | _ => Raise TypeError
      end.

End Remote.

(** *** Processing a file of messages *)

(** The global [processing_status]. *)
Record ProcessingStatus : Type := {
  total : Z;
  processed : Z;
  succeeded : Z;
  failed : Z;
  status : string
}.

Definition set_status (text : string) (st : ProcessingStatus) : ProcessingStatus :=
  {| total := total st; processed := processed st;
     succeeded := succeeded st; failed := failed st; status := text |}.

(** [processing_status.update({"total": n, "processed": 0,
    "succeeded": 0, "failed": 0})]. *)
Definition reset_counters (n : Z) (st : ProcessingStatus) : ProcessingStatus :=
  {| total := n; processed := 0; succeeded := 0; failed := 0;
     status := status st |}.

Definition add_processed (st : ProcessingStatus) : ProcessingStatus :=
  {| total := total st; processed := processed st + 1;
     succeeded := succeeded st; failed := failed st; status := status st |}.

Definition add_succeeded (st : ProcessingStatus) : ProcessingStatus :=
  {| total := total st; processed := processed st;
     succeeded := succeeded st + 1; failed := failed st; status := status st |}.

Definition add_failed (st : ProcessingStatus) : ProcessingStatus :=
  {| total := total st; processed := processed st;
     succeeded := succeeded st; failed := failed st + 1; status := status st |}.

(** What [process_csv_file] lets out: [next] finds no header line in
    an empty file, or [open] or the reader raised. *)
Inductive csv_error : Type :=
| NoHeaderLine
| ReadError (e : exn).

Section Batch.

Variable repr : value -> string.
Variable invoke : string -> result string.
Variable json_loads : string -> result value.
Variable store_financial_data :
  value -> gmap string value -> string -> value -> result (gmap string value).

(** [read_rows file_path delimiter]: every row of the file, or the
    exception raised while it is opened and read. *)
Variable read_rows : string -> string -> result (list (list string)).

(** [datetime.now().strftime("%Y-%m-%d")] while the row counted as
    number [n] is processed. *)
Variable today : Z -> string.

(** The [try] block run for a row of at least four columns. *)
Definition process_row_try (n : Z) (c0 c1 c2 message : string)
    (rest : list string) : result analysis :=
  customer_id ← Conv.int_text c0;
  let customer_info :=
    VDict (<["customer_id" := VInt customer_id]>
             (<["customer_name" := VStr c1]>
                (<["phone_number" := VStr c2]> ∅))) in
  let date_str :=
    match rest with
    | c4 :: _ => c4
    | [] => today n
    end in
  process_single_message repr invoke json_loads
    store_financial_data date_str message customer_info.

(** One turn of the loop over the rows. *)
Definition process_row (st : ProcessingStatus) (row : list string)
  : ProcessingStatus :=
  let st := add_processed st in
  match row with
  | c0 :: c1 :: c2 :: message :: rest =>
      match process_row_try (processed st) c0 c1 c2 message rest with
      | Ok _ => add_succeeded st
      | Raise _ => add_failed st
      end
  | _ => add_failed st
  end.

(** The rows after the header line, if one is announced. *)
Definition data_rows (has_header : bool) (all_rows : list (list string))
  : option (list (list string)) :=
  if has_header then
    match all_rows with
    | [] => None
    | _ :: rows => Some rows
    end
  else Some all_rows.

(** [process_csv_file]: the status it leaves, and what it raises. *)
Definition process_csv_file (file_path delimiter : string) (has_header : bool)
    (st : ProcessingStatus) : ProcessingStatus * option csv_error :=
  let st := set_status "processing" st in
  match read_rows file_path delimiter with
  | Ok all_rows =>
      match data_rows has_header all_rows with
      | Some rows =>
          let st := reset_counters (Z.of_nat (length rows)) st in
          let st := foldl process_row st rows in
          (set_status "completed" st, None)
      | None => (set_status "failed" st, Some NoHeaderLine)
      end
  | Raise e => (set_status "failed" st, Some (ReadError e))
  end.

(** *** The endpoint for one message *)

(** [str(e)], and the response model, which validates its fields. *)
Variable exn_str : exn -> string.
Variable message_response : analysis -> result analysis.

(** A call of [process_single_message] with positional arguments:
    its three parameters have no default value. *)
Definition call_process_single_message (date_str message : string)
    (more : list value) : result analysis :=
  match more with
  | [customer_info] =>
      process_single_message repr invoke json_loads
        store_financial_data date_str message customer_info
  | _ => Raise TypeError
  end.

(** [analyze_single_message]: the handler wraps whatever the body
    raises, its own 400 included, in a 500. *)
Definition analyze_single_message (message : string) (date_str : option string)
  : result analysis :=
  try_except
    (if negb (Py.truthy (Py.strip message))
     then Raise (HTTPException 400 "Message cannot be empty")
     else
       let date_str :=
         match date_str with
         | Some text => if Py.truthy text then text else today 0
         | None => today 0
         end in
       reply ← call_process_single_message date_str message [];
       message_response reply)
    (fun e => Raise (HTTPException 500 ("Error analyzing message: " ++ exn_str e))).

End Batch.

End MainWithApi.

(** ** Backend/routes.py *)

Module Routes.

Definition clean_numeric_string (value_str : string) : option string :=
  if negb (Py.truthy value_str) then None
  else
    let cleaned := Py.replace "," "" value_str in
    let cleaned :=
      if Py.endswith "." cleaned
      then Py.slice_to cleaned (-1) else cleaned in
    let cleaned :=
      if (1 <? Py.count "." cleaned)%nat then
        let first_dot := Py.find "." cleaned in
        Py.slice_to cleaned (first_dot + 1)
        ++ Py.replace "." "" (Py.slice_from cleaned (first_dot + 1))
      else cleaned in
    Some cleaned.

(** The conditions of the decision list, on the lowercased message. *)
Definition salary_rule (message : string) : bool :=
  (Py.contains "salary" message || Py.contains "deposited" message
   || Py.contains "credited" message)
  && existsb (fun bank => Py.contains bank (Py.lower message))
       ["hdfc"; "sbi"; "icici"; "axis"].

Definition emi_rule (message : string) : bool :=
  (Py.contains "loan" message || Py.contains "emi" message)
  && (Py.contains "debited" message || Py.contains "deducted" message).

Definition credit_card_rule (message : string) : bool :=
  Py.contains "credit card" message || Py.contains "creditcard" message
  || Py.contains "card member" message.

Definition sip_rule (message : string) : bool :=
  Py.contains "sip" message
  && (Py.contains "processed" message || Py.contains "deducted" message
      || Py.contains "under folio" message
      || Py.contains "has been processed" message).

Definition credit_rule (message : string) : bool :=
  Py.contains "credited" message || Py.contains "deposited" message.

Definition debit_rule (message : string) : bool :=
  Py.contains "debited" message || Py.contains "deducted" message.

Definition classify_message_type (message : string) : string :=
  let message := Py.lower message in
  if salary_rule message then "SALARY_CREDIT"
  else if emi_rule message then "EMI_PAYMENT"
  else if credit_card_rule message then "CREDIT_CARD_TRANSACTION"
  else if sip_rule message then "SIP_INVESTMENT"
  else if credit_rule message then "CREDIT_TRANSACTION"
  else if debit_rule message then "DEBIT_TRANSACTION"
  else "OTHER_FINANCIAL".

(** The block repeated for every numeric field, as in
    [MainWithApi.store_number]. *)
Definition store_number (key captured : string) (data : gmap string value)
  : gmap string value :=
  match clean_numeric_string captured with
  | Some cleaned =>
      if Py.truthy cleaned then
        match Conv.float cleaned with
        | Ok f => <[key := VFloat f]> data
        | Raise _ => data
        end
      else data
  | None => data
  end.

(** [day, month, year = parts]: unpacking needs exactly three parts. *)
Definition unpack3 (parts : list string) : result (string * string * string) :=
  match parts with
  | [a; b; c] => Ok (a, b, c)
  | _ => Raise (ValueError "wrong number of values to unpack")
  end.

Definition extract_sip_data (message : string) : result (gmap string value) :=
  let data : gmap string value := ∅ in
  let amount_pattern := "(?:Rs\.?|INR)\s*([\d,]+\.?\d*)" in
  let data :=
    match Re.search amount_pattern false message with
    | Some amount_match => store_number "amount" (Re.text amount_match 1) data
    | None => data
    end in
  let date_pattern := "(\d{2}[/-]\d{2}[/-]\d{4})" in
  data ←
    match Re.search date_pattern false message with
    | Some date_match =>
        let date_str := Re.text date_match 1 in
        '(day, month, year) ←
          (if Py.contains "/" date_str
           then unpack3 (Py.split_str "/" date_str)
           else unpack3 (Py.split_str "-" date_str));
        Ok (<["transaction_date" := VStr (year ++ "-" ++ month ++ "-" ++ day)]> data)
    | None => Ok data
    end;
  let folio_pattern := "[Ff]olio\s+([A-Z0-9]+)" in
  let data :=
    match Re.search folio_pattern false message with
    | Some folio_match => <["folio_number" := VStr (Re.text folio_match 1)]> data
    | None => data
    end in
  let fund_pattern := "in\s+([A-Za-z\s\-]+?)(?:Regular|has been)" in
  let data :=
    match Re.search fund_pattern false message with
    | Some fund_match =>
        <["fund_name" := VStr (Py.strip (Re.text fund_match 1))]> data
    | None => data
    end in
  let nav_pattern := "NAV of\s+([\d\.]+)" in
  Ok match Re.search nav_pattern false message with
     | Some nav_match => store_number "nav_value" (Re.text nav_match 1) data
     | None => data
     end.

(** The first bank of the list named in the message, if any. *)
Fixpoint bank_name (banks : list string) (message : string)
    (data : gmap string value) : gmap string value :=
  match banks with
  | [] => data
  | bank :: rest =>
      if Py.contains (Py.lower bank) (Py.lower message)
      then <["bank_name" := VStr bank]> data
      else bank_name rest message data
  end.

(** The first half of [extract_financial_data]: the fields looked for
    in every message. *)
Definition common_fields (message : string) : result (gmap string value) :=
  let data : gmap string value := ∅ in
  let amount_pattern := "(?:INR|Rs\.?|" ++ rupee ++ ")\s*([\d,]+\.?\d*)" in
  let account_pattern :=
    "(?:A/c|Ac\sNo\.|card ending|account)\s*([A-Z0-9]+\d{4})" in
  let date_pattern := "(\d{2}[-/]\d{2}[-/]\d{2,4})" in
  let balance_pattern :=
    "(?:Avl bal|available balance|net available balance)[^0-9]*(?:INR|Rs\.?|"
    ++ rupee ++ ")\s*([\d,]+\.?\d*)" in
  let data :=
    match Re.search amount_pattern false message with
    | Some amount_match => store_number "amount" (Re.text amount_match 1) data
    | None => data
    end in
  let data :=
    match Re.search account_pattern true message with
    | Some account_match =>
        <["account_number" := VStr (Re.text account_match 1)]> data
    | None => data
    end in
  data ←
    match Re.search date_pattern false message with
    | Some date_match =>
        let date_str := Re.text date_match 1 in
        '(day, month, year) ←
          unpack3 (Py.split_str "-" (Py.replace "/" "-" date_str));
        let year := if (Py.len year =? 2)%nat then "20" ++ year else year in
        Ok (<["transaction_date" := VStr (year ++ "-" ++ month ++ "-" ++ day)]> data)
    | None => Ok data
    end;
  Ok match Re.search balance_pattern true message with
     | Some balance_match =>
         store_number "available_balance" (Re.text balance_match 1) data
     | None => data
     end.

Definition extract_financial_data (message_type message : string)
  : result (gmap string value) :=
  data ← common_fields message;
  if String.eqb message_type "SALARY_CREDIT" then
    let data :=
      match Re.search "- ([A-Za-z\s]+) -" false message with
      | Some employer_match =>
          <["employer" := VStr (Py.strip (Re.text employer_match 1))]> data
      | None => data
      end in
    Ok (bank_name ["HDFC Bank"; "SBI"; "ICICI Bank"; "Axis Bank"] message data)
  else if String.eqb message_type "EMI_PAYMENT" then
    let data :=
      match Re.search "([A-Z0-9]+\d{6,})" false message with
      | Some loan_ref_match =>
          <["loan_reference" := VStr (Re.text loan_ref_match 1)]> data
      | None => data
      end in
    let data :=
      match Re.search "Loan\s+([A-Za-z]+)" true message with
      | Some loan_type_match =>
          <["loan_type" := VStr (Re.text loan_type_match 1)]> data
      | None => <["loan_type" := VStr "Personal Loan"]> data
      end in
    Ok (bank_name ["HDFC Bank"; "SBI"; "ICICI Bank"; "Axis Bank"; "NNSB"]
          message data)
  else if String.eqb message_type "CREDIT_CARD_TRANSACTION" then
    let data :=
      match Re.search "at\s+([A-Za-z\s]+)\s+on" true message with
      | Some merchant_match =>
          <["merchant" := VStr (Py.strip (Re.text merchant_match 1))]> data
      | None => data
      end in
    let data :=
      match Re.search "Authorization code:- (\w+)" false message with
      | Some auth_code_match =>
          <["authorization_code" := VStr (Re.text auth_code_match 1)]> data
      | None => data
      end in
    let data :=
      match Re.search
              ("total outstanding is\s+(?:Rs\.?|INR|" ++ rupee ++ ")\s*([\d,]+\.?\d*)")
              true message with
      | Some outstanding_match =>
          store_number "total_outstanding" (Re.text outstanding_match 1) data
      | None => data
      end in
    Ok (bank_name ["HDFC Bank"; "SBI"; "ICICI Bank"; "Axis Bank"] message data)
  else if String.eqb message_type "SIP_INVESTMENT" then
    sip_data ← extract_sip_data message;
    Ok (update data sip_data)
  else Ok data.

(** *** Sanitising the fields returned by the remote model *)

Definition numeric_keys : list string :=
  ["amount"; "available_balance"; "total_outstanding"; "nav_value"].

Definition is_numeric_key (key : string) : bool :=
  existsb (String.eqb key) numeric_keys.

(** One turn of the loop: a string under a numeric key is converted,
    or dropped when the conversion raises; anything else is copied. *)
Definition sanitize_step (sanitized : gmap string value) (item : string * value)
  : gmap string value :=
  let '(key, v) := item in
  match v with
  | VStr s =>
      if is_numeric_key key then
        match clean_numeric_string s with
        | Some cleaned =>
            match Conv.float cleaned with
            | Ok f => <[key := VFloat f]> sanitized
            | Raise _ => sanitized
            end
        | None => sanitized
        end
      else <[key := v]> sanitized
  | _ => <[key := v]> sanitized
  end.

Definition sanitize_llm_data (data : value) : gmap string value :=
  match data with
  | VDict d =>
      if negb (MainWithApi.truthy data) then ∅
      else foldl sanitize_step ∅ (map_to_list d)
  | _ => ∅
  end.

(** *** The remote analysis and the endpoint *)

Record MessageResponse : Type := {
  message_type : string;
  important_points : list string;
  data : gmap string value
}.

Definition index (l : list string) (i : nat) : result string :=
  match nth_error l i with
  | Some x => Ok x
  | None => Raise IndexError
  end.

(** The strings of a list of strings. *)
Fixpoint strings (l : list value) : option (list string) :=
  match l with
  | [] => Some []
  | VStr s :: rest =>
      match strings rest with
      | Some ss => Some (s :: ss)
      | None => None
      end
  | _ :: _ => None
  end.

Section Remote.

(** [str(v)] for a float or a container, and the format [:,.2f]. *)
Variable repr : value -> string.
Variable format_money : pyfloat -> string.

(** [invoke] and [json.loads], as in [MainWithApi]. *)
Variable invoke : string -> result string.
Variable json_loads : string -> result value.

(** [store_financial_data] reads [data] and talks to the database. *)
Variable store_financial_data :
  value -> gmap string value -> string -> result value.

(** What the response model does with a field of another type than
    declared: a validation error, or a coerced response. *)
Variable coerce : value -> value -> gmap string value -> result MessageResponse.

(** The text between the first code fence and the next one. *)
Definition unfence (fence response_text : string) : result string :=
  after ← index (Py.split_str fence response_text) 1;
  inside ← index (Py.split_str "```" after) 0;
  Ok (Py.strip inside).

(** The reply without the markdown code fence it may come in. *)
Definition strip_fences (response_text : string) : result string :=
  if Py.contains "```json" response_text then unfence "```json" response_text
  else if Py.contains "```" response_text then unfence "```" response_text
  else Ok response_text.

Definition analyze_with_llm_try (message : string) : result value :=
  response_text ← invoke message;
  response_text ← strip_fences response_text;
  match json_loads response_text with
  | Raise JSONDecodeError => Ok VNone
  | Raise e => Raise e
  | Ok reply =>
      has_type ← MainWithApi.py_in "message_type" reply;
      has_data ← (if has_type : bool then MainWithApi.py_in "extracted_data" reply
                  else Ok false);
      has_points ← (if has_data : bool
                    then MainWithApi.py_in "important_points" reply
                    else Ok false);
      if negb has_points
      then Raise (ValueError "Missing required fields in LLM response")
      else
        extracted ← MainWithApi.getitem reply "extracted_data";
        match reply with
        | VDict d =>
            Ok (VDict (<["extracted_data" := VDict (sanitize_llm_data extracted)]> d))
        | _ => Raise TypeError
        end
  end.

(** [analyze_with_llm] returns [None] to trigger the fallback. *)
Definition analyze_with_llm (message : string) : value :=
  match analyze_with_llm_try message with
  | Ok reply => reply
  | Raise _ => VNone
  end.

Definition new_response (message_type important_points : value)
    (data : gmap string value) : result MessageResponse :=
  match message_type, important_points with
  | VStr t, VList l =>
      match strings l with
      | Some points =>
          Ok {| message_type := t; important_points := points; data := data |}
      | None => coerce message_type important_points data
      end
  | _, _ => coerce message_type important_points data
  end.

(** [f"{v:,.2f}"]. *)
Definition money (v : value) : result string :=
  match v with
  | VFloat f => Ok (format_money f)
  | VInt z => Ok (format_money (Finite (inject_Z z)))
  | VBool b => Ok (format_money (Finite (if b then 1 else 0)))
  | _ => Raise (ValueError "Unknown format code 'f'")
  end.

(** A highlight is appended when its field is present. *)
Definition point (label : string) (field : option value)
    (show : value -> result string) (points : list string)
  : result (list string) :=
  match field with
  | Some v => text ← show v; Ok (points ++ [(label ++ text)%string])%list
  | None => Ok points
  end.

Definition shown (v : value) : result string := Ok (MainWithApi.str repr v).

(** The highlights of the rule-based path. *)
Definition fallback_points (message_type : string)
    (extracted_data : gmap string value) : result (list string) :=
  points ← point ("Transaction amount: " ++ rupee)
             (extracted_data !! "amount") money [];
  points ← point "Date: " (extracted_data !! "transaction_date") shown points;
  points ← point "Bank: " (extracted_data !! "bank_name") shown points;
  points ← point ("Available balance: " ++ rupee)
             (extracted_data !! "available_balance") money points;
  if String.eqb message_type "SALARY_CREDIT"
     && has_key "employer" extracted_data
  then point "Salary from: " (extracted_data !! "employer") shown points
  else if String.eqb message_type "CREDIT_CARD_TRANSACTION"
          && has_key "merchant" extracted_data
  then point "Purchase at: " (extracted_data !! "merchant") shown points
  else if String.eqb message_type "SIP_INVESTMENT"
          && has_key "fund_name" extracted_data
  then
    points ← point "Fund: " (extracted_data !! "fund_name") shown points;
    point "NAV: " (extracted_data !! "nav_value") shown points
  else Ok points.

(** The rule-based branch of [analyze_message]. *)
Definition fallback (message : string) : result MessageResponse :=
  let message_type := classify_message_type message in
  extracted_data ← extract_financial_data message_type message;
  important_points ← fallback_points message_type extracted_data;
  _ ← try_except (store_financial_data (VStr message_type) extracted_data message)
        (fun _ => Ok VNone);
  Ok {| message_type := message_type;
        important_points := important_points;
        data := extracted_data |}.

Definition is_str (v : value) (s : string) : bool :=
  match v with
  | VStr t => String.eqb t s
  | _ => false
  end.

Definition is_none (v : option value) : bool :=
  match v with
  | Some VNone => true
  | _ => false
  end.

Definition analyze_message (message : string) : result MessageResponse :=
  if negb (Py.truthy (Py.strip message))
  then Raise (HTTPException 400 "Message cannot be empty")
  else
    let llm_result := analyze_with_llm message in
    successful ←
      (if MainWithApi.truthy llm_result then
         has_data ← MainWithApi.py_in "extracted_data" llm_result;
         if has_data : bool then
           extracted ← MainWithApi.getitem llm_result "extracted_data";
           Ok (MainWithApi.truthy extracted)
         else Ok false
       else Ok false);
    if successful : bool then
      message_type ← MainWithApi.getitem llm_result "message_type";
      extracted ← MainWithApi.getitem llm_result "extracted_data";
      important_points ← MainWithApi.getitem llm_result "important_points";
      match extracted with
      | VDict extracted_data =>
          extracted_data ←
            (if is_str message_type "SIP_INVESTMENT"
                && (negb (has_key "nav_value" extracted_data)
                    || is_none (extracted_data !! "nav_value"))
             then
               sip_data ← extract_sip_data message;
               match sip_data !! "nav_value" with
               | Some nav => Ok (<["nav_value" := nav]> extracted_data)
               | None => Ok extracted_data
               end
             else Ok extracted_data);
          _ ← try_except
                (store_financial_data message_type extracted_data message)
                (fun _ => Ok VNone);
          new_response message_type important_points extracted_data
      | _ => Raise TypeError
      end
    else fallback message.

End Remote.

End Routes.

(** ** Vocabulary of the statements *)

(** Every pattern that the two modules hand to [re.search]. *)
Definition source_patterns : list string :=
  [MainWithApi.pattern1; MainWithApi.pattern2; MainWithApi.pattern3;
   MainWithApi.pattern4;
   "(?:INR|Rs\.?|" ++ rupee ++ ")\s*([\d,]+\.?\d*)";
   "(?:A/c(?:\s+no)?\.?|Ac(?:\s+no)?\.?|card ending|account)\s*[:\-]?\s*([A-Z0-9]+\d{4})";
   "(\d{2}[-/]\d{2}[-/]\d{2,4}|\d{2}[-\s][A-Za-z]{3}[-\s]\d{2,4})";
   "(?:Avl bal|available balance|net available balance)[^0-9]*(?:INR|Rs\.?|"
   ++ rupee ++ ")\s*([\d,]+\.?\d*)";
   "(?:from|to|by)?\s*([A-Z][A-Za-z\s]+)\s+(?:Bank|BANK|bank)";
   "- ([A-Za-z\s]+) -";
   "([A-Z0-9]+\d{6,})";
   "Loan\s+([A-Za-z]+)";
   "at\s+([A-Za-z\s]+)\s+on";
   "Authorization code[-:]?\s*(\w+)";
   "total outstanding is\s+(?:Rs\.?|INR|" ++ rupee ++ ")\s*([\d,]+\.?\d*)";
   "policy(?:\s+no\.?| number)?[:\-]?\s*([A-Z0-9]+)";
   "(?:Rs\.?|INR)\s*([\d,]+\.?\d*)";
   "SIP of (\d{2}/\d{2}/\d{4})";
   "SIP of (\d{2}-\d{2}-\d{4})";
   "SIP of (\d{2}-[A-Za-z]{3}-\d{2,4})";
   "(\d{2}[-/]\d{2}[-/]\d{4}|\d{2}[-\s][A-Za-z]{3}[-\s]\d{2,4})";
   "[Ff]olio\s+([A-Z0-9]+)";
   "in\s+([A-Za-z\s\-]+?)(?:Regular|has been)";
   "NAV of\s+([\d\.]+)";
   "(?:A/c|Ac\sNo\.|card ending|account)\s*([A-Z0-9]+\d{4})";
   "(\d{2}[-/]\d{2}[-/]\d{2,4})";
   "Authorization code:- (\w+)";
   "(\d{2}[/-]\d{2}[/-]\d{4})"].

(** The patterns that [Date.strptime_iso] builds for the five formats. *)
Definition strptime_patterns : list (option string) :=
  map (fun fmt => fst <$> Date.format_pattern fmt) MainWithApi.strptime_formats.

(** The closed taxonomy of message categories. *)
Definition categories : list string :=
  ["SALARY_CREDIT"; "EMI_PAYMENT"; "CREDIT_CARD_TRANSACTION"; "SIP_INVESTMENT";
   "CREDIT_TRANSACTION"; "DEBIT_TRANSACTION"; "INSURANCE_PAYMENT";
   "OTHER_FINANCIAL"].

(** No rule of the decision list of [main_with_api.py] fires. *)
Definition no_rule_main (message : string) : bool :=
  let m := Py.lower message in
  negb (MainWithApi.salary_rule m || MainWithApi.emi_rule m
        || MainWithApi.credit_card_rule m || MainWithApi.sip_rule m
        || MainWithApi.insurance_rule m || MainWithApi.credit_rule m
        || MainWithApi.debit_rule m).

(** No rule of the decision list of [routes.py] fires. *)
Definition no_rule_routes (message : string) : bool :=
  let m := Py.lower message in
  negb (Routes.salary_rule m || Routes.emi_rule m || Routes.credit_card_rule m
        || Routes.sip_rule m || Routes.credit_rule m || Routes.debit_rule m).

(** The field [field] holds a float read from a decimal equal to [q]. *)
Definition float_field (field : option value) (q : Q) : Prop :=
  exists q', field = Some (VFloat (Finite q')) /\ Qeq q' q.

(** A date text that none of the four patterns finds and none of the
    five [strptime] formats parses. *)
Definition unparseable (date_str : string) : bool :=
  forallb (fun pattern => bool_decide (Re.search pattern false date_str = None))
    [MainWithApi.pattern1; MainWithApi.pattern2;
     MainWithApi.pattern3; MainWithApi.pattern4]
  && forallb (fun fmt => raised (Date.strptime_iso date_str fmt))
       MainWithApi.strptime_formats.

(** Numeric text that needs no cleaning: digits with at most one
    point, which is not the last character. *)
Definition already_clean (s : string) : bool :=
  Py.truthy s
  && Py.all_chars (fun c => Py.is_digit c || Ascii.eqb c ".") s
  && (Py.count "." s <=? 1)%nat
  && negb (Py.endswith "." s).

(** Non-empty text made of whitespace only. *)
Definition blank (s : string) : bool :=
  Py.truthy s && Py.all_chars Py.is_space s.

(** What the loop of the sanitizer of [main_with_api.py] assigns for
    an item, if anything. *)
Definition main_assigned (repr : value -> string) (key : string) (v : value)
  : option value :=
  match v with
  | VNone => None
  | _ => Some (MainWithApi.sanitize_value repr key v)
  end.

(** What the loop of the sanitizer of [routes.py] assigns for an item,
    if anything. *)
Definition routes_assigned (key : string) (v : value) : option value :=
  match v with
  | VStr s =>
      if Routes.is_numeric_key key then
        match Routes.clean_numeric_string s with
        | Some cleaned =>
            match Conv.float cleaned with
            | Ok f => Some (VFloat f)
            | Raise _ => None
            end
        | None => None
        end
      else Some v
  | _ => Some v
  end.

(** Every numeric field of [d] that is present holds a float. *)
Definition floats_ok (d : gmap string value) : Prop :=
  forall key v, Routes.is_numeric_key key = true -> d !! key = Some v ->
    exists f, v = VFloat f.

(** A reply of [json.loads] that the remote path rejects: malformed
    JSON, or an object without one of the three required keys. *)
Definition rejected (reply : result value) : Prop :=
  (exists e, reply = Raise e)
  \/ (exists d, reply = Ok (VDict d)
        /\ (d !! "message_type" = None \/ d !! "extracted_data" = None
            \/ d !! "important_points" = None)).

(** The remote path of [main_with_api.py] fails on [message]: the call
    of the model raises, or its reply is rejected. *)
Definition main_remote_fails
    (invoke : string -> result string) (json_loads : string -> result value)
    (message : string) : Prop :=
  match invoke message with
  | Raise _ => True
  | Ok text => rejected (json_loads (MainWithApi.extract_json_block text))
  end.

(** The remote path of [routes.py] fails on [message]. *)
Definition routes_remote_fails
    (invoke : string -> result string) (json_loads : string -> result value)
    (message : string) : Prop :=
  match invoke message with
  | Raise _ => True
  | Ok text =>
      match Routes.strip_fences text with
      | Raise _ => True
      | Ok clean => rejected (json_loads clean)
      end
  end.

(** *** The words of a pattern *)

Fixpoint joined (ws : list string) : string :=
  match ws with
  | [] => EmptyString
  | w :: rest => w ++ joined rest
  end.

(** [lang ic r w]: the pattern [r] can read exactly the word [w]. *)
Fixpoint lang (ic : bool) (r : Re.regex) (w : string) : Prop :=
  match r with
  | Re.Eps => w = EmptyString
  | Re.Cls neg items =>
      exists c, w = String c EmptyString /\ Re.cls_mem ic neg items c = true
  | Re.Cat r1 r2 =>
      exists w1 w2, w = w1 ++ w2 /\ lang ic r1 w1 /\ lang ic r2 w2
  | Re.Alt r1 r2 => lang ic r1 w \/ lang ic r2 w
  | Re.Rep _ lo hi r1 =>
      exists ws, w = joined ws /\ Forall (lang ic r1) ws
                 /\ (lo <= length ws)%nat
                 /\ match hi with
                    | Some h => (length ws <= h)%nat
                    | None => True
                    end
  | Re.Grp _ r1 => lang ic r1 w
  end.

(** A matcher is sound for a set of words when every success reads
    one of them and continues on the rest. *)
Definition sound {R : Type} (body : Re.matcher R) (words : string -> Prop)
  : Prop :=
  forall s cs k x, body s cs k = Some x ->
    exists w s' cs', s = w ++ s' /\ words w /\ k s' cs' = Some x.

(** The date pattern of [Routes.common_fields]. *)
Definition routes_date_pattern : string := "(\d{2}[-/]\d{2}[-/]\d{2,4})".

(** The same pattern compiled, without its enclosing group. *)
Definition routes_date_regex : Re.regex :=
  Re.Cat (Re.Rep true 2 (Some 2) (Re.Cls false [Re.IDigit]))
    (Re.Cat (Re.Cls false [Re.IChar "-"; Re.IChar "/"])
       (Re.Cat (Re.Rep true 2 (Some 2) (Re.Cls false [Re.IDigit]))
          (Re.Cat (Re.Cls false [Re.IChar "-"; Re.IChar "/"])
             (Re.Rep true 2 (Some 4) (Re.Cls false [Re.IDigit]))))).

(** The lowercased message contains "salary" and "debited" and none
    of the loan keywords. *)
Definition salary_and_debited (message : string) : bool :=
  let m := Py.lower message in
  Py.contains "salary" m && Py.contains "debited" m
  && negb (Py.contains "loan" m) && negb (Py.contains "emi" m).

(** The lowercased message names one of the banks that the salary rule
    of [routes.py] asks for. *)
Definition names_bank (message : string) : bool :=
  existsb (fun bank => Py.contains bank (Py.lower message))
    ["hdfc"; "sbi"; "icici"; "axis"].

(** The two scenario messages. *)
Definition credit_message : string :=
  "Your A/c XX1234 credited with Rs.5,000.00 on 05-MAY-24. Avl bal Rs.12,300.50".

Definition sip_message : string :=
  "Your SIP of 11/04/2025 for Rs.2499.88 under Folio XXXXXXX0016 in Mirae Asset Midcap Fund-Regular has been processed for NAV of 30.441.".

(** *** Vocabulary of the further properties *)

(** Text that [clean_numeric_string] returns as it is. *)
Definition needs_no_cleaning (s : string) : bool :=
  Py.truthy s && (Py.count "," s =? 0)%nat && (Py.count "." s <=? 1)%nat
  && negb (Py.endswith "." s).

(** A value that is not a list or a dictionary. *)
Definition scalar (v : value) : bool :=
  match v with
  | VList _ | VDict _ => false
  | _ => true
  end.

(** A string value is trimmed; other scalars pass. *)
Definition trimmed_scalar (v : value) : bool :=
  match v with
  | VList _ | VDict _ => false
  | VStr s => String.eqb (Py.strip s) s
  | _ => true
  end.

(** Every field other than the identifier fields holds a scalar. *)
Definition scalars_only (data : gmap string value) : bool :=
  forallb (fun item : string * value =>
             MainWithApi.is_identifier item.1 || scalar item.2)
    (map_to_list data).

(** The date pattern of [Routes.extract_sip_data], and the same pattern
    compiled, without its enclosing group. *)
Definition routes_sip_date_pattern : string := "(\d{2}[/-]\d{2}[/-]\d{4})".

Definition routes_sip_date_regex : Re.regex :=
  Re.Cat (Re.Rep true 2 (Some 2) (Re.Cls false [Re.IDigit]))
    (Re.Cat (Re.Cls false [Re.IChar "/"; Re.IChar "-"])
       (Re.Cat (Re.Rep true 2 (Some 2) (Re.Cls false [Re.IDigit]))
          (Re.Cat (Re.Cls false [Re.IChar "/"; Re.IChar "-"])
             (Re.Rep true 4 (Some 4) (Re.Cls false [Re.IDigit]))))).

(** The date text has a slash and a hyphen. *)
Definition mixed_separators (date_str : string) : bool :=
  Py.contains "/" date_str && Py.contains "-" date_str.

(** The first date that [Routes.extract_sip_data] finds in the message
    has both kinds of separators. *)
Definition sip_date_mixed (message : string) : bool :=
  match Re.search routes_sip_date_pattern false message with
  | Some date_match => mixed_separators (Re.text date_match 1)
  | None => false
  end.

(** A message that the classifier of routes.py files under
    SIP_INVESTMENT and whose first date has both kinds of separators. *)
Definition sip_mixed_message (message : string) : bool :=
  String.eqb (Routes.classify_message_type message) "SIP_INVESTMENT"
  && sip_date_mixed message.

(** The fields that the rule-based extraction looks for in every
    message, and those it adds for a category. *)
Definition common_keys : list string :=
  ["amount"; "account_number"; "transaction_date"; "available_balance";
   "bank_name"].

Definition category_keys (message_type : string) : list string :=
  if String.eqb message_type "SALARY_CREDIT" then ["employer"]
  else if String.eqb message_type "EMI_PAYMENT"
  then ["loan_reference"; "loan_type"]
  else if String.eqb message_type "CREDIT_CARD_TRANSACTION"
  then ["merchant"; "authorization_code"; "total_outstanding"]
  else if String.eqb message_type "SIP_INVESTMENT"
  then ["folio_number"; "fund_name"; "nav_value"]
  else if String.eqb message_type "INSURANCE_PAYMENT"
  then ["policy_number"; "insurance_company"; "insurance_type"]
  else [].

(** [key] is a field of the category, and [v] is a float under one of
    the four numeric fields and text under any other. *)
Definition field_ok (message_type key : string) (v : value) : bool :=
  (existsb (String.eqb key) common_keys
   || existsb (String.eqb key) (category_keys message_type))
  && match v with
     | VFloat _ => Routes.is_numeric_key key
     | VStr _ => negb (Routes.is_numeric_key key)
     | _ => false
     end.

(** Every field of [d] is one of the category and has its type. *)
Definition fits (message_type : string) (d : gmap string value) : Prop :=
  forall key v, d !! key = Some v -> field_ok message_type key v = true.

(** The test of [extract_json_block]: an opening brace is found, and a
    closing brace after it. *)
Definition has_json_block (text : string) : bool :=
  let start := Py.find "{" text in
  let end_ := Py.rfind "}" text in
  (negb (start =? -1) && negb (end_ =? -1) && (start <? end_))%Z.

(** Text of the form year-month-day with a month and a day of at least
    two characters. *)
Definition dashed_date (out : string) : Prop :=
  exists year month day,
    out = year ++ "-" ++ month ++ "-" ++ day
    /\ (2 <= Py.len month)%nat /\ (2 <= Py.len day)%nat.

(** The rows of a file that reads well. *)
Definition rows_of (read : result (list (list string))) (has_header : bool)
  : option (list (list string)) :=
  match read with
  | Ok all_rows => MainWithApi.data_rows has_header all_rows
  | Raise _ => None
  end.

(** Text of exactly [n] digits; a day or month of one or two digits;
    one of the two separators of the numeric date patterns. *)
Definition digits_of (n : nat) (s : string) : bool :=
  (Py.len s =? n)%nat && Py.all_chars Py.is_digit s.

Definition one_or_two_digits (s : string) : bool :=
  digits_of 1 s || digits_of 2 s.

Definition date_separator (c : ascii) : bool :=
  Ascii.eqb c "-" || Ascii.eqb c "/".

(** The four date patterns of [parse_date], compiled. *)
Definition pattern1_regex : Re.regex :=
  Eval vm_compute in default Re.Eps (Re.compile MainWithApi.pattern1).
Definition pattern2_regex : Re.regex :=
  Eval vm_compute in default Re.Eps (Re.compile MainWithApi.pattern2).
Definition pattern3_regex : Re.regex :=
  Eval vm_compute in default Re.Eps (Re.compile MainWithApi.pattern3).
Definition pattern4_regex : Re.regex :=
  Eval vm_compute in default Re.Eps (Re.compile MainWithApi.pattern4).

(** The date pattern of [MainWithApi.extract_financial_data]. *)
Definition main_date_pattern : string :=
  "(\d{2}[-/]\d{2}[-/]\d{2,4}|\d{2}[-\s][A-Za-z]{3}[-\s]\d{2,4})".

(** The dictionary holds [out] as its transaction date. *)
Definition has_date (out : string) (d : gmap string value) : Prop :=
  d !! "transaction_date" = Some (VStr out).

(** * Properties *)

(** ** The patterns of the sources are well formed *)

Lemma source_patterns_compile :
  Forall (fun pattern => is_Some (Re.compile pattern)) source_patterns.
Proof. repeat constructor; vm_compute; eauto. Qed.

Lemma strptime_patterns_compile :
  Forall (fun pattern => is_Some (pattern ≫= Re.compile)) strptime_patterns.
Proof. repeat constructor; vm_compute; eauto. Qed.

(** ** Numeric clean-up *)

Section NumericString.

Lemma replace_absent (p : ascii -> bool) (old : ascii) (new s : string) :
  p old = false -> Py.all_chars p s = true -> Py.replace old new s = s.
Proof.
  intros Hold. induction s as [|c t IH]; simpl; [reflexivity|].
  intros [Hc Ht]%andb_prop.
  destruct (Ascii.eqb_spec c old) as [->|_]; [congruence|].
  now rewrite IH.
Qed.

Lemma routes_clean_numeric_string_same :
  Routes.clean_numeric_string = MainWithApi.clean_numeric_string.
Proof. reflexivity. Qed.

Lemma clean_numeric_string_fixed (s : string) :
  already_clean s = true -> MainWithApi.clean_numeric_string s = Some s.
Proof.
  unfold already_clean, MainWithApi.clean_numeric_string.
  intros [[[Hne Hchars]%andb_prop Hcount]%andb_prop Hend]%andb_prop.
  rewrite Hne. simpl.
  rewrite (replace_absent _ "," "" s eq_refl Hchars).
  apply negb_true_iff in Hend. rewrite Hend.
  apply Nat.leb_le in Hcount.
  destruct (Nat.ltb_spec 1 (Py.count "." s)); [lia | reflexivity].
Qed.

Lemma clean_numeric_string_blank (s : string) :
  blank s = true -> MainWithApi.clean_numeric_string s = Some s.
Proof.
  unfold blank, MainWithApi.clean_numeric_string.
  intros [Hne Hsp]%andb_prop. rewrite Hne. simpl.
  rewrite (replace_absent _ "," "" s eq_refl Hsp).
  assert (Hend : Py.endswith "." s = false).
  { clear Hne. induction s as [|c t IH]; [reflexivity|].
    simpl in Hsp. apply andb_prop in Hsp as [Hc Ht].
    simpl. destruct t as [|d u].
    - destruct (Ascii.eqb_spec c ".") as [->|]; [discriminate | reflexivity].
    - now apply IH. }
  assert (Hcount : Py.count "." s = 0%nat).
  { clear Hne Hend. induction s as [|c t IH]; [reflexivity|].
    simpl in Hsp. apply andb_prop in Hsp as [Hc Ht].
    simpl. destruct (Ascii.eqb_spec c "." ) as [->|]; [discriminate|].
    now rewrite IH. }
  now rewrite Hend, Hcount.
Qed.

End NumericString.

(** C8.  The numeric normalizer returns an already-clean numeric string
    unchanged, and maps "1,234.56" to "1234.56", "30.441." to "30.441"
    and "1.2.3" to "1.23"; this holds for the function of
    main_with_api.py and for the one of routes.py. *)
Theorem clean_numeric_string_idempotent_on_clean :
  (forall s, already_clean s = true ->
     MainWithApi.clean_numeric_string s = Some s
     /\ Routes.clean_numeric_string s = Some s)
  /\ MainWithApi.clean_numeric_string "1,234.56" = Some "1234.56"
  /\ MainWithApi.clean_numeric_string "30.441." = Some "30.441"
  /\ MainWithApi.clean_numeric_string "1.2.3" = Some "1.23"
  /\ Routes.clean_numeric_string "1,234.56" = Some "1234.56"
  /\ Routes.clean_numeric_string "30.441." = Some "30.441"
  /\ Routes.clean_numeric_string "1.2.3" = Some "1.23".
Proof.
  split.
  - intros s Hs. rewrite routes_clean_numeric_string_same.
    split; now apply clean_numeric_string_fixed.
  - repeat split; vm_compute; reflexivity.
Qed.

Lemma clean_numeric_string_idempotent_on_clean_witness :
  already_clean "1234.56" = true
  /\ MainWithApi.clean_numeric_string "1234.56" = Some "1234.56"
  /\ Routes.clean_numeric_string "1234.56" = Some "1234.56".
Proof.
  split; [reflexivity|].
  apply (proj1 clean_numeric_string_idempotent_on_clean "1234.56").
  reflexivity.
Defined.

(** C9, as stated, fails: a whitespace-only string is not mapped to
    null, it comes back unchanged. *)
Lemma clean_numeric_string_whitespace_not_null :
  blank "   " = true
  /\ MainWithApi.clean_numeric_string "   " = Some "   "
  /\ Routes.clean_numeric_string "   " = Some "   "
  /\ MainWithApi.clean_numeric_string "   " <> None.
Proof. repeat split; try (vm_compute; reflexivity). discriminate. Qed.

(** C9, amended.  The numeric normalizer returns null for the empty
    string; a non-empty string made of whitespace only is returned
    unchanged (in main_with_api.py and in routes.py). *)
Theorem clean_numeric_string_empty_or_blank :
  MainWithApi.clean_numeric_string "" = None
  /\ Routes.clean_numeric_string "" = None
  /\ forall s, blank s = true ->
       MainWithApi.clean_numeric_string s = Some s
       /\ Routes.clean_numeric_string s = Some s.
Proof.
  repeat split; try reflexivity.
  - now apply clean_numeric_string_blank.
  - rewrite routes_clean_numeric_string_same. now apply clean_numeric_string_blank.
Qed.

Lemma clean_numeric_string_empty_or_blank_witness :
  blank " " = true
  /\ MainWithApi.clean_numeric_string " " = Some " "
  /\ Routes.clean_numeric_string " " = Some " ".
Proof.
  split; [reflexivity|].
  apply (proj2 (proj2 clean_numeric_string_empty_or_blank) " ").
  reflexivity.
Defined.

(** ** Date parsing *)

Section DateParsing.

(** [strptime] signals every failure with [ValueError]. *)
Lemma strptime_raises_value_error (date_string fmt : string) (e : exn) :
  Date.strptime_iso date_string fmt = Raise e -> exists msg, e = ValueError msg.
Proof.
  unfold Date.strptime_iso. intros H.
  repeat match type of H with
         | match ?x with _ => _ end = _ => destruct x
         | (if ?b then _ else _) = _ => destruct b
         | (let '(_, _) := ?x in _) = _ => destruct x
         end;
    try discriminate; injection H as <-; eauto.
Qed.

(** The loop over the formats never lets an exception out. *)
Lemma strptime_fallback_returns (date_str : string) (formats : list string) :
  exists parsed, MainWithApi.strptime_fallback date_str formats = Ok parsed.
Proof.
  induction formats as [|fmt rest IH]; simpl; [eauto|].
  destruct (Date.strptime_iso date_str fmt) as [iso|e] eqn:E; [eauto|].
  apply strptime_raises_value_error in E as [msg ->]. exact IH.
Qed.

Lemma strptime_fallback_all_raise (date_str : string) (formats : list string) :
  forallb (fun fmt => raised (Date.strptime_iso date_str fmt)) formats = true ->
  MainWithApi.strptime_fallback date_str formats = Ok None.
Proof.
  induction formats as [|fmt rest IH]; simpl; [reflexivity|].
  intros [Hfmt Hrest]%andb_prop.
  destruct (Date.strptime_iso date_str fmt) as [iso|e] eqn:E; [discriminate|].
  apply strptime_raises_value_error in E as [msg ->]. now apply IH.
Qed.

(** The [try] block of [parse_date] itself never raises on text, so
    the handler of [parse_date] is never needed. *)
Lemma parse_date_try_returns (date_str : string) :
  exists parsed, MainWithApi.parse_date_try date_str = Ok parsed.
Proof.
  unfold MainWithApi.parse_date_try.
  repeat match goal with
         | |- context [match Re.search ?p ?f ?s with _ => _ end] =>
             destruct (Re.search p f s); [eauto|]
         end.
  apply strptime_fallback_returns.
Qed.

Lemma parse_date_unparseable (date_str : string) :
  unparseable date_str = true ->
  MainWithApi.parse_date_try date_str = Ok None.
Proof.
  unfold unparseable. cbn [forallb].
  intros [Hpat Hfmt]%andb_prop.
  repeat match type of Hpat with
         | (_ && _) = true => apply andb_prop in Hpat as [?%bool_decide_eq_true Hpat]
         end.
  unfold MainWithApi.parse_date_try.
  repeat match goal with
         | H : Re.search _ _ _ = None |- _ => rewrite H; clear H
         end.
  now apply strptime_fallback_all_raise.
Qed.

End DateParsing.

(** C7.  The date normalizer maps "05-MAY-24" to "2024-05-05",
    "05/11/2024" to "2024-11-05" and "24-06-03" to "2024-06-03"; on
    every unparseable input, such as "not-a-date", its [try] block
    returns null without raising, and so does [parse_date]. *)
Theorem parse_date_examples_and_unparseable :
  MainWithApi.parse_date "05-MAY-24" = Some "2024-05-05"
  /\ MainWithApi.parse_date "05/11/2024" = Some "2024-11-05"
  /\ MainWithApi.parse_date "24-06-03" = Some "2024-06-03"
  /\ unparseable "not-a-date" = true
  /\ forall date_str, unparseable date_str = true ->
       MainWithApi.parse_date_try date_str = Ok None
       /\ MainWithApi.parse_date date_str = None.
Proof.
  split; [vm_compute; reflexivity|].
  split; [vm_compute; reflexivity|].
  split; [vm_compute; reflexivity|].
  split; [vm_compute; reflexivity|].
  intros date_str Hs. unfold MainWithApi.parse_date.
  now rewrite (parse_date_unparseable date_str Hs).
Qed.

Lemma parse_date_examples_and_unparseable_witness :
  unparseable "not-a-date" = true
  /\ MainWithApi.parse_date_try "not-a-date" = Ok None
  /\ MainWithApi.parse_date "not-a-date" = None.
Proof.
  split; [vm_compute; reflexivity|].
  apply (proj2 (proj2 (proj2 (proj2 parse_date_examples_and_unparseable)))
           "not-a-date").
  vm_compute; reflexivity.
Defined.

(** ** Classification *)

Section Classification.

Lemma lower_char_idempotent (c : ascii) :
  Py.lower_char (Py.lower_char c) = Py.lower_char c.
Proof. destruct c as [[] [] [] [] [] [] [] []]; reflexivity. Qed.

Lemma lower_idempotent (s : string) : Py.lower (Py.lower s) = Py.lower s.
Proof.
  unfold Py.lower. induction s as [|c t IH]; [reflexivity|].
  cbn [Py.map_chars]. now rewrite lower_char_idempotent, IH.
Qed.

Lemma main_classify_in_categories (message : string) :
  In (MainWithApi.classify_message_type message) categories.
Proof.
  unfold MainWithApi.classify_message_type, categories.
  repeat match goal with
         | |- context [if ?b then _ else _] => destruct b
         end; cbn [In]; auto 10.
Qed.

Lemma routes_classify_in_categories (message : string) :
  In (Routes.classify_message_type message) categories.
Proof.
  unfold Routes.classify_message_type, categories.
  repeat match goal with
         | |- context [if ?b then _ else _] => destruct b
         end; cbn [In]; auto 10.
Qed.

Lemma main_salary_first (message : string) :
  Py.contains "salary" (Py.lower message) = true ->
  MainWithApi.classify_message_type message = "SALARY_CREDIT".
Proof.
  intros H. unfold MainWithApi.classify_message_type, MainWithApi.salary_rule.
  now rewrite H.
Qed.

Lemma routes_salary_with_bank (message : string) :
  Py.contains "salary" (Py.lower message) = true ->
  names_bank message = true ->
  Routes.classify_message_type message = "SALARY_CREDIT".
Proof.
  intros H Hbank. unfold Routes.classify_message_type, Routes.salary_rule.
  rewrite H. unfold names_bank in Hbank.
  rewrite lower_idempotent, Hbank. reflexivity.
Qed.

End Classification.

(** C5.  For every input text (non-empty or not) each classifier
    returns one value, which belongs to the fixed list of eight
    distinct categories, and it is OTHER_FINANCIAL when no rule of the
    decision list fires. *)
Theorem classify_message_type_closed_taxonomy :
  forall message,
    length categories = 8%nat
    /\ NoDup categories
    /\ In (MainWithApi.classify_message_type message) categories
    /\ In (Routes.classify_message_type message) categories
    /\ (no_rule_main message = true ->
        MainWithApi.classify_message_type message = "OTHER_FINANCIAL")
    /\ (no_rule_routes message = true ->
        Routes.classify_message_type message = "OTHER_FINANCIAL").
Proof.
  intros message.
  split; [reflexivity|].
  split; [apply (bool_decide_unpack (NoDup categories)); vm_compute; exact I|].
  split; [apply main_classify_in_categories|].
  split; [apply routes_classify_in_categories|].
  split.
  - unfold no_rule_main, MainWithApi.classify_message_type.
    intros H%negb_true_iff.
    do 6 (apply orb_false_elim in H as [H ?]).
    repeat match goal with Hr : _ = false |- _ => rewrite Hr; clear Hr end.
    reflexivity.
  - unfold no_rule_routes, Routes.classify_message_type.
    intros H%negb_true_iff.
    do 5 (apply orb_false_elim in H as [H ?]).
    repeat match goal with Hr : _ = false |- _ => rewrite Hr; clear Hr end.
    reflexivity.
Qed.

Lemma classify_message_type_closed_taxonomy_witness :
  no_rule_main "Your OTP is 4521" = true
  /\ no_rule_routes "Your OTP is 4521" = true
  /\ MainWithApi.classify_message_type "Your OTP is 4521" = "OTHER_FINANCIAL"
  /\ Routes.classify_message_type "Your OTP is 4521" = "OTHER_FINANCIAL".
Proof.
  split; [reflexivity|]. split; [reflexivity|].
  destruct (classify_message_type_closed_taxonomy "Your OTP is 4521")
    as (_ & _ & _ & _ & Hmain & Hroutes).
  split; [apply Hmain | apply Hroutes]; reflexivity.
Defined.

(** C3, as stated, fails for the classifier of routes.py: its salary
    rule also asks for a bank name, so this message, which contains
    "salary" and "debited" and no loan keyword, is DEBIT_TRANSACTION. *)
Lemma routes_salary_debited_is_debit :
  salary_and_debited "Salary debited Rs.500" = true
  /\ Routes.classify_message_type "Salary debited Rs.500" = "DEBIT_TRANSACTION"
  /\ Routes.classify_message_type "Salary debited Rs.500" <> "SALARY_CREDIT".
Proof. repeat split; try (vm_compute; reflexivity). vm_compute. discriminate. Qed.

(** C3, amended.  For every message whose lowercased text contains
    "salary" and "debited" but no loan/EMI keyword, the classifier of
    main_with_api.py returns SALARY_CREDIT and not DEBIT_TRANSACTION,
    because its salary rule is evaluated first; the classifier of
    routes.py does so when the text also names one of the banks hdfc,
    sbi, icici or axis, which its salary rule requires. *)
Theorem salary_rule_precedes_debit_rule :
  forall message, salary_and_debited message = true ->
    (MainWithApi.classify_message_type message = "SALARY_CREDIT"
     /\ MainWithApi.classify_message_type message <> "DEBIT_TRANSACTION")
    /\ (names_bank message = true ->
        Routes.classify_message_type message = "SALARY_CREDIT"
        /\ Routes.classify_message_type message <> "DEBIT_TRANSACTION").
Proof.
  intros message H. unfold salary_and_debited in H.
  apply andb_prop in H as [[[Hsalary _]%andb_prop _]%andb_prop _].
  split.
  - rewrite (main_salary_first message Hsalary). split; [reflexivity|discriminate].
  - intros Hbank. rewrite (routes_salary_with_bank message Hsalary Hbank).
    split; [reflexivity|discriminate].
Qed.

Lemma salary_rule_precedes_debit_rule_witness :
  salary_and_debited "HDFC: salary debited Rs.500" = true
  /\ names_bank "HDFC: salary debited Rs.500" = true
  /\ MainWithApi.classify_message_type "HDFC: salary debited Rs.500" = "SALARY_CREDIT"
  /\ Routes.classify_message_type "HDFC: salary debited Rs.500" = "SALARY_CREDIT".
Proof.
  split; [reflexivity|]. split; [reflexivity|].
  destruct (salary_rule_precedes_debit_rule "HDFC: salary debited Rs.500" eq_refl)
    as [[Hmain _] Hroutes].
  split; [exact Hmain | apply Hroutes; reflexivity].
Defined.

(** ** The two end-to-end scenarios *)

(** C2, as stated, fails: the message contains "credited", so the
    first rule fires and the category is SALARY_CREDIT, not
    CREDIT_TRANSACTION. *)
Lemma credit_message_is_not_credit_transaction :
  MainWithApi.classify_message_type credit_message = "SALARY_CREDIT"
  /\ MainWithApi.classify_message_type credit_message <> "CREDIT_TRANSACTION".
Proof. split; [vm_compute; reflexivity | vm_compute; discriminate]. Qed.

(** C2, amended.  For the text "Your A/c XX1234 credited with
    Rs.5,000.00 on 05-MAY-24. Avl bal Rs.12,300.50" the fallback
    pipeline ([classify_message_type] then [extract_financial_data])
    yields category SALARY_CREDIT, amount 5000.00, transaction_date
    "2024-05-05" and available_balance 12300.50. *)
Theorem credit_message_scenario :
  let category := MainWithApi.classify_message_type credit_message in
  let fields := MainWithApi.extract_financial_data category credit_message in
  category = "SALARY_CREDIT"
  /\ float_field (fields !! "amount") 5000.00
  /\ fields !! "transaction_date" = Some (VStr "2024-05-05")
  /\ float_field (fields !! "available_balance") 12300.50.
Proof.
  cbv zeta.
  split; [vm_compute; reflexivity|].
  split; [exists (5000 # 1)%Q; split; [vm_compute; reflexivity | reflexivity]|].
  split; [vm_compute; reflexivity|].
  exists (24601 # 2)%Q; split; [vm_compute; reflexivity | reflexivity].
Qed.

(** C6.  For the SIP message "Your SIP of 11/04/2025 for Rs.2499.88
    under Folio XXXXXXX0016 in Mirae Asset Midcap Fund-Regular has been
    processed for NAV of 30.441." the fallback path yields category
    SIP_INVESTMENT, folio_number "XXXXXXX0016", nav_value 30.441 and
    transaction_date "2025-04-11". *)
Theorem sip_message_scenario :
  let category := MainWithApi.classify_message_type sip_message in
  let fields := MainWithApi.extract_financial_data category sip_message in
  category = "SIP_INVESTMENT"
  /\ fields !! "folio_number" = Some (VStr "XXXXXXX0016")
  /\ float_field (fields !! "nav_value") 30.441
  /\ fields !! "transaction_date" = Some (VStr "2025-04-11").
Proof.
  cbv zeta.
  split; [vm_compute; reflexivity|].
  split; [vm_compute; reflexivity|].
  split; [exists (30441 # 1000)%Q; split; [vm_compute; reflexivity | reflexivity]|].
  vm_compute; reflexivity.
Qed.

(** ** The sanitizers *)

Section AssignLoop.

(** A loop over the items of a dictionary that assigns [g key v] under
    [key], or skips the item when [g] gives nothing. *)
Variable g : string -> value -> option value.
Variable step : gmap string value -> string * value -> gmap string value.
Hypothesis step_assigns : forall acc key v,
  step acc (key, v) =
  match g key v with
  | Some v' => <[key := v']> acc
  | None => acc
  end.

Lemma foldl_assign_lookup (l : list (string * value))
    (acc : gmap string value) (k : string) :
  NoDup l.*1 ->
  foldl step acc l !! k =
  match (list_to_map l : gmap string value) !! k ≫= g k with
  | Some v' => Some v'
  | None => acc !! k
  end.
Proof.
  revert acc. induction l as [|[k0 v0] l IH]; intros acc Hnd.
  - reflexivity.
  - apply NoDup_cons in Hnd as [Hk0 Hnd].
    cbn [foldl list_to_map foldr]. rewrite (IH _ Hnd), step_assigns.
    cbn [uncurry]. destruct (decide (k = k0)) as [->|Hne].
    + rewrite lookup_insert_eq.
      rewrite (not_elem_of_list_to_map_1 _ _ Hk0). cbn.
      destruct (g k0 v0); [apply lookup_insert_eq | reflexivity].
    + assert (Hne' : k0 <> k) by (intros ->; now apply Hne).
      rewrite (lookup_insert_ne _ _ _ _ Hne').
      destruct (list_to_map l !! k ≫= g k); [reflexivity|].
      destruct (g k0 v0); [now apply lookup_insert_ne | reflexivity].
Qed.

Lemma foldl_assign_items (d acc : gmap string value) (k : string) :
  foldl step acc (map_to_list d) !! k =
  match d !! k ≫= g k with
  | Some v' => Some v'
  | None => acc !! k
  end.
Proof.
  rewrite foldl_assign_lookup by apply NoDup_fst_map_to_list.
  now rewrite list_to_map_to_list.
Qed.

End AssignLoop.

Section MainSanitizer.

Variable repr : value -> string.

Lemma main_sanitize_lookup (d : gmap string value) (k : string) :
  MainWithApi.sanitize_llm_data repr d !! k =
  match d !! k with
  | Some VNone => Some VNone
  | Some v => Some (MainWithApi.sanitize_value repr k v)
  | None => None
  end.
Proof.
  unfold MainWithApi.sanitize_llm_data.
  rewrite (foldl_assign_items (main_assigned repr)).
  - destruct (d !! k) as [[]|]; reflexivity.
  - intros acc key []; reflexivity.
Qed.

Lemma main_sanitize_dom (d : gmap string value) :
  dom (MainWithApi.sanitize_llm_data repr d) = dom d.
Proof.
  apply set_eq. intros k. rewrite !elem_of_dom, main_sanitize_lookup.
  destruct (d !! k) as [[]|]; split; intros [? ?]; eauto; discriminate.
Qed.

End MainSanitizer.

Section RoutesSanitizer.

Lemma routes_sanitize_lookup (d : gmap string value) (k : string) :
  Routes.sanitize_llm_data (VDict d) !! k = d !! k ≫= routes_assigned k.
Proof.
  unfold Routes.sanitize_llm_data, MainWithApi.truthy.
  destruct (decide (d = ∅)) as [->|Hne].
  - rewrite bool_decide_eq_true_2 by reflexivity. cbn.
    now rewrite !lookup_empty.
  - rewrite bool_decide_eq_false_2 by assumption. cbn [negb].
    rewrite (foldl_assign_items routes_assigned).
    + rewrite lookup_empty. now destruct (d !! k ≫= routes_assigned k).
    + intros acc key v. unfold Routes.sanitize_step, routes_assigned.
      destruct v; try reflexivity.
      destruct (Routes.is_numeric_key key); [|reflexivity].
      destruct (Routes.clean_numeric_string s); [|reflexivity].
      now destruct (Conv.float s0).
Qed.

Lemma identifier_not_numeric (key : string) :
  MainWithApi.is_identifier key = true -> Routes.is_numeric_key key = false.
Proof.
  unfold MainWithApi.is_identifier, MainWithApi.identifier_keys.
  cbn [existsb]. intros H.
  repeat (apply orb_prop in H as [H|H];
          [apply String.eqb_eq in H; subst; reflexivity|]).
  discriminate.
Qed.

End RoutesSanitizer.

(** C10.  For every dictionary, the sanitizer of main_with_api.py
    returns a dictionary with exactly the keys of its input: each key
    is mapped to the value the loop assigns for it, and a key mapped to
    null keeps null. *)
Theorem main_sanitizer_keeps_keys :
  forall (repr : value -> string) (data : gmap string value),
    dom (MainWithApi.sanitize_llm_data repr data) = dom data
    /\ (forall key, data !! key = None ->
          MainWithApi.sanitize_llm_data repr data !! key = None)
    /\ (forall key, data !! key = Some VNone ->
          MainWithApi.sanitize_llm_data repr data !! key = Some VNone)
    /\ (forall key v, data !! key = Some v ->
          exists v', MainWithApi.sanitize_llm_data repr data !! key = Some v').
Proof.
  intros repr data.
  split; [apply main_sanitize_dom|].
  repeat split.
  - intros key H. now rewrite main_sanitize_lookup, H.
  - intros key H. now rewrite main_sanitize_lookup, H.
  - intros key v H. rewrite main_sanitize_lookup, H. destruct v; eauto.
Qed.

Lemma main_sanitizer_keeps_keys_witness :
  let data : gmap string value :=
    <["amount" := VStr " 12.50 "]> (<["bank_name" := VNone]> ∅) in
  MainWithApi.sanitize_llm_data (fun _ => "") data !! "bank_name" = Some VNone
  /\ MainWithApi.sanitize_llm_data (fun _ => "") data !! "employer" = None.
Proof.
  cbv zeta.
  destruct (main_sanitizer_keeps_keys (fun _ => "")
              (<["amount" := VStr " 12.50 "]> (<["bank_name" := VNone]> ∅)))
    as (_ & Habsent & Hnull & _).
  split; [apply Hnull | apply Habsent]; vm_compute; reflexivity.
Defined.

(** C4, as stated, fails for the sanitizer of routes.py, which copies
    the identifier fields as they are: an integer stays an integer and
    a padded string stays padded. *)
Lemma routes_sanitizer_keeps_identifier_shape :
  Routes.sanitize_llm_data
    (VDict (<["account_number" := VInt 123456]> ∅)) !! "account_number"
  = Some (VInt 123456)
  /\ Routes.sanitize_llm_data
       (VDict (<["account_number" := VStr " 123456 "]> ∅)) !! "account_number"
     = Some (VStr " 123456 ").
Proof. split; vm_compute; reflexivity. Qed.

(** C4, amended.  In the sanitizer of main_with_api.py every value
    other than null of the identifier fields account_number,
    card_number, folio_number and policy_number is coerced to its
    trimmed string, whatever its shape; the sanitizer of routes.py
    copies the values of these fields unchanged.  In both, an
    account_number "123456" remains the string "123456". *)
Theorem identifier_fields_sanitized :
  forall (repr : value -> string) (data : gmap string value) (key : string)
         (v : value),
    MainWithApi.is_identifier key = true ->
    data !! key = Some v ->
    (v <> VNone ->
     MainWithApi.sanitize_llm_data repr data !! key
     = Some (VStr (Py.strip (MainWithApi.str repr v))))
    /\ Routes.sanitize_llm_data (VDict data) !! key = Some v
    /\ (key = "account_number" -> v = VStr "123456" ->
        MainWithApi.sanitize_llm_data repr data !! key = Some (VStr "123456")
        /\ Routes.sanitize_llm_data (VDict data) !! key = Some (VStr "123456")).
Proof.
  intros repr data key v Hid Hv.
  assert (Hmain : v <> VNone ->
            MainWithApi.sanitize_llm_data repr data !! key
            = Some (VStr (Py.strip (MainWithApi.str repr v)))).
  { intros Hnone. rewrite main_sanitize_lookup, Hv.
    unfold MainWithApi.sanitize_value. rewrite Hid.
    destruct v; try reflexivity. contradiction. }
  assert (Hroutes : Routes.sanitize_llm_data (VDict data) !! key = Some v).
  { rewrite routes_sanitize_lookup, Hv. cbn [mbind option_bind].
    unfold routes_assigned. rewrite (identifier_not_numeric key Hid).
    now destruct v. }
  split; [exact Hmain|]. split; [exact Hroutes|].
  intros -> ->. split; [|exact Hroutes].
  rewrite Hmain by discriminate. reflexivity.
Qed.

Lemma identifier_fields_sanitized_witness :
  let data : gmap string value :=
    <["account_number" := VStr "123456"]> (<["amount" := VStr "12.50"]> ∅) in
  MainWithApi.sanitize_llm_data (fun _ => "") data !! "account_number"
  = Some (VStr "123456")
  /\ Routes.sanitize_llm_data (VDict data) !! "account_number"
     = Some (VStr "123456").
Proof.
  cbv zeta.
  refine (proj2 (proj2 (identifier_fields_sanitized (fun _ => "")
            (<["account_number" := VStr "123456"]> (<["amount" := VStr "12.50"]> ∅))
            "account_number" (VStr "123456") _ _)) _ _);
    vm_compute; reflexivity.
Defined.

(** ** Soundness of the matcher *)

Section RegexSoundness.

Lemma append_cons (x : ascii) (a b : string) :
  String x a ++ b = String x (a ++ b).
Proof. reflexivity. Qed.

Lemma append_single (x : ascii) (b : string) :
  String x EmptyString ++ b = String x b.
Proof. reflexivity. Qed.

Lemma append_assoc (a b c : string) : (a ++ b) ++ c = a ++ (b ++ c).
Proof.
  induction a as [|x a IH]; [reflexivity|].
  now rewrite !append_cons, IH.
Qed.

Lemma len_append (a b : string) : Py.len (a ++ b) = (Py.len a + Py.len b)%nat.
Proof.
  unfold Py.len. induction a as [|x a IH]; [reflexivity|].
  rewrite append_cons. cbn [String.length]. now rewrite IH.
Qed.

Lemma take_append (a b : string) : Py.take (Py.len a) (a ++ b) = a.
Proof.
  unfold Py.len. induction a as [|x a IH]; [now destruct b|].
  rewrite append_cons. cbn [String.length Py.take]. now rewrite IH.
Qed.

Context {R : Type}.

Lemma iterate_sound (body : Re.matcher R) (words : string -> Prop)
    (greedy : bool) (lo : nat) (hi : option nat)
    (k : string -> Re.captures -> option R) (x : R) :
  sound body words ->
  forall fuel n s cs,
    Re.iterate body greedy lo hi k fuel n s cs = Some x ->
    exists ws s' cs',
      s = joined ws ++ s' /\ Forall words ws /\ (lo <= n + length ws)%nat
      /\ match hi with
         | Some h => (n <= h -> n + length ws <= h)%nat
         | None => True
         end
      /\ k s' cs' = Some x.
Proof.
  intros Hbody.
  assert (Hstop : forall n s cs,
            (if (lo <=? n)%nat then k s cs else None) = Some x ->
            exists ws s' cs',
              s = joined ws ++ s' /\ Forall words ws /\ (lo <= n + length ws)%nat
              /\ match hi with
                 | Some h => (n <= h -> n + length ws <= h)%nat
                 | None => True
                 end
              /\ k s' cs' = Some x).
  { intros n s cs H. destruct (Nat.leb_spec lo n); [|discriminate].
    exists [], s, cs. cbn. repeat split; auto; [lia|].
    destruct hi; [lia|exact I]. }
  induction fuel as [|fuel IHf]; intros n s cs H; cbn [Re.iterate] in H.
  - apply (Hstop n s cs). destruct greedy; [exact H|].
    destruct (if (lo <=? n)%nat then k s cs else None); [exact H|discriminate].
  - set (next := fun s1 c1 =>
                   if (Py.len s1 <? Py.len s)%nat
                   then Re.iterate body greedy lo hi k fuel (S n) s1 c1
                   else None) in H.
    assert (Hcases :
      (Re.below n hi = true /\ body s cs next = Some x)
      \/ (if (lo <=? n)%nat then k s cs else None) = Some x).
    { destruct greedy.
      - destruct (Re.below n hi); [|right; exact H].
        destruct (body s cs next) eqn:E; [left | right; exact H].
        split; [reflexivity | exact H].
      - destruct (if (lo <=? n)%nat then k s cs else None) eqn:E;
          [right; exact H|].
        destruct (Re.below n hi); [left; split; [reflexivity|exact H]|discriminate]. }
    destruct Hcases as [[Hbelow Hmore]|H']; [|now apply (Hstop n s cs)].
    apply Hbody in Hmore as (w1 & s1 & c1 & -> & Hw1 & Hmore).
    unfold next in Hmore.
    destruct (Py.len s1 <? Py.len (w1 ++ s1))%nat; [|discriminate].
    apply IHf in Hmore as (ws & s' & cs' & -> & Hws & Hlo & Hhi & Hk).
    exists (w1 :: ws), s', cs'. cbn [joined length].
    rewrite append_assoc. repeat split; auto; [lia|].
    destruct hi as [h|]; [|exact I].
    cbn in Hbelow. apply Nat.ltb_lt in Hbelow. lia.
Qed.

Lemma run_sound (ic : bool) (r : Re.regex) :
  sound (R := R) (Re.run ic r) (lang ic r).
Proof.
  induction r as [|neg items|r1 IH1 r2 IH2|r1 IH1 r2 IH2|greedy lo hi r1 IH1|i r1 IH1];
    intros s cs k x H; cbn [Re.run] in H.
  - exists EmptyString, s, cs. cbn. auto.
  - destruct s as [|c t]; [discriminate|].
    destruct (Re.cls_mem ic neg items c) eqn:Hc; [|discriminate].
    exists (String c EmptyString), t, cs. cbn. eauto.
  - apply IH1 in H as (w1 & s1 & c1 & -> & Hw1 & H).
    apply IH2 in H as (w2 & s2 & c2 & -> & Hw2 & H).
    exists (w1 ++ w2), s2, c2. rewrite append_assoc. cbn. eauto 10.
  - destruct (Re.run ic r1 s cs k) eqn:E.
    + injection H as ->. apply IH1 in E as (w & s' & cs' & -> & Hw & E).
      exists w, s', cs'. cbn. auto.
    + apply IH2 in H as (w & s' & cs' & -> & Hw & H).
      exists w, s', cs'. cbn. auto.
  - apply (iterate_sound _ _ _ _ _ _ _ IH1) in H
      as (ws & s' & cs' & -> & Hws & Hlo & Hhi & Hk).
    exists (joined ws), s', cs'. split; [reflexivity|]. split; [|exact Hk].
    cbn. exists ws. repeat split; auto. destruct hi; [lia|exact I].
  - apply IH1 in H as (w & s' & cs' & -> & Hw & H).
    exists w, s'. eexists. cbn. eauto.
Qed.

End RegexSoundness.

(** The text of group 1 of a pattern that is one group. *)
Lemma match_group_lang (ic : bool) (r1 : Re.regex) (s rest : string)
    (cs : Re.captures) :
  Re.match_prefix ic (Re.Grp 1 r1) s = Some (cs, rest) ->
  lang ic r1 (Re.text cs 1).
Proof.
  unfold Re.match_prefix. cbn [Re.run]. intros E.
  apply run_sound in E as (w & s' & c1 & -> & Hw & [= <- <-]).
  unfold Re.text. cbn [Re.group Nat.eqb default].
  now rewrite len_append, Nat.add_sub, take_append.
Qed.

Lemma search_group_lang (ic : bool) (r1 : Re.regex) (s : string)
    (cs : Re.captures) :
  Re.search_regex ic (Re.Grp 1 r1) s = Some cs -> lang ic r1 (Re.text cs 1).
Proof.
  induction s as [|c t IH]; cbn [Re.search_regex].
  - destruct (Re.match_prefix ic _ "") as [[cs' rest]|] eqn:E; [|discriminate].
    intros [= <-]. now apply match_group_lang in E.
  - destruct (Re.match_prefix ic _ (String c t)) as [[cs' rest]|] eqn:E;
      [|exact IH].
    intros [= <-]. now apply match_group_lang in E.
Qed.

Lemma digit_class (c : ascii) :
  Re.cls_mem false false [Re.IDigit] c = true -> Py.is_digit c = true.
Proof.
  unfold Re.cls_mem, Re.item_mem_flag.
  cbn [existsb Re.item_mem andb]. rewrite !orb_false_r.
  now destruct (Py.is_digit c).
Qed.

Lemma separator_class (c : ascii) :
  Re.cls_mem false false [Re.IChar "-"; Re.IChar "/"] c = true ->
  c = "-"%char \/ c = "/"%char.
Proof.
  unfold Re.cls_mem, Re.item_mem_flag.
  cbn [existsb Re.item_mem andb]. rewrite !orb_false_r.
  destruct (Ascii.eqb_spec "-" c) as [<-|_]; [now left|].
  destruct (Ascii.eqb_spec "/" c) as [<-|_]; [now right|discriminate].
Qed.

Lemma digit_not_separator (c : ascii) :
  Py.is_digit c = true ->
  Ascii.eqb c "/" = false /\ Ascii.eqb c "-" = false
  /\ Ascii.eqb "-" c = false.
Proof. destruct c as [[] [] [] [] [] [] [] []]; cbn; intros; try discriminate; auto. Qed.

Lemma joined_digits (ws : list string) :
  Forall (fun w => exists c, w = String c EmptyString
                             /\ Re.cls_mem false false [Re.IDigit] c = true) ws ->
  Py.all_chars Py.is_digit (joined ws) = true.
Proof.
  induction 1 as [|w ws (c & -> & Hc) _ IH]; [reflexivity|].
  cbn [joined]. rewrite append_single.
  cbn [Py.all_chars]. now rewrite (digit_class c Hc), IH.
Qed.

Lemma replace_append (old : ascii) (new a b : string) :
  Py.replace old new (a ++ b) = Py.replace old new a ++ Py.replace old new b.
Proof.
  induction a as [|x a IH]; [reflexivity|].
  rewrite append_cons. cbn [Py.replace]. rewrite IH.
  destruct (Ascii.eqb x old); [now rewrite append_assoc | reflexivity].
Qed.

Lemma replace_separator (c : ascii) :
  c = "-"%char \/ c = "/"%char ->
  Py.replace "/" "-" (String c EmptyString) = "-".
Proof. now intros [-> | ->]. Qed.

Lemma split_fuel_head (d rest : string) :
  Py.all_chars Py.is_digit d = true ->
  forall fuel, (Py.len d < fuel)%nat ->
    Py.split_fuel fuel "-" (d ++ String "-" rest)
    = d :: Py.split_fuel (fuel - Py.len d - 1) "-" rest.
Proof.
  induction d as [|c d IH]; intros Hd [|fuel] Hfuel; try (cbn in Hfuel; lia).
  - cbn. now rewrite Nat.sub_0_r.
  - cbn [Py.all_chars] in Hd. apply andb_prop in Hd as [Hc Hd].
    rewrite append_cons. cbn [Py.split_fuel Py.startswith].
    destruct (digit_not_separator c Hc) as (_ & _ & ->). cbn [andb].
    rewrite IH by (auto; cbn in Hfuel; unfold Py.len in *; lia).
    reflexivity.
Qed.

Lemma split_fuel_last (d : string) :
  Py.all_chars Py.is_digit d = true ->
  forall fuel, Py.split_fuel fuel "-" d = [d].
Proof.
  induction d as [|c d IH]; intros Hd [|fuel]; try reflexivity.
  cbn [Py.all_chars] in Hd. apply andb_prop in Hd as [Hc Hd].
  cbn [Py.split_fuel Py.startswith].
  destruct (digit_not_separator c Hc) as (_ & _ & ->). cbn [andb].
  now rewrite IH.
Qed.

Lemma routes_date_shape (w : string) :
  lang false routes_date_regex w ->
  exists day month year,
    Py.split_str "-" (Py.replace "/" "-" w) = [day; month; year].
Proof.
  unfold routes_date_regex. cbn [lang].
  intros (w1 & r1 & -> & (ws1 & -> & H1 & _)
            & (w2 & r2 & -> & (c2 & -> & Hc2)
            & (w3 & r3 & -> & (ws3 & -> & H3 & _)
            & (w4 & r4 & -> & (c4 & -> & Hc4)
            & (ws5 & -> & H5 & _))))).
  apply joined_digits in H1, H3, H5.
  apply separator_class in Hc2, Hc4.
  exists (joined ws1), (joined ws3), (joined ws5).
  unfold Py.split_str.
  rewrite !replace_append, !(replace_separator _ Hc2), !(replace_separator _ Hc4).
  rewrite !(replace_absent Py.is_digit "/" "-" _ eq_refl) by assumption.
  rewrite !append_single.
  assert (Hlen : forall (c : ascii) (x : string),
             Py.len (String c x) = S (Py.len x)) by reflexivity.
  rewrite split_fuel_head
    by (try assumption; rewrite ?len_append, ?Hlen, ?len_append; lia).
  rewrite split_fuel_head
    by (try assumption; rewrite ?len_append, ?Hlen, ?len_append, ?Hlen; lia).
  now rewrite split_fuel_last.
Qed.

Section RoutesFallback.

Lemma routes_date_compiles :
  Re.compile routes_date_pattern = Some (Re.Grp 1 routes_date_regex).
Proof. vm_compute. reflexivity. Qed.

(** The three-way unpacking of the date in [common_fields] never
    fails. *)
Lemma routes_date_unpacks (message : string) (cs : Re.captures) :
  Re.search routes_date_pattern false message = Some cs ->
  exists day month year,
    Routes.unpack3 (Py.split_str "-" (Py.replace "/" "-" (Re.text cs 1)))
    = Ok (day, month, year).
Proof.
  unfold Re.search. rewrite routes_date_compiles.
  intros H%search_group_lang%routes_date_shape.
  destruct H as (day & month & year & ->). now exists day, month, year.
Qed.

Lemma floats_ok_empty : floats_ok ∅.
Proof. intros key v _ H. now rewrite lookup_empty in H. Qed.

Lemma floats_ok_insert_float (key : string) (f : pyfloat)
    (d : gmap string value) :
  floats_ok d -> floats_ok (<[key := VFloat f]> d).
Proof.
  intros Hd k v Hk. destruct (decide (key = k)) as [->|Hne].
  - rewrite lookup_insert_eq. intros [= <-]. eauto.
  - rewrite lookup_insert_ne by assumption. now apply Hd.
Qed.

Lemma floats_ok_insert_other (key : string) (v : value)
    (d : gmap string value) :
  Routes.is_numeric_key key = false ->
  floats_ok d -> floats_ok (<[key := v]> d).
Proof.
  intros Hkey Hd k w Hk. destruct (decide (key = k)) as [->|Hne].
  - congruence.
  - rewrite lookup_insert_ne by assumption. now apply Hd.
Qed.

Lemma floats_ok_store_number (key captured : string) (d : gmap string value) :
  floats_ok d -> floats_ok (Routes.store_number key captured d).
Proof.
  intros Hd. unfold Routes.store_number.
  destruct (Routes.clean_numeric_string captured) as [cleaned|]; [|exact Hd].
  destruct (Py.truthy cleaned); [|exact Hd].
  destruct (Conv.float cleaned); [|exact Hd].
  now apply floats_ok_insert_float.
Qed.

Lemma floats_ok_bank_name (banks : list string) (message : string)
    (d : gmap string value) :
  floats_ok d -> floats_ok (Routes.bank_name banks message d).
Proof.
  intros Hd. induction banks as [|bank rest IH]; [exact Hd|].
  cbn [Routes.bank_name].
  destruct (Py.contains _ _); [|exact IH].
  now apply floats_ok_insert_other.
Qed.

Lemma floats_ok_update (d other : gmap string value) :
  floats_ok d -> floats_ok other -> floats_ok (update d other).
Proof.
  intros Hd Ho key v Hkey. unfold update. rewrite lookup_union.
  destruct (other !! key) as [w|] eqn:E.
  - destruct (d !! key); cbn; intros [= <-]; now apply (Ho key).
  - destruct (d !! key) eqn:E'; cbn; [|discriminate].
    intros [= <-]. now apply (Hd key).
Qed.

Ltac floats_ok_steps :=
  repeat first
    [ assumption
    | apply floats_ok_empty
    | apply floats_ok_store_number
    | apply floats_ok_bank_name
    | apply floats_ok_insert_other; [reflexivity|]
    | match goal with
      | |- floats_ok (match ?x with _ => _ end) => destruct x
      end ].

Lemma routes_common_fields_returns (message : string) :
  exists d, Routes.common_fields message = Ok d /\ floats_ok d.
Proof.
  unfold Routes.common_fields. cbv zeta.
  fold routes_date_pattern.
  destruct (Re.search routes_date_pattern false message) as [cs|] eqn:E.
  - destruct (routes_date_unpacks message cs E) as (day & month & year & ->).
    cbn [mbind result_bind]. eexists. split; [reflexivity|].
    floats_ok_steps.
  - cbn [mbind result_bind]. eexists. split; [reflexivity|].
    floats_ok_steps.
Qed.

Lemma routes_sip_data_floats (message : string) (sip : gmap string value) :
  Routes.extract_sip_data message = Ok sip -> floats_ok sip.
Proof.
  unfold Routes.extract_sip_data. cbv zeta.
  destruct (Re.search "(\d{2}[/-]\d{2}[/-]\d{4})" false message) as [cs|].
  - destruct (if Py.contains "/" (Re.text cs 1)
              then Routes.unpack3 (Py.split_str "/" (Re.text cs 1))
              else Routes.unpack3 (Py.split_str "-" (Re.text cs 1)))
      as [[[day month] year]|]; cbn [mbind result_bind]; [|discriminate].
    intros [= <-]. floats_ok_steps.
  - cbn [mbind result_bind]. intros [= <-]. floats_ok_steps.
Qed.

Lemma routes_extract_floats (message_type message : string)
    (d : gmap string value) :
  Routes.extract_financial_data message_type message = Ok d -> floats_ok d.
Proof.
  unfold Routes.extract_financial_data.
  destruct (routes_common_fields_returns message) as (d0 & -> & Hd0).
  cbn [mbind result_bind]. cbv zeta.
  repeat match goal with
         | |- (if ?b then _ else _) = _ -> _ => destruct b
         end;
    try (intros [= <-]; floats_ok_steps).
  destruct (Routes.extract_sip_data message) as [sip|] eqn:E;
    cbn [mbind result_bind]; [|discriminate].
  intros [= <-]. apply floats_ok_update; [exact Hd0|].
  now apply (routes_sip_data_floats message).
Qed.

Lemma routes_extract_returns (message_type message : string) :
  message_type <> "SIP_INVESTMENT" ->
  exists d, Routes.extract_financial_data message_type message = Ok d.
Proof.
  intros Hsip. unfold Routes.extract_financial_data.
  destruct (routes_common_fields_returns message) as (d0 & -> & _).
  cbn [mbind result_bind]. cbv zeta.
  repeat match goal with
         | |- exists d, (if ?b then _ else _) = _ => destruct b eqn:?
         end; eauto.
  exfalso. apply Hsip. now apply String.eqb_eq.
Qed.

Lemma has_key_lookup (key : string) (d : gmap string value) :
  has_key key d = match d !! key with Some _ => true | None => false end.
Proof.
  unfold has_key. destruct (d !! key).
  - apply bool_decide_eq_true_2. eauto.
  - apply bool_decide_eq_false_2. intros [? ?]; discriminate.
Qed.

(** An object without one of the three keys does not pass the check
    of the required fields. *)
Lemma missing_key_raises (d : gmap string value) :
  d !! "message_type" = None \/ d !! "extracted_data" = None
  \/ d !! "important_points" = None ->
  (has_type ← MainWithApi.py_in "message_type" (VDict d);
   has_data ← (if has_type : bool
               then MainWithApi.py_in "extracted_data" (VDict d)
               else Ok false);
   if has_data : bool
   then MainWithApi.py_in "important_points" (VDict d)
   else Ok false) = Ok false.
Proof.
  intros H. cbn [MainWithApi.py_in mbind result_bind].
  rewrite !has_key_lookup.
  destruct (d !! "message_type"); [|reflexivity].
  cbn [mbind result_bind]. rewrite ?has_key_lookup.
  destruct (d !! "extracted_data"); [|reflexivity].
  rewrite ?has_key_lookup.
  destruct (d !! "important_points"); [|reflexivity].
  destruct H as [H|[H|H]]; discriminate.
Qed.

End RoutesFallback.

Section RemoteFailure.

Variable repr : value -> string.
Variable format_money : pyfloat -> string.
Variable invoke : string -> result string.
Variable json_loads : string -> result value.
Variable store_main :
  value -> gmap string value -> string -> value -> result (gmap string value).
Variable store_routes : value -> gmap string value -> string -> result value.
Variable coerce :
  value -> value -> gmap string value -> result Routes.MessageResponse.

Local Abbreviation main_llm :=
  (MainWithApi.analyze_with_llm repr invoke json_loads).
Local Abbreviation routes_llm :=
  (Routes.analyze_with_llm invoke json_loads).
Local Abbreviation process_single_message :=
  (MainWithApi.process_single_message repr invoke
     json_loads store_main).
Local Abbreviation analyze_message :=
  (Routes.analyze_message repr format_money invoke
     json_loads store_routes coerce).
Local Abbreviation fallback := (Routes.fallback repr format_money store_routes).
Local Abbreviation fallback_points := (Routes.fallback_points repr format_money).

Lemma main_llm_invoke_raises (message : string) (e : exn) :
  invoke message = Raise e ->
  main_llm message = VNone.
Proof.
  intros H. unfold MainWithApi.analyze_with_llm, MainWithApi.analyze_with_llm_try.
  now rewrite H.
Qed.

Lemma main_llm_rejected (message text : string) :
  invoke message = Ok text ->
  rejected (json_loads (MainWithApi.extract_json_block text)) ->
  main_llm message = VNone.
Proof.
  intros Hinvoke Hrej.
  unfold MainWithApi.analyze_with_llm, MainWithApi.analyze_with_llm_try.
  rewrite Hinvoke. cbn [mbind result_bind]. cbv zeta.
  destruct Hrej as [[e ->]|(d & -> & Hmissing)].
  - now destruct e.
  - pose proof (missing_key_raises d Hmissing) as Hcheck.
    cbn [mbind result_bind] in Hcheck |- *.
    destruct (MainWithApi.py_in "message_type" (VDict d)) as [[]|];
      cbn [mbind result_bind] in Hcheck |- *; try discriminate;
      try reflexivity.
    destruct (MainWithApi.py_in "extracted_data" (VDict d)) as [[]|];
      cbn [mbind result_bind] in Hcheck |- *; try discriminate;
      try reflexivity.
    now rewrite Hcheck.
Qed.

Lemma routes_llm_invoke_raises (message : string) (e : exn) :
  invoke message = Raise e ->
  routes_llm message = VNone.
Proof.
  intros H. unfold Routes.analyze_with_llm, Routes.analyze_with_llm_try.
  now rewrite H.
Qed.

Lemma routes_llm_rejected (message text clean : string) :
  invoke message = Ok text ->
  Routes.strip_fences text = Ok clean ->
  rejected (json_loads clean) ->
  routes_llm message = VNone.
Proof.
  intros Hinvoke Hclean Hrej.
  unfold Routes.analyze_with_llm, Routes.analyze_with_llm_try.
  rewrite Hinvoke. cbn [mbind result_bind]. rewrite Hclean.
  cbn [mbind result_bind].
  destruct Hrej as [[e ->]|(d & -> & Hmissing)].
  - now destruct e.
  - pose proof (missing_key_raises d Hmissing) as Hcheck.
    cbn [mbind result_bind] in Hcheck |- *.
    destruct (MainWithApi.py_in "message_type" (VDict d)) as [[]|];
      cbn [mbind result_bind] in Hcheck |- *; try discriminate;
      try reflexivity.
    destruct (MainWithApi.py_in "extracted_data" (VDict d)) as [[]|];
      cbn [mbind result_bind] in Hcheck |- *; try discriminate;
      try reflexivity.
    now rewrite Hcheck.
Qed.

Lemma point_money_returns (label key : string) (d : gmap string value)
    (points : list string) :
  floats_ok d -> Routes.is_numeric_key key = true ->
  exists points',
    Routes.point label (d !! key) (Routes.money format_money) points
    = Ok points'.
Proof.
  intros Hd Hkey. unfold Routes.point.
  destruct (d !! key) as [v|] eqn:E; [|eauto].
  destruct (Hd key v Hkey E) as [f ->]. cbn. eauto.
Qed.

Lemma point_shown_returns (label : string) (field : option value)
    (points : list string) :
  exists points',
    Routes.point label field (Routes.shown repr) points = Ok points'.
Proof. unfold Routes.point, Routes.shown. destruct field; cbn; eauto. Qed.

Lemma fallback_points_returns (message_type : string) (d : gmap string value) :
  floats_ok d -> exists points, fallback_points message_type d = Ok points.
Proof.
  intros Hd. unfold Routes.fallback_points.
  destruct (point_money_returns ("Transaction amount: " ++ rupee) "amount"
              d [] Hd eq_refl) as [p1 ->].
  cbn [mbind result_bind].
  destruct (point_shown_returns "Date: " (d !! "transaction_date") p1) as [p2 ->].
  cbn [mbind result_bind].
  destruct (point_shown_returns "Bank: " (d !! "bank_name") p2) as [p3 ->].
  cbn [mbind result_bind].
  destruct (point_money_returns ("Available balance: " ++ rupee)
              "available_balance" d p3 Hd eq_refl) as [p4 ->].
  cbn [mbind result_bind].
  repeat match goal with
         | |- exists points, (if ?b then _ else _) = _ => destruct b
         end; try apply point_shown_returns; [|eauto].
  destruct (point_shown_returns "Fund: " (d !! "fund_name") p4) as [p5 ->].
  cbn [mbind result_bind]. apply point_shown_returns.
Qed.

Lemma fallback_returns (message : string) (d : gmap string value) :
  Routes.extract_financial_data (Routes.classify_message_type message) message
  = Ok d ->
  exists points,
    fallback_points (Routes.classify_message_type message) d = Ok points
    /\ fallback message
       = Ok {| Routes.message_type := Routes.classify_message_type message;
               Routes.important_points := points;
               Routes.data := d |}.
Proof.
  intros Hd. unfold Routes.fallback. cbv zeta. rewrite Hd.
  cbn [mbind result_bind].
  destruct (fallback_points_returns (Routes.classify_message_type message) d
              (routes_extract_floats _ _ _ Hd)) as [points Hp].
  exists points. split; [exact Hp|]. rewrite Hp. cbn [mbind result_bind].
  now destruct (store_routes _ _ _).
Qed.

Lemma analyze_message_falls_back (message : string) :
  Py.truthy (Py.strip message) = true ->
  routes_llm message = VNone ->
  analyze_message message = fallback message.
Proof.
  intros Hmsg Hnone. unfold Routes.analyze_message.
  rewrite Hmsg. cbn [negb]. cbv zeta. now rewrite Hnone.
Qed.

Lemma process_single_message_raises (date_str message : string)
    (customer_info : value) :
  Py.truthy (Py.strip message) = true ->
  main_llm message = VNone ->
  process_single_message date_str message customer_info
  = Raise (ValueError "LLM returned no result or failed to extract information").
Proof.
  intros Hmsg Hnone. unfold MainWithApi.process_single_message.
  rewrite Hmsg. cbn [negb]. cbv zeta. now rewrite Hnone.
Qed.

(** C1, amended.  Whenever the remote-analysis path fails (the call of
    the model raises, its response is malformed JSON, or it is an
    object missing any of message_type, extracted_data,
    important_points), [analyze_with_llm] returns None in both files.
    In routes.py, [analyze_message] then takes the rule-based path
    ([classify_message_type] then [extract_financial_data]) and
    answers with its complete result whenever that extraction returns,
    which it always does for a category other than SIP_INVESTMENT.  In
    main_with_api.py, [process_single_message] does not fall back: it
    raises ValueError to its caller. *)
Theorem remote_failure_handling :
  forall message, Py.truthy (Py.strip message) = true ->
    (routes_remote_fails invoke json_loads message ->
     routes_llm message = VNone
     /\ analyze_message message = fallback message
     /\ (forall d,
           Routes.extract_financial_data
             (Routes.classify_message_type message) message = Ok d ->
           exists points,
             fallback_points (Routes.classify_message_type message) d = Ok points
             /\ analyze_message message
                = Ok {| Routes.message_type := Routes.classify_message_type message;
                        Routes.important_points := points;
                        Routes.data := d |})
     /\ (Routes.classify_message_type message <> "SIP_INVESTMENT" ->
         exists d,
           Routes.extract_financial_data
             (Routes.classify_message_type message) message = Ok d))
    /\ (main_remote_fails invoke json_loads message ->
        main_llm message = VNone
        /\ forall date_str customer_info,
             process_single_message date_str message customer_info
             = Raise (ValueError
                        "LLM returned no result or failed to extract information")).
Proof.
  intros message Hmsg. split.
  - intros Hfail.
    assert (Hnone : routes_llm message = VNone).
    { unfold routes_remote_fails in Hfail.
      destruct (invoke message) as [text|e] eqn:Hinvoke;
        [|now apply (routes_llm_invoke_raises message e)].
      destruct (Routes.strip_fences text) as [clean|e] eqn:Hclean;
        [now apply (routes_llm_rejected message text clean)|].
      unfold Routes.analyze_with_llm, Routes.analyze_with_llm_try.
      rewrite Hinvoke. cbn [mbind result_bind]. now rewrite Hclean. }
    split; [exact Hnone|].
    split; [now apply analyze_message_falls_back|].
    split; [|apply routes_extract_returns].
    intros d Hd. destruct (fallback_returns message d Hd) as (points & Hp & Hf).
    exists points. split; [exact Hp|].
    now rewrite analyze_message_falls_back.
  - intros Hfail.
    assert (Hnone : main_llm message = VNone).
    { unfold main_remote_fails in Hfail.
      destruct (invoke message) as [text|e] eqn:Hinvoke;
        [now apply (main_llm_rejected message text)
        |now apply (main_llm_invoke_raises message e)]. }
    split; [exact Hnone|].
    intros date_str customer_info. now apply process_single_message_raises.
Qed.

End RemoteFailure.

Lemma remote_failure_handling_witness :
  let message := "Rs.500 debited from A/c XX1234 on 05/11/2024" in
  let invoke := fun _ : string => Ok "Sorry, I cannot help with that." in
  let json_loads := fun _ : string => @Raise value JSONDecodeError in
  Routes.analyze_with_llm invoke json_loads message = VNone
  /\ MainWithApi.process_single_message (fun _ => "") invoke json_loads
       (fun _ d _ _ => Ok d) "2024-11-05" message VNone
     = Raise (ValueError "LLM returned no result or failed to extract information").
Proof.
  cbv zeta.
  destruct (remote_failure_handling (fun _ => "") (fun _ => "")
              (fun _ : string => Ok "Sorry, I cannot help with that.")
              (fun _ : string => @Raise value JSONDecodeError)
              (fun _ d _ _ => Ok d) (fun _ _ _ => Ok VNone)
              (fun _ _ _ => Raise TypeError)
              "Rs.500 debited from A/c XX1234 on 05/11/2024" eq_refl)
    as [Hroutes Hmain].
  split.
  - apply Hroutes. vm_compute. left. eexists. reflexivity.
  - apply Hmain. vm_compute. left. eexists. reflexivity.
Defined.

(** C1, as stated, fails for main_with_api.py: with a reply that is
    not JSON, [process_single_message] raises instead of falling back
    to the rule-based path. *)
Lemma main_process_single_message_does_not_fall_back :
  MainWithApi.process_single_message (fun _ => "")
    (fun _ => Ok "Sorry, I cannot help with that.")
    (fun _ => Raise JSONDecodeError)
    (fun _ d _ _ => Ok d)
    "2024-11-05" "Rs.500 debited from A/c XX1234 on 05/11/2024" VNone
  = Raise (ValueError "LLM returned no result or failed to extract information").
Proof. vm_compute. reflexivity. Qed.

(** The rule-based path of routes.py returns on the same message. *)
Lemma routes_analyze_message_falls_back :
  exists points,
    Routes.analyze_message (fun _ => "") (fun _ => "")
      (fun _ => Ok "Sorry, I cannot help with that.")
      (fun _ => Raise JSONDecodeError)
      (fun _ _ _ => Ok VNone) (fun _ _ _ => Raise TypeError)
      "Rs.500 debited from A/c XX1234 on 05/11/2024"
    = Ok {| Routes.message_type := "DEBIT_TRANSACTION";
            Routes.important_points := points;
            Routes.data :=
              <["amount" := VFloat (Finite 500)]>
                (<["account_number" := VStr "XX1234"]>
                   (<["transaction_date" := VStr "2024-11-05"]> ∅)) |}.
Proof. eexists. vm_compute. reflexivity. Qed.

(** A date with two kinds of separators makes the SIP extraction of
    routes.py raise: "/" is found, and splitting on it gives two parts
    where three are unpacked. *)
Lemma routes_sip_mixed_separators_raise :
  Routes.classify_message_type "Your SIP of 11/04-2025 has been processed"
  = "SIP_INVESTMENT"
  /\ Routes.extract_financial_data "SIP_INVESTMENT"
       "Your SIP of 11/04-2025 has been processed"
     = Raise (ValueError "wrong number of values to unpack").
Proof. split; vm_compute; reflexivity. Qed.

(** * Further properties

    Properties of the code beyond the claims of the specification. *)

(** ** The classifiers *)

Section ClassifierFacts.





End ClassifierFacts.

(** X1.  The classifier of main_with_api.py never answers
    CREDIT_TRANSACTION: the words of its credit rule, "credited" and
    "deposited", already fire the salary rule, which is tested first. *)
Theorem main_classifier_never_credit_transaction :
  forall message,
    MainWithApi.classify_message_type message <> "CREDIT_TRANSACTION".
Proof.
  intros message. unfold MainWithApi.classify_message_type.
  unfold MainWithApi.salary_rule, MainWithApi.credit_rule.
  destruct (Py.contains "credited" (Py.lower message)) eqn:Hc;
    [now rewrite orb_true_r|].
  destruct (Py.contains "deposited" (Py.lower message)) eqn:Hd;
    [now rewrite orb_true_r|].
  rewrite !orb_false_r. cbn [orb].
  repeat match goal with
         | |- context [if ?b then _ else _] => destruct b
         end; discriminate.
Qed.


(** X3.  The classifier of routes.py has no insurance rule: it never
    answers INSURANCE_PAYMENT, and it answers SALARY_CREDIT only for a
    message that names one of the banks hdfc, sbi, icici, axis. *)
Theorem routes_classifier_restrictions :
  forall message,
    Routes.classify_message_type message <> "INSURANCE_PAYMENT"
    /\ (Routes.classify_message_type message = "SALARY_CREDIT" ->
        names_bank message = true).
Proof.
  intros message. unfold Routes.classify_message_type. split.
  - repeat match goal with
           | |- context [if ?b then _ else _] => destruct b
           end; discriminate.
  - unfold Routes.salary_rule, names_bank. rewrite lower_idempotent.
    destruct (existsb _ _); [reflexivity|]. rewrite andb_false_r.
    repeat match goal with
           | |- context [if ?b then _ else _] => destruct b
           end; discriminate.
Qed.

Lemma routes_classifier_restrictions_witness :
  Routes.classify_message_type "Salary credited to your SBI account"
  = "SALARY_CREDIT"
  /\ names_bank "Salary credited to your SBI account" = true.
Proof.
  split; [reflexivity|].
  apply (proj2 (routes_classifier_restrictions
                  "Salary credited to your SBI account")).
  reflexivity.
Defined.

(** ** The shape of cleaned numbers *)

Section StringFacts.

Lemma count_append (c : ascii) (a b : string) :
  Py.count c (a ++ b) = (Py.count c a + Py.count c b)%nat.
Proof.
  induction a as [|x a IH]; [reflexivity|].
  rewrite append_cons. cbn [Py.count]. rewrite IH. lia.
Qed.

Lemma remove_cons (old x : ascii) (s : string) :
  Py.replace old "" (String x s)
  = if Ascii.eqb x old then Py.replace old "" s
    else String x (Py.replace old "" s).
Proof. reflexivity. Qed.

Lemma count_removed (c : ascii) (s : string) :
  Py.count c (Py.replace c "" s) = 0%nat.
Proof.
  induction s as [|x s IH]; [reflexivity|]. rewrite remove_cons.
  destruct (Ascii.eqb x c) eqn:E; [exact IH|].
  cbn [Py.count]. now rewrite E, IH.
Qed.

Lemma count_remove_le (c old : ascii) (s : string) :
  (Py.count c (Py.replace old "" s) <= Py.count c s)%nat.
Proof.
  induction s as [|x s IH]; [reflexivity|]. rewrite remove_cons.
  destruct (Ascii.eqb x old); cbn [Py.count]; lia.
Qed.

Lemma len_remove_le (old : ascii) (s : string) :
  (Py.len (Py.replace old "" s) <= Py.len s)%nat.
Proof.
  unfold Py.len. induction s as [|x s IH]; [reflexivity|]. rewrite remove_cons.
  destruct (Ascii.eqb x old); cbn [String.length]; lia.
Qed.

Lemma remove_absent (old : ascii) (s : string) :
  Py.count old s = 0%nat -> Py.replace old "" s = s.
Proof.
  induction s as [|x s IH]; [reflexivity|]. rewrite remove_cons.
  cbn [Py.count]. destruct (Ascii.eqb x old); [discriminate|].
  intros H. now rewrite IH.
Qed.

Lemma take_drop (n : nat) (s : string) : Py.take n s ++ Py.drop n s = s.
Proof.
  revert s. induction n as [|n IH]; intros [|x s]; try reflexivity.
  cbn [Py.take Py.drop]. now rewrite append_cons, IH.
Qed.

Lemma count_take_drop (c : ascii) (n : nat) (s : string) :
  (Py.count c (Py.take n s) + Py.count c (Py.drop n s))%nat = Py.count c s.
Proof. now rewrite <- count_append, take_drop. Qed.

Lemma len_take_drop (n : nat) (s : string) :
  (Py.len (Py.take n s) + Py.len (Py.drop n s))%nat = Py.len s.
Proof. now rewrite <- len_append, take_drop. Qed.

Lemma len_take (n : nat) (s : string) :
  Py.len (Py.take n s) = Nat.min n (Py.len s).
Proof.
  unfold Py.len. revert s. induction n as [|n IH]; intros [|x s]; try reflexivity.
  cbn [Py.take String.length]. rewrite IH. lia.
Qed.

(** The slice up to and including the first occurrence of [c]. *)
Lemma find_first (c : ascii) (s : string) :
  (1 <= Py.count c s)%nat ->
  exists i, Py.find c s = Z.of_nat i /\ (i < Py.len s)%nat
            /\ Py.count c (Py.take (S i) s) = 1%nat.
Proof.
  unfold Py.len. induction s as [|x s IH]; cbn [Py.count]; [lia|].
  cbn [Py.find]. destruct (Ascii.eqb x c) eqn:E.
  - intros _. exists 0%nat. split; [reflexivity|].
    split; [cbn [String.length]; lia|].
    cbn [Py.take Py.count]. now rewrite E.
  - intros H. destruct IH as (i & Hi & Hlen & Hcount); [lia|].
    exists (S i). rewrite Hi.
    split; [destruct (Z.of_nat i) eqn:Ei; lia|].
    split; [cbn [String.length]; lia|].
    change (Py.take (S (S i)) (String x s)) with (String x (Py.take (S i) s)).
    cbn [Py.count]. rewrite E. exact Hcount.
Qed.

Lemma endswith_len (c : ascii) (s : string) :
  Py.endswith c s = true -> (1 <= Py.len s)%nat.
Proof. destruct s; [discriminate | cbn; lia]. Qed.

End StringFacts.

Section NumericInvariants.

Lemma bound_nonneg (s : string) (i : nat) :
  Py.bound s (Z.of_nat i + 1) = Nat.min (S i) (Py.len s).
Proof.
  unfold Py.bound. destruct (Z.ltb_spec (Z.of_nat i + 1) 0); [lia|].
  f_equal. lia.
Qed.

Lemma bound_last (s : string) :
  Py.bound s (-1) = (Py.len s - 1)%nat.
Proof. unfold Py.bound. cbn [Z.ltb Z.compare]. lia. Qed.

Lemma slice_to_last (s : string) :
  Py.slice_to s (-1) = Py.take (Py.len s - 1) s.
Proof. unfold Py.slice_to. now rewrite bound_last. Qed.

(** The three steps of [clean_numeric_string] on non-empty text. *)
Lemma clean_numeric_string_steps (s out : string) :
  MainWithApi.clean_numeric_string s = Some out ->
  let c1 := Py.replace "," "" s in
  let c2 := if Py.endswith "." c1 then Py.take (Py.len c1 - 1) c1 else c1 in
  Py.truthy s = true
  /\ out = (if (1 <? Py.count "." c2)%nat
            then Py.slice_to c2 (Py.find "." c2 + 1)
                 ++ Py.replace "." "" (Py.slice_from c2 (Py.find "." c2 + 1))
            else c2).
Proof.
  unfold MainWithApi.clean_numeric_string.
  destruct (Py.truthy s); [|discriminate]. cbn [negb]. cbv zeta.
  rewrite !slice_to_last.
  intros [= <-]. split; reflexivity.
Qed.

Lemma clean_numeric_string_invariants (s out : string) :
  MainWithApi.clean_numeric_string s = Some out ->
  Py.count "," out = 0%nat /\ (Py.count "." out <= 1)%nat
  /\ (Py.len out <= Py.len s)%nat.
Proof.
  intros H. apply clean_numeric_string_steps in H as [_ ->]. cbv zeta.
  set (c1 := Py.replace "," "" s).
  set (c2 := if Py.endswith "." c1 then Py.take (Py.len c1 - 1) c1 else c1).
  assert (H1 : Py.count "," c1 = 0%nat) by apply count_removed.
  assert (L1 : (Py.len c1 <= Py.len s)%nat) by apply len_remove_le.
  assert (H2 : Py.count "," c2 = 0%nat).
  { unfold c2. destruct (Py.endswith "." c1); [|exact H1].
    pose proof (count_take_drop "," (Py.len c1 - 1) c1). lia. }
  assert (L2 : (Py.len c2 <= Py.len c1)%nat).
  { unfold c2. destruct (Py.endswith "." c1); [|lia].
    rewrite len_take. lia. }
  destruct (Nat.ltb_spec 1 (Py.count "." c2)) as [Hdots|Hdots];
    [|repeat split; lia].
  destruct (find_first "." c2) as (i & -> & Hi & Hone); [lia|].
  unfold Py.slice_to, Py.slice_from. rewrite bound_nonneg.
  replace (Nat.min (S i) (Py.len c2)) with (S i) by lia.
  rewrite !count_append, len_append, Hone, count_removed.
  pose proof (count_take_drop "," (S i) c2).
  pose proof (count_remove_le "," "." (Py.drop (S i) c2)).
  pose proof (len_take_drop (S i) c2).
  pose proof (len_remove_le "." (Py.drop (S i) c2)).
  repeat split; lia.
Qed.

Lemma clean_numeric_string_fixed_point (s : string) :
  MainWithApi.clean_numeric_string s = Some s <-> needs_no_cleaning s = true.
Proof.
  unfold needs_no_cleaning. split.
  - intros H.
    destruct (clean_numeric_string_invariants s s H) as (Hcomma & Hdot & _).
    apply clean_numeric_string_steps in H as [Hne H]. cbv zeta in H.
    rewrite Hne, Hcomma. cbn [andb Nat.eqb].
    destruct (Nat.leb_spec (Py.count "." s) 1); [|lia]. cbn [andb].
    rewrite (remove_absent "," s Hcomma) in H.
    destruct (Py.endswith "." s) eqn:Hend; [|reflexivity].
    exfalso. pose proof (endswith_len _ _ Hend) as Hlen.
    pose proof (count_take_drop "." (Py.len s - 1) s) as Hc.
    destruct (Nat.ltb_spec 1 (Py.count "." (Py.take (Py.len s - 1) s)));
      [lia|].
    apply (f_equal Py.len) in H. rewrite len_take in H. lia.
  - intros [[[Hne Hcomma]%andb_prop Hdot]%andb_prop Hend]%andb_prop.
    apply Nat.eqb_eq in Hcomma. apply Nat.leb_le in Hdot.
    apply negb_true_iff in Hend.
    unfold MainWithApi.clean_numeric_string. rewrite Hne. cbn [negb]. cbv zeta.
    rewrite (remove_absent "," s Hcomma), Hend.
    destruct (Nat.ltb_spec 1 (Py.count "." s)); [lia|reflexivity].
Qed.

End NumericInvariants.

(** X4.  Whatever text it is given, the numeric normalizer returns text
    without a comma and with at most one point, never longer than its
    input (in main_with_api.py and in routes.py). *)
Theorem clean_numeric_string_output_shape :
  forall s out,
    (MainWithApi.clean_numeric_string s = Some out ->
     Py.count "," out = 0%nat /\ (Py.count "." out <= 1)%nat
     /\ (Py.len out <= Py.len s)%nat)
    /\ (Routes.clean_numeric_string s = Some out ->
        Py.count "," out = 0%nat /\ (Py.count "." out <= 1)%nat
        /\ (Py.len out <= Py.len s)%nat).
Proof.
  intros s out. rewrite routes_clean_numeric_string_same.
  split; apply clean_numeric_string_invariants.
Qed.

Lemma clean_numeric_string_output_shape_witness :
  MainWithApi.clean_numeric_string "1,2.3.4." = Some "12.34"
  /\ Py.count "," "12.34" = 0%nat /\ (Py.count "." "12.34" <= 1)%nat
  /\ (Py.len "12.34" <= Py.len "1,2.3.4.")%nat.
Proof.
  split; [reflexivity|].
  apply (proj1 (clean_numeric_string_output_shape "1,2.3.4." "12.34")).
  reflexivity.
Defined.

(** X5.  The numeric normalizer returns a text unchanged exactly when
    the text is not empty, has no comma, has at most one point and does
    not end with a point; on any other text a second pass is not
    guaranteed to agree with the first ("1.." gives "1." and then
    "1"). *)
Theorem clean_numeric_string_fixed_points :
  (forall s,
     (MainWithApi.clean_numeric_string s = Some s <-> needs_no_cleaning s = true)
     /\ (Routes.clean_numeric_string s = Some s <-> needs_no_cleaning s = true))
  /\ MainWithApi.clean_numeric_string "1.." = Some "1."
  /\ MainWithApi.clean_numeric_string "1." = Some "1".
Proof.
  split; [|split; reflexivity].
  intros s. rewrite routes_clean_numeric_string_same.
  split; apply clean_numeric_string_fixed_point.
Qed.

(** ** More on the sanitizers *)

Section Stripping.

Lemma rstrip_cons (c : ascii) (t : string) :
  Py.rstrip (String c t) =
  match Py.rstrip t with
  | EmptyString => if Py.is_space c then EmptyString else String c EmptyString
  | t' => String c t'
  end.
Proof. reflexivity. Qed.

Lemma rstrip_idempotent (s : string) : Py.rstrip (Py.rstrip s) = Py.rstrip s.
Proof.
  induction s as [|c t IH]; [reflexivity|]. rewrite rstrip_cons.
  destruct (Py.rstrip t) as [|c' t'] eqn:E.
  - destruct (Py.is_space c) eqn:Hc; [reflexivity|].
    rewrite rstrip_cons. cbn [Py.rstrip]. now rewrite Hc.
  - rewrite rstrip_cons, IH. reflexivity.
Qed.

(** Text that does not start with whitespace still does not after
    [rstrip]. *)
Lemma lstrip_rstrip (s : string) :
  Py.lstrip s = s -> Py.lstrip (Py.rstrip s) = Py.rstrip s.
Proof.
  destruct s as [|c t]; [reflexivity|]. cbn [Py.lstrip].
  destruct (Py.is_space c) eqn:Hc.
  - intros H. exfalso. apply (f_equal String.length) in H.
    assert (Hlen : forall u, (String.length (Py.lstrip u) <= String.length u)%nat).
    { induction u as [|x u IHu]; [reflexivity|]. cbn [Py.lstrip].
      destruct (Py.is_space x); cbn [String.length]; lia. }
    specialize (Hlen t). cbn [String.length] in H. lia.
  - intros _. rewrite rstrip_cons.
    destruct (Py.rstrip t); rewrite ?Hc; cbn [Py.lstrip]; now rewrite Hc.
Qed.

Lemma lstrip_idempotent (s : string) : Py.lstrip (Py.lstrip s) = Py.lstrip s.
Proof.
  induction s as [|c t IH]; [reflexivity|]. cbn [Py.lstrip].
  destruct (Py.is_space c) eqn:Hc; [exact IH|].
  cbn [Py.lstrip]. now rewrite Hc.
Qed.

Lemma strip_idempotent (s : string) : Py.strip (Py.strip s) = Py.strip s.
Proof.
  unfold Py.strip.
  rewrite (lstrip_rstrip (Py.lstrip s) (lstrip_idempotent s)).
  apply rstrip_idempotent.
Qed.

End Stripping.

Section MainSanitizerFacts.

Variable repr : value -> string.

Lemma sanitize_value_trimmed_scalar (key : string) (v : value) :
  v <> VNone -> trimmed_scalar (MainWithApi.sanitize_value repr key v) = true.
Proof.
  intros Hv. unfold MainWithApi.sanitize_value.
  assert (Hs : forall s, trimmed_scalar (VStr (Py.strip s)) = true).
  { intros s. cbn [trimmed_scalar]. rewrite strip_idempotent. apply String.eqb_refl. }
  destruct (MainWithApi.is_identifier key); [apply Hs|].
  destruct v; try reflexivity; try apply Hs; try contradiction.
  destruct (Py.isdigit _); [|apply Hs].
  destruct (Py.contains _ _); [|reflexivity].
  destruct (Conv.float _); [reflexivity | apply Hs].
Qed.

Lemma sanitize_value_again (key : string) (v : value) :
  MainWithApi.is_identifier key || scalar v = true ->
  MainWithApi.sanitize_value repr key (MainWithApi.sanitize_value repr key v)
  = MainWithApi.sanitize_value repr key v.
Proof.
  unfold MainWithApi.sanitize_value.
  destruct (MainWithApi.is_identifier key) eqn:Hid.
  - intros _. cbn [MainWithApi.str]. now rewrite strip_idempotent.
  - cbn [orb]. intros Hv.
    destruct v; try reflexivity; try discriminate;
      cbn [MainWithApi.str]; rewrite ?strip_idempotent; try reflexivity.
    destruct (Py.isdigit (Py.replace_first "." "" (Py.strip s))) eqn:E.
    + destruct (Py.contains "." (Py.strip s)) eqn:Hdot; [|reflexivity].
      destruct (Conv.float (Py.strip s)) eqn:Hf; [reflexivity|].
      now rewrite strip_idempotent, E, Hdot, Hf.
    + now rewrite strip_idempotent, E.
Qed.

Lemma sanitized_no_none (key : string) (v : value) :
  v <> VNone -> MainWithApi.sanitize_value repr key v <> VNone.
Proof.
  intros Hv H. pose proof (sanitize_value_trimmed_scalar key v Hv) as Ht.
  unfold MainWithApi.sanitize_value in H.
  destruct (MainWithApi.is_identifier key); [discriminate|].
  destruct v; try discriminate; try contradiction.
  destruct (Py.isdigit _); [|discriminate].
  destruct (Py.contains _ _); [|discriminate].
  destruct (Conv.float _); discriminate.
Qed.

Lemma scalars_only_lookup (data : gmap string value) (key : string) (v : value) :
  scalars_only data = true -> data !! key = Some v ->
  MainWithApi.is_identifier key || scalar v = true.
Proof.
  unfold scalars_only. rewrite forallb_forall. intros H Hk.
  apply (H (key, v)). apply list_elem_of_In. now apply elem_of_map_to_list.
Qed.

Lemma main_sanitize_twice (data : gmap string value) :
  scalars_only data = true ->
  MainWithApi.sanitize_llm_data repr (MainWithApi.sanitize_llm_data repr data)
  = MainWithApi.sanitize_llm_data repr data.
Proof.
  intros Hdata. apply map_eq. intros key.
  rewrite (main_sanitize_lookup repr (MainWithApi.sanitize_llm_data repr data)).
  rewrite main_sanitize_lookup.
  destruct (data !! key) as [v|] eqn:Hk; [|reflexivity].
  pose proof (scalars_only_lookup data key v Hdata Hk) as Hv.
  destruct v; [reflexivity|..];
    match goal with
    | |- context [MainWithApi.sanitize_value repr key ?x] =>
        pose proof (sanitized_no_none key x ltac:(discriminate)) as Hnone;
        pose proof (sanitize_value_again key x Hv) as Hagain
    end;
    (destruct (MainWithApi.sanitize_value repr key _) eqn:E;
     [contradiction|..]; now rewrite Hagain).
Qed.

End MainSanitizerFacts.

(** X6.  After the sanitizer of main_with_api.py every field is null or
    a scalar: lists and dictionaries have been turned into text, and
    every text is trimmed. *)
Theorem main_sanitizer_output_trimmed_scalars :
  forall (repr : value -> string) (data : gmap string value) (key : string)
         (v : value),
    MainWithApi.sanitize_llm_data repr data !! key = Some v ->
    trimmed_scalar v = true.
Proof.
  intros repr data key v. rewrite main_sanitize_lookup.
  destruct (data !! key) as [v0|] eqn:Hk; [|discriminate].
  destruct v0; [now intros [= <-]|..]; intros [= <-];
    now apply sanitize_value_trimmed_scalar.
Qed.

Lemma main_sanitizer_output_trimmed_scalars_witness :
  let data : gmap string value :=
    <["remarks" := VList [VStr "a"]]> (<["bank_name" := VStr "  HDFC Bank "]> ∅) in
  MainWithApi.sanitize_llm_data (fun _ => " [a] ") data !! "remarks"
  = Some (VStr "[a]")
  /\ trimmed_scalar (VStr "[a]") = true.
Proof.
  cbv zeta.
  assert (H : MainWithApi.sanitize_llm_data (fun _ => " [a] ")
                (<["remarks" := VList [VStr "a"]]>
                   (<["bank_name" := VStr "  HDFC Bank "]> ∅)) !! "remarks"
              = Some (VStr "[a]")) by (vm_compute; reflexivity).
  split; [exact H|].
  exact (main_sanitizer_output_trimmed_scalars _ _ _ _ H).
Defined.

(** X7.  The sanitizer of main_with_api.py is idempotent on every
    dictionary whose fields, the identifier fields apart, hold no list
    and no dictionary: a second pass changes nothing. *)
Theorem main_sanitizer_idempotent :
  forall (repr : value -> string) (data : gmap string value),
    scalars_only data = true ->
    MainWithApi.sanitize_llm_data repr (MainWithApi.sanitize_llm_data repr data)
    = MainWithApi.sanitize_llm_data repr data.
Proof. intros repr data. apply main_sanitize_twice. Qed.

Lemma main_sanitizer_idempotent_witness :
  let data : gmap string value :=
    <["amount" := VStr " 12.50 "]> (<["account_number" := VInt 42]> ∅) in
  scalars_only data = true
  /\ MainWithApi.sanitize_llm_data (fun _ => "")
       (MainWithApi.sanitize_llm_data (fun _ => "") data)
     = MainWithApi.sanitize_llm_data (fun _ => "") data.
Proof.
  cbv zeta. split; [vm_compute; reflexivity|].
  apply (main_sanitizer_idempotent (fun _ => "")). vm_compute. reflexivity.
Defined.

(** X8.  The sanitizer of routes.py answers the empty dictionary for
    anything that is not a dictionary; for a dictionary it never adds a
    key, copies every field that is not one of the four numeric fields
    unchanged (null included), and leaves no text under a numeric field:
    such a text is replaced by a float or the field is dropped. *)
Theorem routes_sanitizer_frame :
  (forall data, (forall d, data <> VDict d) -> Routes.sanitize_llm_data data = ∅)
  /\ forall (d : gmap string value) (key : string),
       (d !! key = None -> Routes.sanitize_llm_data (VDict d) !! key = None)
       /\ (Routes.is_numeric_key key = false ->
           Routes.sanitize_llm_data (VDict d) !! key = d !! key)
       /\ (Routes.is_numeric_key key = true ->
           forall s, Routes.sanitize_llm_data (VDict d) !! key <> Some (VStr s))
       /\ (forall v, (forall s, v <> VStr s) -> d !! key = Some v ->
           Routes.sanitize_llm_data (VDict d) !! key = Some v).
Proof.
  split.
  - intros data Hd. destruct data as [| | | | | |d]; try reflexivity.
    now destruct (Hd d).
  - intros d key. rewrite routes_sanitize_lookup.
    split; [now intros ->|]. split; [|split].
    + intros Hk. destruct (d !! key) as [v|]; [|reflexivity].
      cbn [mbind option_bind]. unfold routes_assigned. rewrite Hk.
      now destruct v.
    + intros Hk s. destruct (d !! key) as [v|]; [|discriminate].
      cbn [mbind option_bind]. unfold routes_assigned. rewrite Hk.
      destruct v; try discriminate.
      destruct (Routes.clean_numeric_string _); [|discriminate].
      destruct (Conv.float _); discriminate.
    + intros v Hv ->. cbn [mbind option_bind]. unfold routes_assigned.
      destruct v; try reflexivity. now destruct (Hv s).
Qed.

Lemma routes_sanitizer_frame_witness :
  let d : gmap string value :=
    <["amount" := VStr "1,250.00"]> (<["bank_name" := VStr " SBI "]> ∅) in
  Routes.sanitize_llm_data (VDict d) !! "employer" = None
  /\ Routes.sanitize_llm_data (VDict d) !! "bank_name" = Some (VStr " SBI ").
Proof.
  cbv zeta.
  destruct (proj2 routes_sanitizer_frame
              (<["amount" := VStr "1,250.00"]> (<["bank_name" := VStr " SBI "]> ∅))
              "employer") as (Habsent & _).
  destruct (proj2 routes_sanitizer_frame
              (<["amount" := VStr "1,250.00"]> (<["bank_name" := VStr " SBI "]> ∅))
              "bank_name") as (_ & Hcopy & _).
  split; [apply Habsent; vm_compute; reflexivity|].
  rewrite Hcopy; vm_compute; reflexivity.
Defined.

(** ** When the extraction of routes.py raises *)

Section Splitting.

Lemma contains_char (sep : ascii) (s : string) :
  Py.contains (String sep EmptyString) s = negb (Py.count sep s =? 0)%nat.
Proof.
  induction s as [|c t IH]; [reflexivity|].
  cbn [Py.contains Py.startswith Py.count]. rewrite IH, andb_true_r.
  rewrite (Ascii.eqb_sym sep c). now destruct (Ascii.eqb c sep).
Qed.

Lemma split_head (sep : ascii) (p rest : string) :
  Py.count sep p = 0%nat ->
  forall fuel, (Py.len p < fuel)%nat ->
    Py.split_fuel fuel (String sep EmptyString) (p ++ String sep rest)
    = p :: Py.split_fuel (fuel - Py.len p - 1) (String sep EmptyString) rest.
Proof.
  induction p as [|c p IH]; intros Hp [|fuel] Hfuel; try (cbn in Hfuel; lia).
  - change (EmptyString ++ String sep rest) with (String sep rest).
    cbn [Py.split_fuel Py.startswith].
    rewrite Ascii.eqb_refl. cbn [andb Py.len String.length Py.drop].
    do 2 f_equal. lia.
  - cbn [Py.count] in Hp. rewrite append_cons.
    cbn [Py.split_fuel Py.startswith]. rewrite (Ascii.eqb_sym sep c).
    destruct (Ascii.eqb c sep); [discriminate|]. cbn [andb].
    rewrite IH by (auto; cbn in Hfuel; unfold Py.len in *; lia).
    reflexivity.
Qed.

Lemma split_last (sep : ascii) (p : string) :
  Py.count sep p = 0%nat ->
  forall fuel, Py.split_fuel fuel (String sep EmptyString) p = [p].
Proof.
  induction p as [|c p IH]; intros Hp [|fuel]; try reflexivity.
  cbn [Py.count] in Hp. cbn [Py.split_fuel Py.startswith].
  rewrite (Ascii.eqb_sym sep c).
  destruct (Ascii.eqb c sep); [discriminate|]. cbn [andb].
  now rewrite IH.
Qed.

Lemma digits_no_separator (d : string) :
  Py.all_chars Py.is_digit d = true ->
  Py.count "/" d = 0%nat /\ Py.count "-" d = 0%nat.
Proof.
  induction d as [|c d IH]; [now split|].
  cbn [Py.all_chars Py.count]. intros [Hc Hd]%andb_prop.
  destruct (digit_not_separator c Hc) as (-> & -> & _). now apply IH.
Qed.

Lemma sip_separator_class (c : ascii) :
  Re.cls_mem false false [Re.IChar "/"; Re.IChar "-"] c = true ->
  c = "/"%char \/ c = "-"%char.
Proof.
  unfold Re.cls_mem, Re.item_mem_flag.
  cbn [existsb Re.item_mem andb]. rewrite !orb_false_r.
  destruct (Ascii.eqb_spec "/" c) as [<-|_]; [now left|].
  destruct (Ascii.eqb_spec "-" c) as [<-|_]; [now right|discriminate].
Qed.

(** The words of the date pattern of [Routes.extract_sip_data]. *)
Lemma routes_sip_date_shape (w : string) :
  lang false routes_sip_date_regex w ->
  exists d1 c2 d3 c4 d5,
    w = d1 ++ String c2 (d3 ++ String c4 d5)
    /\ Py.all_chars Py.is_digit d1 = true
    /\ Py.all_chars Py.is_digit d3 = true
    /\ Py.all_chars Py.is_digit d5 = true
    /\ (c2 = "/"%char \/ c2 = "-"%char) /\ (c4 = "/"%char \/ c4 = "-"%char).
Proof.
  unfold routes_sip_date_regex. cbn [lang].
  intros (w1 & r1 & -> & (ws1 & -> & H1 & _)
            & (w2 & r2 & -> & (c2 & -> & Hc2)
            & (w3 & r3 & -> & (ws3 & -> & H3 & _)
            & (w4 & r4 & -> & (c4 & -> & Hc4)
            & (ws5 & -> & H5 & _))))).
  apply joined_digits in H1, H3, H5.
  apply sip_separator_class in Hc2, Hc4.
  exists (joined ws1), c2, (joined ws3), c4, (joined ws5).
  rewrite !append_single. auto 10.
Qed.

(** What the unpacking of the date in [Routes.extract_sip_data] gives. *)
Lemma routes_sip_date_unpacks (w : string) :
  lang false routes_sip_date_regex w ->
  let parts :=
    if Py.contains "/" w then Routes.unpack3 (Py.split_str "/" w)
    else Routes.unpack3 (Py.split_str "-" w) in
  if mixed_separators w
  then parts = Raise (ValueError "wrong number of values to unpack")
  else exists day month year, parts = Ok (day, month, year).
Proof.
  intros (d1 & c2 & d3 & c4 & d5 & -> & H1 & H3 & H5 & Hc2 & Hc4)%routes_sip_date_shape.
  destruct (digits_no_separator d1 H1) as [S1 M1].
  destruct (digits_no_separator d3 H3) as [S3 M3].
  destruct (digits_no_separator d5 H5) as [S5 M5].
  assert (Hlen : forall (c : ascii) (x : string),
             Py.len (String c x) = S (Py.len x)) by reflexivity.
  cbv zeta. unfold mixed_separators, Py.split_str.
  rewrite !contains_char, !count_append. cbn [Py.count].
  rewrite !count_append. cbn [Py.count]. rewrite S1, S3, S5, M1, M3, M5.
  destruct Hc2 as [-> | ->], Hc4 as [-> | ->]; cbn.
  - rewrite split_head
      by (try assumption; rewrite ?len_append, ?Hlen, ?len_append, ?Hlen; lia).
    rewrite split_head
      by (try assumption; rewrite ?len_append, ?Hlen, ?len_append, ?Hlen; lia).
    rewrite split_last by assumption. cbn. eauto.
  - rewrite split_head
      by (try assumption; rewrite ?len_append, ?Hlen, ?len_append, ?Hlen; lia).
    rewrite split_last; [reflexivity|].
    rewrite count_append. cbn [Py.count]. rewrite S3, S5. reflexivity.
  - change (d1 ++ String "-" (d3 ++ String "/" d5))
      with (d1 ++ (String "-" d3 ++ String "/" d5)).
    rewrite <- append_assoc.
    rewrite split_head;
      [|rewrite count_append; cbn [Py.count]; rewrite S1, S3; reflexivity
       |rewrite ?len_append, ?Hlen, ?len_append, ?Hlen; lia].
    rewrite split_last by assumption. reflexivity.
  - rewrite split_head
      by (try assumption; rewrite ?len_append, ?Hlen, ?len_append, ?Hlen; lia).
    rewrite split_head
      by (try assumption; rewrite ?len_append, ?Hlen, ?len_append, ?Hlen; lia).
    rewrite split_last by assumption. cbn. eauto.
Qed.

End Splitting.

Section RoutesSipDate.

Lemma routes_sip_date_compiles :
  Re.compile routes_sip_date_pattern = Some (Re.Grp 1 routes_sip_date_regex).
Proof. vm_compute. reflexivity. Qed.

Lemma routes_sip_data_outcome (message : string) :
  if sip_date_mixed message
  then Routes.extract_sip_data message
       = Raise (ValueError "wrong number of values to unpack")
  else exists d, Routes.extract_sip_data message = Ok d.
Proof.
  unfold sip_date_mixed, Routes.extract_sip_data. cbv zeta.
  fold routes_sip_date_pattern.
  destruct (Re.search routes_sip_date_pattern false message) as [cs|] eqn:E.
  - assert (Hw : lang false routes_sip_date_regex (Re.text cs 1)).
    { unfold Re.search in E. rewrite routes_sip_date_compiles in E.
      now apply search_group_lang in E. }
    pose proof (routes_sip_date_unpacks _ Hw) as H. cbv zeta in H.
    destruct (mixed_separators (Re.text cs 1)).
    + now rewrite H.
    + destruct H as (day & month & year & ->). cbn [mbind result_bind]. eauto.
  - cbn [mbind result_bind]. eauto.
Qed.

Lemma routes_extract_outcome (message_type message : string) :
  if String.eqb message_type "SIP_INVESTMENT" && sip_date_mixed message
  then Routes.extract_financial_data message_type message
       = Raise (ValueError "wrong number of values to unpack")
  else exists d, Routes.extract_financial_data message_type message = Ok d.
Proof.
  destruct (String.eqb_spec message_type "SIP_INVESTMENT") as [->|Hne].
  - cbn [andb]. pose proof (routes_sip_data_outcome message) as H.
    unfold Routes.extract_financial_data.
    destruct (routes_common_fields_returns message) as (d0 & -> & _).
    cbn [mbind result_bind String.eqb Ascii.eqb Bool.eqb].
    destruct (sip_date_mixed message).
    + now rewrite H.
    + destruct H as [d ->]. cbn [mbind result_bind]. eauto.
  - cbn [andb]. now apply routes_extract_returns.
Qed.

End RoutesSipDate.

(** X9.  The rule-based extraction of routes.py raises in exactly one
    situation: the category is SIP_INVESTMENT and the first date of the
    form dd?dd?dddd in the message has a slash and a hyphen, which
    makes the three-way unpacking fail with a ValueError.  In every
    other case it returns a dictionary. *)
Theorem routes_extraction_raises_exactly_on_mixed_sip_date :
  forall message_type message,
    (message_type = "SIP_INVESTMENT" -> sip_date_mixed message = true ->
     Routes.extract_financial_data message_type message
     = Raise (ValueError "wrong number of values to unpack"))
    /\ (message_type <> "SIP_INVESTMENT" \/ sip_date_mixed message = false ->
        exists d, Routes.extract_financial_data message_type message = Ok d).
Proof.
  intros message_type message.
  pose proof (routes_extract_outcome message_type message) as H. split.
  - intros -> Hmixed. now rewrite Hmixed in H.
  - intros [Hne | Hmixed].
    + destruct (String.eqb_spec message_type "SIP_INVESTMENT"); [contradiction|].
      exact H.
    + now rewrite Hmixed, andb_false_r in H.
Qed.

Lemma routes_extraction_raises_exactly_on_mixed_sip_date_witness :
  sip_date_mixed "Your SIP of 11-04/2025 has been processed" = true
  /\ Routes.extract_financial_data "SIP_INVESTMENT"
       "Your SIP of 11-04/2025 has been processed"
     = Raise (ValueError "wrong number of values to unpack")
  /\ exists d, Routes.extract_financial_data "SIP_INVESTMENT"
                 "Your SIP of 11-04-2025 has been processed" = Ok d.
Proof.
  split; [vm_compute; reflexivity|]. split.
  - apply (proj1 (routes_extraction_raises_exactly_on_mixed_sip_date
                    "SIP_INVESTMENT" "Your SIP of 11-04/2025 has been processed"));
      [reflexivity | vm_compute; reflexivity].
  - apply (proj2 (routes_extraction_raises_exactly_on_mixed_sip_date
                    "SIP_INVESTMENT" "Your SIP of 11-04-2025 has been processed")).
    right. vm_compute. reflexivity.
Defined.

(** ** The endpoint of routes.py *)

Section RoutesEndpoint.

Variable repr : value -> string.
Variable format_money : pyfloat -> string.
Variable invoke : string -> result string.
Variable json_loads : string -> result value.
Variable coerce :
  value -> value -> gmap string value -> result Routes.MessageResponse.

Lemma routes_llm_none_on_failure (message : string) :
  routes_remote_fails invoke json_loads message ->
  Routes.analyze_with_llm invoke json_loads message = VNone.
Proof.
  intros Hfail. unfold routes_remote_fails in Hfail.
  destruct (invoke message) as [text|e] eqn:Hinvoke;
    [|now apply (routes_llm_invoke_raises invoke json_loads message e)].
  destruct (Routes.strip_fences text) as [clean|e] eqn:Hclean;
    [now apply (routes_llm_rejected invoke json_loads message text clean)|].
  unfold Routes.analyze_with_llm, Routes.analyze_with_llm_try.
  rewrite Hinvoke. cbn [mbind result_bind]. now rewrite Hclean.
Qed.

Lemma fallback_raises (store : value -> gmap string value -> string -> result value)
    (message : string) (e : exn) :
  Routes.extract_financial_data (Routes.classify_message_type message) message
  = Raise e ->
  Routes.fallback repr format_money store message = Raise e.
Proof. intros H. unfold Routes.fallback. cbv zeta. now rewrite H. Qed.

(** The storage step of the endpoint is wrapped in a handler that
    swallows every exception, and its result is not used. *)
Lemma swallowed {A : Type} (stored : result value) (k : result A) :
  (_ ← try_except stored (fun _ => Ok VNone); k) = k.
Proof. now destruct stored. Qed.

Lemma fallback_any_store
    (store1 store2 : value -> gmap string value -> string -> result value)
    (message : string) :
  Routes.fallback repr format_money store1 message
  = Routes.fallback repr format_money store2 message.
Proof.
  unfold Routes.fallback. cbv zeta.
  destruct (Routes.extract_financial_data _ _); [|reflexivity].
  cbn [mbind result_bind].
  destruct (Routes.fallback_points _ _ _ _); [|reflexivity].
  cbn [mbind result_bind]. now rewrite !swallowed.
Qed.

Lemma analyze_message_any_store
    (store1 store2 : value -> gmap string value -> string -> result value)
    (message : string) :
  Routes.analyze_message repr format_money invoke json_loads store1 coerce message
  = Routes.analyze_message repr format_money invoke json_loads store2 coerce message.
Proof.
  unfold Routes.analyze_message. cbv zeta.
  destruct (negb _); [reflexivity|].
  set (llm_result := Routes.analyze_with_llm invoke json_loads message).
  match goal with
  | |- mbind _ ?c = _ => destruct c as [[]|]
  end; cbn [mbind result_bind]; [|apply fallback_any_store|reflexivity].
  destruct (MainWithApi.getitem llm_result "message_type"); [|reflexivity].
  cbn [mbind result_bind].
  destruct (MainWithApi.getitem llm_result "extracted_data") as [extracted|];
    [|reflexivity].
  cbn [mbind result_bind].
  destruct (MainWithApi.getitem llm_result "important_points"); [|reflexivity].
  cbn [mbind result_bind].
  destruct extracted; try reflexivity.
  match goal with
  | |- mbind _ ?c = _ => destruct c
  end; cbn [mbind result_bind]; [|reflexivity].
  now rewrite !swallowed.
Qed.

(** X10.  When the remote path fails on a message that is not blank, the
    endpoint of routes.py answers with the rule-based result, except
    for a message filed under SIP_INVESTMENT whose first date has a
    slash and a hyphen: there the ValueError of the extraction leaves
    the endpoint. *)
Theorem routes_endpoint_outcome_on_remote_failure :
  forall (store : value -> gmap string value -> string -> result value)
         (message : string),
    Py.truthy (Py.strip message) = true ->
    routes_remote_fails invoke json_loads message ->
    let answer :=
      Routes.analyze_message repr format_money invoke json_loads store coerce
        message in
    if sip_mixed_message message
    then answer = Raise (ValueError "wrong number of values to unpack")
    else exists d points,
           Routes.extract_financial_data
             (Routes.classify_message_type message) message = Ok d
           /\ answer
              = Ok {| Routes.message_type := Routes.classify_message_type message;
                      Routes.important_points := points;
                      Routes.data := d |}.
Proof.
  intros store message Hmsg Hfail. cbv zeta.
  rewrite (analyze_message_falls_back repr format_money invoke json_loads
             store coerce message Hmsg (routes_llm_none_on_failure message Hfail)).
  pose proof (routes_extract_outcome (Routes.classify_message_type message) message)
    as H.
  unfold sip_mixed_message.
  destruct (String.eqb _ _ && sip_date_mixed message).
  - now apply fallback_raises.
  - destruct H as [d Hd]. exists d.
    destruct (fallback_returns repr format_money store message d Hd)
      as (points & _ & Hf).
    now exists points.
Qed.

(** X11.  The answer of the endpoint of routes.py does not depend on the
    storage step: whether the database call returns or raises, and
    whatever it returns, the endpoint gives the same result. *)
Theorem routes_endpoint_ignores_storage :
  forall (store1 store2 : value -> gmap string value -> string -> result value)
         (message : string),
    Routes.analyze_message repr format_money invoke json_loads store1 coerce message
    = Routes.analyze_message repr format_money invoke json_loads store2 coerce message.
Proof. apply analyze_message_any_store. Qed.

End RoutesEndpoint.

Lemma routes_endpoint_outcome_on_remote_failure_witness :
  let message := "Your SIP of 11/04-2025 has been processed" in
  let invoke := fun _ : string => Ok "Sorry, I cannot help with that." in
  let json_loads := fun _ : string => @Raise value JSONDecodeError in
  sip_mixed_message message = true
  /\ Routes.analyze_message (fun _ => "") (fun _ => "") invoke json_loads
       (fun _ _ _ => Ok VNone) (fun _ _ _ => Raise TypeError) message
     = Raise (ValueError "wrong number of values to unpack").
Proof.
  cbv zeta. split; [vm_compute; reflexivity|].
  pose proof (routes_endpoint_outcome_on_remote_failure (fun _ => "") (fun _ => "")
                (fun _ : string => Ok "Sorry, I cannot help with that.")
                (fun _ : string => @Raise value JSONDecodeError)
                (fun _ _ _ => Raise TypeError) (fun _ _ _ => Ok VNone)
                "Your SIP of 11/04-2025 has been processed" eq_refl) as H.
  cbv zeta in H.
  assert (Hmixed : sip_mixed_message "Your SIP of 11/04-2025 has been processed"
                   = true) by (vm_compute; reflexivity).
  rewrite Hmixed in H. apply H.
  vm_compute. left. eexists. reflexivity.
Defined.

(** ** The schema of the extracted fields *)

Section ExtractionSchema.

Variable message_type : string.

Lemma fits_empty : fits message_type ∅.
Proof. intros key v H. now rewrite lookup_empty in H. Qed.

Lemma fits_insert (key : string) (v : value) (d : gmap string value) :
  field_ok message_type key v = true ->
  fits message_type d -> fits message_type (<[key := v]> d).
Proof.
  intros Hv Hd k w. destruct (decide (key = k)) as [->|Hne].
  - rewrite lookup_insert_eq. now intros [= <-].
  - rewrite lookup_insert_ne by assumption. apply Hd.
Qed.

Lemma fits_main_store_number (key captured : string) (d : gmap string value) :
  (forall f, field_ok message_type key (VFloat f) = true) ->
  fits message_type d ->
  fits message_type (MainWithApi.store_number key captured d).
Proof.
  intros Hkey Hd. unfold MainWithApi.store_number.
  destruct (MainWithApi.clean_numeric_string captured) as [cleaned|]; [|exact Hd].
  destruct (Py.truthy cleaned); [|exact Hd].
  destruct (Conv.float cleaned); [|exact Hd].
  now apply fits_insert.
Qed.

Lemma fits_routes_store_number (key captured : string) (d : gmap string value) :
  (forall f, field_ok message_type key (VFloat f) = true) ->
  fits message_type d ->
  fits message_type (Routes.store_number key captured d).
Proof.
  intros Hkey Hd. unfold Routes.store_number.
  destruct (Routes.clean_numeric_string captured) as [cleaned|]; [|exact Hd].
  destruct (Py.truthy cleaned); [|exact Hd].
  destruct (Conv.float cleaned); [|exact Hd].
  now apply fits_insert.
Qed.

Lemma fits_store_date (date_str : string) (d : gmap string value) :
  fits message_type d -> fits message_type (MainWithApi.store_date date_str d).
Proof.
  intros Hd. unfold MainWithApi.store_date.
  destruct (MainWithApi.parse_date date_str) as [parsed|]; [|exact Hd].
  destruct (Py.truthy parsed); [|exact Hd].
  now apply fits_insert.
Qed.

Lemma fits_sip_dates (patterns : list string) (message : string)
    (d : gmap string value) :
  fits message_type d ->
  fits message_type (MainWithApi.sip_dates patterns message d).
Proof.
  intros Hd. induction patterns as [|pattern rest IH]; [exact Hd|].
  cbn [MainWithApi.sip_dates].
  destruct (Re.search pattern false message) as [cs|]; [|exact IH].
  destruct (MainWithApi.parse_date _) as [parsed|]; [|exact IH].
  destruct (Py.truthy parsed); [|exact IH].
  now apply fits_insert.
Qed.

Lemma fits_bank_name (banks : list string) (message : string)
    (d : gmap string value) :
  fits message_type d -> fits message_type (Routes.bank_name banks message d).
Proof.
  intros Hd. induction banks as [|bank rest IH]; [exact Hd|].
  cbn [Routes.bank_name].
  destruct (Py.contains _ _); [|exact IH].
  now apply fits_insert.
Qed.

Lemma fits_update (d other : gmap string value) :
  fits message_type d -> fits message_type other ->
  fits message_type (update d other).
Proof.
  intros Hd Ho key v. unfold update. rewrite lookup_union.
  destruct (other !! key) as [w|] eqn:E.
  - destruct (d !! key); cbn; intros [= <-]; now apply Ho.
  - destruct (d !! key) eqn:E'; cbn; [|discriminate].
    intros [= <-]. now apply Hd.
Qed.

End ExtractionSchema.

Lemma fits_insurance_company (companies : list string) (message : string)
    (d : gmap string value) :
  fits "INSURANCE_PAYMENT" d ->
  fits "INSURANCE_PAYMENT" (MainWithApi.insurance_company companies message d).
Proof.
  intros Hd. induction companies as [|company rest IH]; [exact Hd|].
  cbn [MainWithApi.insurance_company].
  destruct (Py.contains _ _); [|exact IH].
  now apply fits_insert.
Qed.

Lemma fits_let (message_type : string) (v : gmap string value)
    (body : gmap string value -> gmap string value) :
  fits message_type v ->
  (forall data, fits message_type data -> fits message_type (body data)) ->
  fits message_type (let data := v in body data).
Proof. intros Hv Hbody. now apply Hbody. Qed.

(** The steps of an extraction: each binding of [data] is read with an
    arbitrary dictionary that fits in place of the bound value. *)
Ltac fits_steps :=
  repeat first
    [ assumption
    | lazymatch goal with
      | |- fits ?t (let x := ?v in @?body x) =>
          lazymatch type of v with
          | gmap string value =>
              apply (fits_let t v body);
              [|let d := fresh "data" in
                let H := fresh "Hdata" in
                intros d H; cbv beta]
          | _ => change (fits t (body v)); cbv beta
          end
      | |- fits _ (match ?x with _ => _ end) => destruct x
      | |- fits _ ∅ => apply fits_empty
      | |- fits _ (MainWithApi.store_number _ _ _) =>
          apply fits_main_store_number; [intros; reflexivity|]
      | |- fits _ (Routes.store_number _ _ _) =>
          apply fits_routes_store_number; [intros; reflexivity|]
      | |- fits _ (MainWithApi.store_date _ _) => apply fits_store_date
      | |- fits _ (MainWithApi.sip_dates _ _ _) => apply fits_sip_dates
      | |- fits _ (Routes.bank_name _ _ _) => apply fits_bank_name
      | |- fits _ (MainWithApi.insurance_company _ _ _) =>
          apply fits_insurance_company
      | |- fits _ (<[_ := _]> _) => apply fits_insert; [reflexivity|]
      end ].

Lemma main_sip_data_fits (message : string) :
  fits "SIP_INVESTMENT" (MainWithApi.extract_sip_data message).
Proof.
  cbv beta delta [MainWithApi.extract_sip_data]. fits_steps.
Qed.

Lemma main_extract_fits (message_type message : string) :
  fits message_type (MainWithApi.extract_financial_data message_type message).
Proof.
  cbv beta delta [MainWithApi.extract_financial_data].
  do 10 lazymatch goal with
    | |- fits ?t (let x := ?v in @?body x) =>
        lazymatch type of v with
        | gmap string value =>
            apply (fits_let t v body);
            [fits_steps|let d := fresh "data" in
                        let H := fresh "Hdata" in
                        intros d H; cbv beta]
        | _ => change (fits t (body v)); cbv beta
        end
    end.
  destruct (String.eqb_spec message_type "SALARY_CREDIT") as [->|_];
    [fits_steps|].
  destruct (String.eqb_spec message_type "EMI_PAYMENT") as [->|_];
    [fits_steps|].
  destruct (String.eqb_spec message_type "CREDIT_CARD_TRANSACTION") as [->|_];
    [fits_steps|].
  destruct (String.eqb_spec message_type "SIP_INVESTMENT") as [->|_].
  { cbv zeta. apply fits_update; [fits_steps | apply main_sip_data_fits]. }
  destruct (String.eqb_spec message_type "INSURANCE_PAYMENT") as [->|_];
    fits_steps.
Qed.

Lemma routes_common_fields_fits (message_type message : string)
    (d : gmap string value) :
  Routes.common_fields message = Ok d -> fits message_type d.
Proof.
  unfold Routes.common_fields. cbv zeta.
  destruct (Re.search "(\d{2}[-/]\d{2}[-/]\d{2,4})" false message) as [cs|].
  - destruct (Routes.unpack3 _) as [[[day month] year]|];
      cbn [mbind result_bind]; [|discriminate].
    intros [= <-]. fits_steps.
  - cbn [mbind result_bind]. intros [= <-]. fits_steps.
Qed.

Lemma routes_sip_data_fits (message : string) (d : gmap string value) :
  Routes.extract_sip_data message = Ok d -> fits "SIP_INVESTMENT" d.
Proof.
  unfold Routes.extract_sip_data. cbv zeta.
  destruct (Re.search "(\d{2}[/-]\d{2}[/-]\d{4})" false message) as [cs|].
  - destruct (if Py.contains "/" (Re.text cs 1)
              then Routes.unpack3 (Py.split_str "/" (Re.text cs 1))
              else Routes.unpack3 (Py.split_str "-" (Re.text cs 1)))
      as [[[day month] year]|]; cbn [mbind result_bind]; [|discriminate].
    intros [= <-]. fits_steps.
  - cbn [mbind result_bind]. intros [= <-]. fits_steps.
Qed.

Lemma routes_extract_fits (message_type message : string)
    (d : gmap string value) :
  Routes.extract_financial_data message_type message = Ok d ->
  fits message_type d.
Proof.
  unfold Routes.extract_financial_data.
  destruct (Routes.common_fields message) as [d0|] eqn:E0; [|discriminate].
  pose proof (routes_common_fields_fits message_type message d0 E0) as Hd0.
  cbn [mbind result_bind]. cbv zeta. clear E0. revert Hd0.
  destruct (String.eqb_spec message_type "SALARY_CREDIT") as [->|_];
    [intros Hd0 [= <-]; fits_steps|].
  destruct (String.eqb_spec message_type "EMI_PAYMENT") as [->|_];
    [intros Hd0 [= <-]; fits_steps|].
  destruct (String.eqb_spec message_type "CREDIT_CARD_TRANSACTION") as [->|_];
    [intros Hd0 [= <-]; fits_steps|].
  destruct (String.eqb_spec message_type "SIP_INVESTMENT") as [->|_];
    [|intros Hd0 [= <-]; exact Hd0].
  intros Hd0.
  destruct (Routes.extract_sip_data message) as [sip|] eqn:E;
    cbn [mbind result_bind]; [|discriminate].
  intros [= <-]. apply fits_update; [exact Hd0|].
  now apply (routes_sip_data_fits message).
Qed.

(** X12.  The rule-based extraction respects a schema: whatever the
    message, every field of the result is one of the five common
    fields or a field of the category asked for, the fields amount,
    available_balance, total_outstanding and nav_value hold floats and
    every other field holds text.  This holds for main_with_api.py and,
    whenever the extraction returns, for routes.py. *)
Theorem extraction_respects_schema :
  forall message_type message,
    fits message_type (MainWithApi.extract_financial_data message_type message)
    /\ forall d, Routes.extract_financial_data message_type message = Ok d ->
         fits message_type d.
Proof.
  intros message_type message.
  split; [apply main_extract_fits | apply routes_extract_fits].
Qed.

Lemma extraction_respects_schema_witness :
  let message := "Rs.500 debited from A/c XX1234 on 05/11/2024" in
  let d : gmap string value :=
    <["amount" := VFloat (Finite 500)]>
      (<["account_number" := VStr "XX1234"]>
         (<["transaction_date" := VStr "2024-11-05"]> ∅)) in
  Routes.extract_financial_data "DEBIT_TRANSACTION" message = Ok d
  /\ field_ok "DEBIT_TRANSACTION" "amount" (VFloat (Finite 500)) = true.
Proof.
  cbv zeta.
  assert (H : Routes.extract_financial_data "DEBIT_TRANSACTION"
                "Rs.500 debited from A/c XX1234 on 05/11/2024"
              = Ok (<["amount" := VFloat (Finite 500)]>
                      (<["account_number" := VStr "XX1234"]>
                         (<["transaction_date" := VStr "2024-11-05"]> ∅))))
    by (vm_compute; reflexivity).
  split; [exact H|].
  apply (proj2 (extraction_respects_schema "DEBIT_TRANSACTION"
                  "Rs.500 debited from A/c XX1234 on 05/11/2024") _ H "amount").
  vm_compute. reflexivity.
Defined.

(** ** The JSON block of a reply *)

Section Finding.

Variable c : ascii.

Lemma find_cons (x : ascii) (s : string) :
  Py.find c (String x s) =
  if Ascii.eqb x c then 0%Z
  else if (Py.find c s <? 0)%Z then (-1)%Z else (Py.find c s + 1)%Z.
Proof.
  cbn [Py.find]. destruct (Ascii.eqb x c); [reflexivity|].
  now destruct (Py.find c s).
Qed.

Lemma rfind_cons (x : ascii) (s : string) :
  Py.rfind c (String x s) =
  if (Py.rfind c s <? 0)%Z then (if Ascii.eqb x c then 0%Z else (-1)%Z)
  else (Py.rfind c s + 1)%Z.
Proof. cbn [Py.rfind]. now destruct (Py.rfind c s). Qed.

Lemma find_range (s : string) :
  (Py.find c s = -1 \/ 0 <= Py.find c s < Z.of_nat (Py.len s))%Z.
Proof.
  unfold Py.len. induction s as [|x s IH]; [now left|].
  rewrite find_cons. cbn [String.length].
  destruct (Ascii.eqb x c); [right; lia|].
  destruct (Z.ltb_spec (Py.find c s) 0); [now left | right; lia].
Qed.

Lemma rfind_range (s : string) :
  (Py.rfind c s = -1 \/ 0 <= Py.rfind c s < Z.of_nat (Py.len s))%Z.
Proof.
  unfold Py.len. induction s as [|x s IH]; [now left|].
  rewrite rfind_cons. cbn [String.length].
  destruct (Z.ltb_spec (Py.rfind c s) 0); [|right; lia].
  destruct (Ascii.eqb x c); [right; lia | now left].
Qed.

Lemma find_absent (s : string) :
  Py.count c s = 0%nat -> Py.find c s = (-1)%Z.
Proof.
  induction s as [|x s IH]; [reflexivity|]. rewrite find_cons.
  cbn [Py.count]. destruct (Ascii.eqb x c); [discriminate|].
  intros H. now rewrite IH.
Qed.

Lemma rfind_absent (s : string) :
  Py.count c s = 0%nat -> Py.rfind c s = (-1)%Z.
Proof.
  induction s as [|x s IH]; [reflexivity|]. rewrite rfind_cons.
  cbn [Py.count]. destruct (Ascii.eqb x c); [discriminate|].
  intros H. now rewrite IH.
Qed.

(** Text before which [c] does not occur shifts the index. *)
Lemma find_after (a b : string) :
  Py.count c a = 0%nat ->
  Py.find c (a ++ b) =
  if (Py.find c b <? 0)%Z then (-1)%Z
  else (Z.of_nat (Py.len a) + Py.find c b)%Z.
Proof.
  unfold Py.len. induction a as [|x a IH]; intros Ha.
  - change (EmptyString ++ b) with b. cbn [String.length].
    destruct (find_range b) as [-> | H]; [reflexivity|].
    destruct (Z.ltb_spec (Py.find c b) 0); lia.
  - cbn [Py.count] in Ha. rewrite append_cons, find_cons.
    destruct (Ascii.eqb x c); [discriminate|]. rewrite IH by exact Ha.
    cbn [String.length].
    destruct (Z.ltb_spec (Py.find c b) 0); [reflexivity|].
    destruct (Z.ltb_spec (Z.of_nat (String.length a) + Py.find c b) 0); lia.
Qed.

Lemma rfind_after (a b : string) :
  Py.count c a = 0%nat ->
  Py.rfind c (a ++ b) =
  if (Py.rfind c b <? 0)%Z then (-1)%Z
  else (Z.of_nat (Py.len a) + Py.rfind c b)%Z.
Proof.
  unfold Py.len. induction a as [|x a IH]; intros Ha.
  - change (EmptyString ++ b) with b. cbn [String.length].
    destruct (rfind_range b) as [-> | H]; [reflexivity|].
    destruct (Z.ltb_spec (Py.rfind c b) 0); lia.
  - cbn [Py.count] in Ha. rewrite append_cons, rfind_cons.
    destruct (Ascii.eqb x c); [discriminate|]. rewrite IH by exact Ha.
    cbn [String.length].
    destruct (Z.ltb_spec (Py.rfind c b) 0); [reflexivity|].
    destruct (Z.ltb_spec (Z.of_nat (String.length a) + Py.rfind c b) 0); lia.
Qed.

(** Text after which [c] does not occur changes nothing. *)
Lemma find_before (a b : string) :
  Py.count c b = 0%nat -> Py.find c (a ++ b) = Py.find c a.
Proof.
  intros Hb. induction a as [|x a IH].
  - change (EmptyString ++ b) with b. now rewrite find_absent.
  - now rewrite append_cons, !find_cons, IH.
Qed.

Lemma rfind_before (a b : string) :
  Py.count c b = 0%nat -> Py.rfind c (a ++ b) = Py.rfind c a.
Proof.
  intros Hb. induction a as [|x a IH].
  - change (EmptyString ++ b) with b. now rewrite rfind_absent.
  - now rewrite append_cons, !rfind_cons, IH.
Qed.

Lemma find_here (s : string) : Py.find c (String c s) = 0%Z.
Proof. rewrite find_cons. now rewrite Ascii.eqb_refl. Qed.

Lemma rfind_last (a : string) :
  Py.rfind c (a ++ String c EmptyString) = Z.of_nat (Py.len a).
Proof.
  unfold Py.len. induction a as [|x a IH].
  - change (EmptyString ++ String c EmptyString) with (String c EmptyString).
    rewrite rfind_cons. cbn [Py.rfind Z.ltb Z.compare String.length].
    now rewrite Ascii.eqb_refl.
  - rewrite append_cons, rfind_cons, IH. cbn [String.length].
    destruct (Z.ltb_spec (Z.of_nat (String.length a)) 0); lia.
Qed.

(** The first occurrence splits the text. *)
Lemma find_splits (s : string) :
  (0 <= Py.find c s)%Z ->
  exists a b, s = a ++ String c b /\ Py.count c a = 0%nat
              /\ Py.find c s = Z.of_nat (Py.len a).
Proof.
  unfold Py.len. induction s as [|x s IH]; [cbn; lia|].
  rewrite find_cons. destruct (Ascii.eqb_spec x c) as [->|Hne].
  - intros _. now exists EmptyString, s.
  - destruct (Z.ltb_spec (Py.find c s) 0); [lia|]. intros _.
    destruct IH as (a & b & -> & Ha & ->); [lia|].
    exists (String x a), b. rewrite append_cons. cbn [Py.count String.length].
    apply Ascii.eqb_neq in Hne. rewrite Hne. repeat split; [exact Ha|lia].
Qed.

(** The last occurrence splits the text. *)
Lemma rfind_splits (s : string) :
  (0 <= Py.rfind c s)%Z ->
  exists a b, s = a ++ String c b /\ Py.count c b = 0%nat
              /\ Py.rfind c s = Z.of_nat (Py.len a).
Proof.
  unfold Py.len. induction s as [|x s IH]; [cbn; lia|].
  rewrite rfind_cons. destruct (Z.ltb_spec (Py.rfind c s) 0) as [Hneg|Hpos].
  - destruct (Ascii.eqb_spec x c) as [->|Hne]; [|lia]. intros _.
    exists EmptyString, s. repeat split.
    clear IH. induction s as [|y s IHs]; [reflexivity|].
    rewrite rfind_cons in Hneg. cbn [Py.count].
    destruct (Z.ltb_spec (Py.rfind c s) 0); [|lia].
    destruct (Ascii.eqb y c); [lia|]. now apply IHs.
  - intros _. destruct IH as (a & b & -> & Hb & ->); [lia|].
    exists (String x a), b. rewrite append_cons. cbn [String.length].
    repeat split; [exact Hb|lia].
Qed.

End Finding.

Section Slicing.

Lemma drop_append (a b : string) : Py.drop (Py.len a) (a ++ b) = b.
Proof.
  unfold Py.len. induction a as [|x a IH]; [now destruct b|].
  rewrite append_cons. cbn [String.length Py.drop]. exact IH.
Qed.

Lemma append_empty (a : string) : a ++ EmptyString = a.
Proof. induction a as [|x a IH]; [reflexivity|]. now rewrite append_cons, IH. Qed.

Lemma slice_middle (a w b : string) :
  Py.slice (a ++ w ++ b) (Z.of_nat (Py.len a))
    (Z.of_nat (Py.len a + Py.len w)) = w.
Proof.
  unfold Py.slice, Py.bound.
  destruct (Z.ltb_spec (Z.of_nat (Py.len a)) 0); [lia|].
  destruct (Z.ltb_spec (Z.of_nat (Py.len a + Py.len w)) 0); [lia|].
  rewrite !Nat2Z.id, !len_append.
  replace (Nat.min (Py.len a) (Py.len a + (Py.len w + Py.len b))) with (Py.len a)
    by lia.
  replace (Nat.min (Py.len a + Py.len w) (Py.len a + (Py.len w + Py.len b))
           - Py.len a)%nat with (Py.len w) by lia.
  now rewrite drop_append, take_append.
Qed.

(** Two ways of cutting the same text, the first cut further left. *)
Lemma cuts_nest (x y : ascii) (a b a' b' : string) :
  a ++ String x b = a' ++ String y b' -> (Py.len a < Py.len a')%nat ->
  exists m, b = m ++ String y b' /\ a' = a ++ String x m.
Proof.
  unfold Py.len. revert a'.
  induction a as [|z a IH]; intros [|z' a']; cbn [String.length]; try lia.
  - change (EmptyString ++ String x b) with (String x b).
    rewrite append_cons. intros [= <- ->] _. now exists a'.
  - rewrite !append_cons. intros [= <- H] Hlen.
    destruct (IH a' H) as (m & -> & ->); [lia|]. now exists m.
Qed.

Lemma lstrip_splits (s : string) :
  exists w, s = w ++ Py.lstrip s /\ Py.all_chars Py.is_space w = true.
Proof.
  induction s as [|x s (w & IH & Hw)]; [now exists EmptyString|].
  cbn [Py.lstrip]. destruct (Py.is_space x) eqn:Hx.
  - exists (String x w). rewrite append_cons, <- IH.
    cbn [Py.all_chars]. now rewrite Hx, Hw.
  - now exists EmptyString.
Qed.

Lemma rstrip_splits (s : string) :
  exists w, s = Py.rstrip s ++ w /\ Py.all_chars Py.is_space w = true.
Proof.
  induction s as [|x s (w & IH & Hw)]; [now exists EmptyString|].
  rewrite rstrip_cons. destruct (Py.rstrip s) as [|y t] eqn:E.
  - change (EmptyString ++ w) with w in IH. subst s.
    destruct (Py.is_space x) eqn:Hx.
    + exists (String x w). cbn [Py.all_chars]. now rewrite Hx, Hw.
    + now exists w.
  - exists w. now rewrite append_cons, <- IH.
Qed.

Lemma spaces_no_brace (c : ascii) (w : string) :
  Py.is_space c = false -> Py.all_chars Py.is_space w = true ->
  Py.count c w = 0%nat.
Proof.
  intros Hc. induction w as [|x w IH]; [reflexivity|].
  cbn [Py.all_chars Py.count]. intros [Hx Hw]%andb_prop.
  destruct (Ascii.eqb_spec x c) as [->|_]; [congruence|]. now apply IH.
Qed.

Lemma strip_splits (s : string) :
  exists w1 w2, s = w1 ++ Py.strip s ++ w2
                /\ Py.all_chars Py.is_space w1 = true
                /\ Py.all_chars Py.is_space w2 = true.
Proof.
  destruct (lstrip_splits s) as (w1 & H1 & Hw1).
  destruct (rstrip_splits (Py.lstrip s)) as (w2 & H2 & Hw2).
  exists w1, w2. unfold Py.strip. now rewrite <- H2.
Qed.

End Slicing.

Section JsonBlock.

Lemma extract_json_block_cases (text : string) :
  MainWithApi.extract_json_block text =
  if has_json_block text
  then Py.slice text (Py.find "{" text) (Py.rfind "}" text + 1)
  else Py.strip text.
Proof. reflexivity. Qed.

(** The test is not affected by the white space around the text. *)
Lemma has_json_block_strip (text : string) :
  has_json_block (Py.strip text) = has_json_block text.
Proof.
  destruct (strip_splits text) as (w1 & w2 & H & Hw1 & Hw2).
  remember (Py.strip text) as u eqn:Hu. rewrite H. clear Hu H.
  unfold has_json_block. cbv zeta.
  rewrite (find_after "{" w1 (u ++ w2))
    by now apply spaces_no_brace.
  rewrite (rfind_after "}" w1 (u ++ w2))
    by now apply spaces_no_brace.
  rewrite (find_before "{" u w2) by now apply spaces_no_brace.
  rewrite (rfind_before "}" u w2) by now apply spaces_no_brace.
  destruct (find_range "{" u) as [Hf | Hf], (rfind_range "}" u) as [Hr | Hr];
    repeat match goal with
           | |- context [(?a <? ?b)%Z] => destruct (Z.ltb_spec a b)
           | |- context [(?a =? ?b)%Z] => destruct (Z.eqb_spec a b)
           end;
    cbn [negb andb]; try reflexivity; lia.
Qed.

(** From the first opening brace to the last closing brace. *)
Lemma extract_json_block_between (a m b : string) :
  Py.count "{" a = 0%nat -> Py.count "}" b = 0%nat ->
  has_json_block (a ++ String "{" (m ++ String "}" b)) = true
  /\ MainWithApi.extract_json_block (a ++ String "{" (m ++ String "}" b))
     = String "{" (m ++ "}").
Proof.
  intros Ha Hb.
  assert (Hfind : Py.find "{" (a ++ String "{" (m ++ String "}" b))
                  = Z.of_nat (Py.len a)).
  { rewrite find_after by exact Ha. rewrite find_here.
    cbn [Z.ltb Z.compare]. lia. }
  assert (Hrfind : Py.rfind "}" (a ++ String "{" (m ++ String "}" b))
                   = Z.of_nat (Py.len a + S (Py.len m))).
  { replace (a ++ String "{" (m ++ String "}" b))
      with ((a ++ String "{" m ++ "}") ++ b)
      by (now rewrite ?append_assoc, ?append_cons, ?append_assoc).
    rewrite rfind_before by exact Hb.
    rewrite <- append_assoc, rfind_last, len_append. reflexivity. }
  assert (Hblock : has_json_block (a ++ String "{" (m ++ String "}" b)) = true).
  { unfold has_json_block. cbv zeta. rewrite Hfind, Hrfind.
    destruct (Z.eqb_spec (Z.of_nat (Py.len a)) (-1)); [lia|].
    destruct (Z.eqb_spec (Z.of_nat (Py.len a + S (Py.len m))) (-1)); [lia|].
    destruct (Z.ltb_spec (Z.of_nat (Py.len a))
                (Z.of_nat (Py.len a + S (Py.len m)))); [reflexivity|lia]. }
  split; [exact Hblock|].
  rewrite extract_json_block_cases, Hblock, Hfind, Hrfind.
  replace (a ++ String "{" (m ++ String "}" b))
    with (a ++ String "{" (m ++ "}") ++ b)
    by (now rewrite ?append_cons, ?append_assoc).
  replace (Z.of_nat (Py.len a + S (Py.len m)) + 1)%Z
    with (Z.of_nat (Py.len a + Py.len (String "{" (m ++ "}")))).
  - apply slice_middle.
  - change (Py.len (String "{" (m ++ "}"))) with (S (Py.len (m ++ "}"))).
    rewrite len_append. cbn [Py.len String.length]. lia.
Qed.

(** When the test passes, the text has such a pair of braces. *)
Lemma has_json_block_splits (text : string) :
  has_json_block text = true ->
  exists a m b, text = a ++ String "{" (m ++ String "}" b)
                /\ Py.count "{" a = 0%nat /\ Py.count "}" b = 0%nat.
Proof.
  unfold has_json_block. cbv zeta.
  intros [[Hs He]%andb_prop Hlt]%andb_prop.
  apply Z.ltb_lt in Hlt.
  destruct (find_range "{" text) as [E|Hf]; [now rewrite E in Hs|].
  destruct (rfind_range "}" text) as [E|Hr]; [now rewrite E in He|].
  destruct (find_splits "{" text) as (a & b0 & H1 & Ha & Hfa); [lia|].
  destruct (rfind_splits "}" text) as (a' & b & H2 & Hb & Hra); [lia|].
  destruct (cuts_nest "{" "}" a b0 a' b) as (m & -> & _);
    [congruence | lia |].
  now exists a, m, b.
Qed.

Lemma extract_json_block_again (text : string) :
  MainWithApi.extract_json_block (MainWithApi.extract_json_block text)
  = MainWithApi.extract_json_block text.
Proof.
  destruct (has_json_block text) eqn:Hblock.
  - destruct (has_json_block_splits text Hblock) as (a & m & b & -> & Ha & Hb).
    rewrite (proj2 (extract_json_block_between a m b Ha Hb)).
    pose proof (extract_json_block_between EmptyString m EmptyString
                  eq_refl eq_refl) as [_ H].
    exact H.
  - rewrite (extract_json_block_cases text), Hblock.
    rewrite extract_json_block_cases, has_json_block_strip, Hblock.
    apply strip_idempotent.
Qed.

Lemma extract_json_block_length (text : string) :
  (Py.len (MainWithApi.extract_json_block text) <= Py.len text)%nat.
Proof.
  destruct (has_json_block text) eqn:Hblock.
  - destruct (has_json_block_splits text Hblock) as (a & m & b & -> & Ha & Hb).
    rewrite (proj2 (extract_json_block_between a m b Ha Hb)).
    assert (Hlen : forall (c : ascii) (x : string),
               Py.len (String c x) = S (Py.len x)) by reflexivity.
    rewrite !len_append, !Hlen, !len_append, !Hlen. cbn [Py.len String.length]. lia.
  - rewrite extract_json_block_cases, Hblock.
    destruct (strip_splits text) as (w1 & w2 & H & _).
    rewrite H at 2. rewrite !len_append. lia.
Qed.

End JsonBlock.

(** X13.  [extract_json_block] cuts the reply from its first opening
    brace to its last closing brace: whatever stands before, between
    and after them, the block is the braces and what they enclose. *)
Theorem extract_json_block_first_to_last_brace :
  forall before inside after,
    Py.count "{" before = 0%nat -> Py.count "}" after = 0%nat ->
    MainWithApi.extract_json_block
      (before ++ "{" ++ inside ++ "}" ++ after)
    = "{" ++ inside ++ "}".
Proof.
  intros before inside after Hb Ha.
  exact (proj2 (extract_json_block_between before inside after Hb Ha)).
Qed.

Lemma extract_json_block_first_to_last_brace_witness :
  MainWithApi.extract_json_block
    ("Here is the result: " ++ "{" ++ "a: {b: 1}, c: 2" ++ "}" ++ " Thanks.")
  = "{" ++ "a: {b: 1}, c: 2" ++ "}".
Proof.
  apply (extract_json_block_first_to_last_brace
           "Here is the result: " "a: {b: 1}, c: 2" " Thanks.");
    reflexivity.
Defined.

(** X14.  [extract_json_block] is idempotent and never lengthens the
    text: the block of a block is the block itself, and the same holds
    where no pair of braces is found and the trimmed text is
    returned. *)
Theorem extract_json_block_idempotent :
  forall text,
    MainWithApi.extract_json_block (MainWithApi.extract_json_block text)
    = MainWithApi.extract_json_block text
    /\ (Py.len (MainWithApi.extract_json_block text) <= Py.len text)%nat.
Proof.
  intros text.
  split; [apply extract_json_block_again | apply extract_json_block_length].
Qed.

(** ** The results of [parse_date] *)

Section DateResults.

Lemma zfill_length (w : nat) (s : string) : (w <= Py.len (Py.zfill w s))%nat.
Proof.
  unfold Py.zfill. rewrite len_append.
  assert (H : forall n, Py.len (Py.zeros n) = n).
  { induction n as [|n IH]; [reflexivity|]. cbn [Py.zeros].
    change (Py.len (String "0" (Py.zeros n))) with (S (Py.len (Py.zeros n))).
    now rewrite IH. }
  rewrite H. lia.
Qed.

Lemma month_map_length (name : string) :
  Py.len (default "01" (MainWithApi.month_map !! name)) = 2%nat.
Proof.
  destruct (MainWithApi.month_map !! name) as [v|] eqn:E; [|reflexivity].
  apply elem_of_list_to_map_2 in E.
  repeat (apply elem_of_cons in E as [[= _ ->]|E]; [reflexivity|]).
  now apply elem_of_nil in E.
Qed.

Lemma strptime_dashed (date_string fmt iso : string) :
  Date.strptime_iso date_string fmt = Ok iso -> dashed_date iso.
Proof.
  unfold Date.strptime_iso. intros H.
  repeat match type of H with
         | match ?x with _ => _ end = _ => destruct x
         | (if ?b then _ else _) = _ => destruct b
         | (let '(_, _) := ?x in _) = _ => destruct x
         end;
    try discriminate.
  injection H as <-. unfold Date.isoformat.
  eexists _, _, _. split; [reflexivity|].
  split; apply zfill_length.
Qed.

Lemma strptime_fallback_dashed (date_str : string) (formats : list string)
    (out : string) :
  MainWithApi.strptime_fallback date_str formats = Ok (Some out) ->
  dashed_date out.
Proof.
  induction formats as [|fmt rest IH]; cbn [MainWithApi.strptime_fallback];
    [discriminate|].
  destruct (Date.strptime_iso date_str fmt) as [iso|e] eqn:E.
  - intros [= <-]. now apply (strptime_dashed date_str fmt).
  - destruct e; try discriminate. exact IH.
Qed.

Lemma strptime_fallback_none (date_str : string) (formats : list string) :
  MainWithApi.strptime_fallback date_str formats = Ok None ->
  forallb (fun fmt => raised (Date.strptime_iso date_str fmt)) formats = true.
Proof.
  induction formats as [|fmt rest IH]; cbn [MainWithApi.strptime_fallback forallb];
    [reflexivity|].
  destruct (Date.strptime_iso date_str fmt) as [iso|e]; [discriminate|].
  destruct e; try discriminate. intros H. now rewrite IH.
Qed.

Lemma parse_date_dashed (date_str out : string) :
  MainWithApi.parse_date date_str = Some out -> dashed_date out.
Proof.
  unfold MainWithApi.parse_date, MainWithApi.parse_date_try.
  destruct (Re.search MainWithApi.pattern1 false date_str) as [m1|].
  { cbv zeta. intros [= <-]. eexists _, _, _. split; [reflexivity|].
    split; [rewrite month_map_length; lia | apply zfill_length]. }
  destruct (Re.search MainWithApi.pattern2 false date_str) as [m2|].
  { cbv zeta. intros [= <-]. eexists _, _, _. split; [reflexivity|].
    split; apply zfill_length. }
  destruct (Re.search MainWithApi.pattern3 false date_str) as [m3|].
  { cbv zeta. intros [= <-]. eexists _, _, _. split; [reflexivity|].
    split; apply zfill_length. }
  destruct (Re.search MainWithApi.pattern4 false date_str) as [m4|].
  { cbv zeta. intros [= <-]. eexists _, _, _. split; [reflexivity|].
    split; apply zfill_length. }
  destruct (MainWithApi.strptime_fallback date_str MainWithApi.strptime_formats)
    as [[iso|]|e] eqn:E; try discriminate.
  intros [= <-]. now apply (strptime_fallback_dashed date_str _ _ E).
Qed.

Lemma parse_date_none (date_str : string) :
  MainWithApi.parse_date date_str = None -> unparseable date_str = true.
Proof.
  unfold MainWithApi.parse_date, MainWithApi.parse_date_try, unparseable.
  cbn [forallb].
  destruct (Re.search MainWithApi.pattern1 false date_str) as [m1|];
    [discriminate|].
  destruct (Re.search MainWithApi.pattern2 false date_str) as [m2|];
    [discriminate|].
  destruct (Re.search MainWithApi.pattern3 false date_str) as [m3|];
    [discriminate|].
  destruct (Re.search MainWithApi.pattern4 false date_str) as [m4|];
    [discriminate|].
  rewrite !bool_decide_eq_true_2 by reflexivity. cbn [andb].
  destruct (strptime_fallback_returns date_str MainWithApi.strptime_formats)
    as [[iso|] E]; rewrite E; [discriminate|].
  intros _. now apply strptime_fallback_none.
Qed.

Lemma dashed_truthy (out : string) : dashed_date out -> Py.truthy out = true.
Proof.
  intros (year & month & day & -> & _). now destruct year.
Qed.

End DateResults.

(** X15.  [parse_date] answers null exactly for the unparseable texts:
    those in which none of the four patterns is found and which none of
    the five [strptime] formats reads.  An unknown month name or an
    impossible day is no reason for null. *)
Theorem parse_date_null_exactly_when_unparseable :
  forall date_str,
    MainWithApi.parse_date date_str = None <-> unparseable date_str = true.
Proof.
  intros date_str. split; [apply parse_date_none|].
  intros H. unfold MainWithApi.parse_date.
  now rewrite (parse_date_unparseable date_str H).
Qed.

(** X16.  Every date that [parse_date] returns has the form
    year-month-day, with a month and a day of at least two characters;
    in particular it is never the empty text, so the callers' test
    [if parsed_date] only filters null. *)
Theorem parse_date_result_is_dashed :
  forall date_str out,
    MainWithApi.parse_date date_str = Some out ->
    dashed_date out /\ Py.truthy out = true.
Proof.
  intros date_str out H. pose proof (parse_date_dashed date_str out H) as Hd.
  split; [exact Hd | now apply dashed_truthy].
Qed.

Lemma parse_date_result_is_dashed_witness :
  MainWithApi.parse_date "5 Xyz 24" = Some "2024-01-05"
  /\ dashed_date "2024-01-05" /\ Py.truthy "2024-01-05" = true.
Proof.
  assert (H : MainWithApi.parse_date "5 Xyz 24" = Some "2024-01-05")
    by (vm_compute; reflexivity).
  split; [exact H|].
  exact (parse_date_result_is_dashed "5 Xyz 24" "2024-01-05" H).
Defined.

(** ** Files of messages, and the endpoint for one message *)

Section BatchFacts.

Variable repr : value -> string.
Variable invoke : string -> result string.
Variable json_loads : string -> result value.
Variable store_financial_data :
  value -> gmap string value -> string -> value -> result (gmap string value).
Variable read_rows : string -> string -> result (list (list string)).
Variable today : Z -> string.

Local Abbreviation process_row :=
  (MainWithApi.process_row repr invoke json_loads store_financial_data today).
Local Abbreviation process_csv_file :=
  (MainWithApi.process_csv_file repr invoke json_loads store_financial_data
     read_rows today).

Lemma process_row_counts (st : MainWithApi.ProcessingStatus) (row : list string) :
  let st' := process_row st row in
  MainWithApi.total st' = MainWithApi.total st
  /\ MainWithApi.status st' = MainWithApi.status st
  /\ MainWithApi.processed st' = (MainWithApi.processed st + 1)%Z
  /\ ((MainWithApi.succeeded st' = (MainWithApi.succeeded st + 1)%Z
       /\ MainWithApi.failed st' = MainWithApi.failed st)
      \/ (MainWithApi.succeeded st' = MainWithApi.succeeded st
          /\ MainWithApi.failed st' = (MainWithApi.failed st + 1)%Z)).
Proof.
  cbv zeta. unfold MainWithApi.process_row. cbv zeta.
  destruct row as [|c0 [|c1 [|c2 [|message rest]]]]; cbn; auto 10.
  destruct (MainWithApi.process_row_try _ _ _ _ _ _ _ _ _ _ _); cbn; auto 10.
Qed.

Lemma rows_loop_counts (rows : list (list string))
    (st : MainWithApi.ProcessingStatus) :
  let st' := foldl process_row st rows in
  MainWithApi.total st' = MainWithApi.total st
  /\ MainWithApi.status st' = MainWithApi.status st
  /\ MainWithApi.processed st'
     = (MainWithApi.processed st + Z.of_nat (length rows))%Z
  /\ (MainWithApi.succeeded st' + MainWithApi.failed st'
      = MainWithApi.succeeded st + MainWithApi.failed st
        + Z.of_nat (length rows))%Z
  /\ (MainWithApi.succeeded st <= MainWithApi.succeeded st')%Z
  /\ (MainWithApi.failed st <= MainWithApi.failed st')%Z.
Proof.
  cbv zeta. revert st. induction rows as [|row rows IH]; intros st.
  - cbn [foldl length]. repeat split; lia.
  - cbn [foldl length].
    destruct (IH (process_row st row)) as (Ht & Hs & Hp & Hsum & Hsu & Hf).
    destruct (process_row_counts st row) as (Ht1 & Hs1 & Hp1 & Hone).
    rewrite Ht, Hs, Hp. repeat split; try congruence; lia.
Qed.

Lemma process_single_message_fails (date_str message : string)
    (customer_info : value) :
  main_remote_fails invoke json_loads message ->
  exists e,
    MainWithApi.process_single_message repr invoke json_loads
      store_financial_data date_str message customer_info = Raise e.
Proof.
  intros Hfail.
  destruct (Py.truthy (Py.strip message)) eqn:Hmsg.
  - eexists. apply process_single_message_raises; [exact Hmsg|].
    unfold main_remote_fails in Hfail.
    destruct (invoke message) as [text|e] eqn:Hinvoke;
      [now apply (main_llm_rejected repr invoke json_loads message text)
      |now apply (main_llm_invoke_raises repr invoke json_loads message e)].
  - eexists. unfold MainWithApi.process_single_message. now rewrite Hmsg.
Qed.

Lemma process_row_fails (st : MainWithApi.ProcessingStatus) (row : list string) :
  (forall message, main_remote_fails invoke json_loads message) ->
  MainWithApi.succeeded (process_row st row) = MainWithApi.succeeded st.
Proof.
  intros Hfail. unfold MainWithApi.process_row. cbv zeta.
  destruct row as [|c0 [|c1 [|c2 [|message rest]]]]; try reflexivity.
  unfold MainWithApi.process_row_try.
  destruct (Conv.int_text c0) as [customer_id|]; [|reflexivity].
  cbn [mbind result_bind]. cbv zeta.
  match goal with
  | |- context [MainWithApi.process_single_message _ _ _ _ ?d ?m ?c] =>
      destruct (process_single_message_fails d m c (Hfail m)) as [e ->]
  end.
  reflexivity.
Qed.

Lemma rows_loop_fails (rows : list (list string))
    (st : MainWithApi.ProcessingStatus) :
  (forall message, main_remote_fails invoke json_loads message) ->
  MainWithApi.succeeded (foldl process_row st rows) = MainWithApi.succeeded st.
Proof.
  intros Hfail. revert st. induction rows as [|row rows IH]; intros st;
    [reflexivity|].
  cbn [foldl]. now rewrite IH, process_row_fails.
Qed.

Lemma process_csv_file_counts (file_path delimiter : string)
    (has_header : bool) (st : MainWithApi.ProcessingStatus)
    (rows : list (list string)) :
  rows_of (read_rows file_path delimiter) has_header = Some rows ->
  (forall message, main_remote_fails invoke json_loads message) ->
  let run := process_csv_file file_path delimiter has_header st in
  MainWithApi.succeeded run.1 = 0%Z
  /\ (MainWithApi.succeeded run.1 + MainWithApi.failed run.1
      = Z.of_nat (length rows))%Z.
Proof.
  intros Hrows Hfail. cbv zeta.
  unfold MainWithApi.process_csv_file. cbv zeta.
  unfold rows_of in Hrows.
  destruct (read_rows file_path delimiter) as [all_rows|e]; [|discriminate].
  rewrite Hrows. cbn [fst snd].
  pose proof (rows_loop_counts rows
                (MainWithApi.reset_counters (Z.of_nat (length rows))
                   (MainWithApi.set_status "processing" st)))
    as (_ & _ & _ & Hsum & _).
  cbv zeta in Hsum. cbn in Hsum |- *.
  rewrite rows_loop_fails by exact Hfail. cbn. split; [reflexivity|].
  rewrite rows_loop_fails in Hsum by exact Hfail. cbn in Hsum. lia.
Qed.

(** X17.  A run of [process_csv_file] over a file that reads well ends
    with status completed and consistent counters: total is the number
    of data rows, every row has been processed, and each row counts
    once, as succeeded or as failed.  When the file cannot be read, or
    is empty where a header is announced, the status is failed, the
    exception is passed on and the counters keep the values they had
    before the run. *)
Theorem process_csv_file_status :
  forall (file_path delimiter : string) (has_header : bool)
         (st : MainWithApi.ProcessingStatus),
    let run := process_csv_file file_path delimiter has_header st in
    (forall rows,
       rows_of (read_rows file_path delimiter) has_header = Some rows ->
       run.2 = None
       /\ MainWithApi.status run.1 = "completed"
       /\ MainWithApi.total run.1 = Z.of_nat (length rows)
       /\ MainWithApi.processed run.1 = MainWithApi.total run.1
       /\ (MainWithApi.succeeded run.1 + MainWithApi.failed run.1
           = MainWithApi.total run.1)%Z
       /\ (0 <= MainWithApi.succeeded run.1)%Z
       /\ (0 <= MainWithApi.failed run.1)%Z)
    /\ (rows_of (read_rows file_path delimiter) has_header = None ->
        (exists e, run.2 = Some e)
        /\ run.1 = MainWithApi.set_status "failed" st).
Proof.
  intros file_path delimiter has_header st. cbv zeta.
  unfold MainWithApi.process_csv_file, rows_of. cbv zeta.
  destruct (read_rows file_path delimiter) as [all_rows|e].
  - destruct (MainWithApi.data_rows has_header all_rows) as [rows|]; split;
      try discriminate.
    + intros rows' [= <-]. cbn [fst snd].
      pose proof (rows_loop_counts rows
                    (MainWithApi.reset_counters (Z.of_nat (length rows))
                       (MainWithApi.set_status "processing" st)))
        as (Ht & _ & Hp & Hsum & Hsu & Hf).
      cbv zeta in *. cbn in Ht, Hp, Hsum, Hsu, Hf |- *.
      repeat split; try reflexivity; try lia; congruence.
    + intros _. cbn [fst snd]. split; [eauto | now destruct st].
  - split; [discriminate|]. intros _. cbn [fst snd].
    split; [eauto | now destruct st].
Qed.

(** X18.  While the remote path fails for every message, no row of a
    file succeeds: after the run the counter succeeded is zero and
    failed equals the number of rows, since [process_single_message]
    does not fall back to the rules. *)
Theorem process_csv_file_without_model :
  forall (file_path delimiter : string) (has_header : bool)
         (st : MainWithApi.ProcessingStatus) (rows : list (list string)),
    (forall message, main_remote_fails invoke json_loads message) ->
    rows_of (read_rows file_path delimiter) has_header = Some rows ->
    let run := process_csv_file file_path delimiter has_header st in
    MainWithApi.succeeded run.1 = 0%Z
    /\ MainWithApi.failed run.1 = Z.of_nat (length rows).
Proof.
  intros file_path delimiter has_header st rows Hfail Hrows. cbv zeta.
  destruct (process_csv_file_counts file_path delimiter has_header st rows
              Hrows Hfail) as (Hsucc & Hsum).
  split; [exact Hsucc | lia].
Qed.

End BatchFacts.

Lemma process_csv_file_status_witness :
  let read := fun _ _ : string =>
    Ok [["id"; "name"; "phone"; "message"];
        ["7"; "Asha"; "9000000000"; "Rs.500 debited from A/c XX1234"];
        ["8"; "Ravi"]] in
  let run :=
    MainWithApi.process_csv_file (fun _ => "")
      (fun _ => Ok "Sorry, I cannot help with that.")
      (fun _ => Raise JSONDecodeError) (fun _ d _ _ => Ok d) read
      (fun _ => "2024-11-05") "messages.csv" "," true
      {| MainWithApi.total := 0; MainWithApi.processed := 0;
         MainWithApi.succeeded := 0; MainWithApi.failed := 0;
         MainWithApi.status := "idle" |} in
  MainWithApi.status run.1 = "completed"
  /\ MainWithApi.total run.1 = 2%Z
  /\ MainWithApi.processed run.1 = MainWithApi.total run.1.
Proof.
  cbv zeta.
  destruct (proj1 (process_csv_file_status (fun _ => "")
              (fun _ => Ok "Sorry, I cannot help with that.")
              (fun _ => Raise JSONDecodeError) (fun _ d _ _ => Ok d)
              (fun _ _ : string =>
                 Ok [["id"; "name"; "phone"; "message"];
                     ["7"; "Asha"; "9000000000"; "Rs.500 debited from A/c XX1234"];
                     ["8"; "Ravi"]])
              (fun _ => "2024-11-05") "messages.csv" "," true
              {| MainWithApi.total := 0; MainWithApi.processed := 0;
                 MainWithApi.succeeded := 0; MainWithApi.failed := 0;
                 MainWithApi.status := "idle" |})
            [["7"; "Asha"; "9000000000"; "Rs.500 debited from A/c XX1234"];
             ["8"; "Ravi"]] eq_refl)
    as (_ & Hstatus & Htotal & Hprocessed & _).
  split; [exact Hstatus|]. split; [exact Htotal | exact Hprocessed].
Defined.

Lemma process_csv_file_without_model_witness :
  let read := fun _ _ : string =>
    Ok [["id"; "name"; "phone"; "message"];
        ["7"; "Asha"; "9000000000"; "Rs.500 debited from A/c XX1234"];
        ["8"; "Ravi"]] in
  let run :=
    MainWithApi.process_csv_file (fun _ => "")
      (fun _ => Raise TypeError)
      (fun _ => Raise JSONDecodeError) (fun _ d _ _ => Ok d) read
      (fun _ => "2024-11-05") "messages.csv" "," true
      {| MainWithApi.total := 0; MainWithApi.processed := 0;
         MainWithApi.succeeded := 0; MainWithApi.failed := 0;
         MainWithApi.status := "idle" |} in
  MainWithApi.succeeded run.1 = 0%Z /\ MainWithApi.failed run.1 = 2%Z.
Proof.
  cbv zeta.
  apply (process_csv_file_without_model (fun _ => "")
           (fun _ => Raise TypeError)
           (fun _ => Raise JSONDecodeError) (fun _ d _ _ => Ok d)
           (fun _ _ : string =>
              Ok [["id"; "name"; "phone"; "message"];
                  ["7"; "Asha"; "9000000000"; "Rs.500 debited from A/c XX1234"];
                  ["8"; "Ravi"]])
           (fun _ => "2024-11-05") "messages.csv" "," true _
           [["7"; "Asha"; "9000000000"; "Rs.500 debited from A/c XX1234"];
            ["8"; "Ravi"]]).
  - intros message. exact I.
  - reflexivity.
Defined.

(** X19.  The endpoint [analyze_single_message] of main_with_api.py
    never answers with an analysis: a blank message raises the 400
    inside the [try] block, whose handler turns it into a 500, and for
    any other message the call of [process_single_message] lacks its
    third argument, a TypeError that the same handler turns into a
    500. *)
Theorem analyze_single_message_always_fails :
  forall (repr : value -> string) (invoke : string -> result string)
         (json_loads : string -> result value)
         (store_financial_data :
            value -> gmap string value -> string -> value ->
            result (gmap string value))
         (today : Z -> string) (exn_str : exn -> string)
         (message_response : MainWithApi.analysis -> result MainWithApi.analysis)
         (message : string) (date_str : option string),
    exists detail,
      MainWithApi.analyze_single_message repr invoke json_loads
        store_financial_data today exn_str message_response message date_str
      = Raise (HTTPException 500 detail).
Proof.
  intros. unfold MainWithApi.analyze_single_message.
  destruct (negb (Py.truthy (Py.strip message))); cbn; eauto.
Qed.

(** ** Numeric dates *)

Section NumericDates.

Lemma date_patterns_compile :
  Re.compile MainWithApi.pattern1 = Some pattern1_regex
  /\ Re.compile MainWithApi.pattern2 = Some pattern2_regex
  /\ Re.compile MainWithApi.pattern3 = Some pattern3_regex
  /\ Re.compile MainWithApi.pattern4 = Some pattern4_regex.
Proof. repeat split; vm_compute; reflexivity. Qed.

(** How the classes of the four patterns judge a digit. *)
Lemma digit_classes (c : ascii) :
  Py.is_digit c = true ->
  Re.cls_mem false false [Re.IDigit] c = true
  /\ Re.cls_mem false false [Re.IChar "-"; Re.IChar "/"] c = false
  /\ Re.cls_mem false false [Re.IChar "-"; Re.ISpace; Re.IChar "/"] c = false
  /\ Re.cls_mem false false [Re.IRange "A" "Z"; Re.IRange "a" "z"] c = false.
Proof.
  destruct c as [[] [] [] [] [] [] [] []]; intros H; try discriminate H;
    repeat split; reflexivity.
Qed.

Lemma separator_cases (c : ascii) :
  date_separator c = true -> c = "-"%char \/ c = "/"%char.
Proof.
  unfold date_separator. intros [H|H]%orb_prop; apply Ascii.eqb_eq in H; auto.
Qed.

End NumericDates.

(** One test of a character against a class: a digit by the lemma, a
    literal character by computation. *)
Ltac class_step :=
  match goal with
  | H : Py.is_digit ?c = true |- context [Re.cls_mem false false _ ?c] =>
      first [ rewrite (proj1 (digit_classes c H))
            | rewrite (proj1 (proj2 (digit_classes c H)))
            | rewrite (proj1 (proj2 (proj2 (digit_classes c H))))
            | rewrite (proj2 (proj2 (proj2 (digit_classes c H)))) ]
  | |- context [Re.cls_mem ?ic ?neg ?items (Ascii ?b0 ?b1 ?b2 ?b3 ?b4 ?b5 ?b6 ?b7)] =>
      let t := constr:(Re.cls_mem ic neg items (Ascii b0 b1 b2 b3 b4 b5 b6 b7)) in
      let v := eval vm_compute in t in
      change t with v
  end.

(** Runs the matcher on text whose characters are literal or digits. *)
Ltac re_eval :=
  repeat (cbn [Re.search_regex Re.match_prefix Re.run Re.iterate Re.below
               Py.len String.length Nat.ltb Nat.leb Nat.sub Py.take];
          repeat class_step).

(** Splits text of one, two or four digits into its characters. *)
Ltac digits_cases H :=
  unfold one_or_two_digits, digits_of in H;
  match type of H with
  | context [Py.len ?s] =>
      destruct s as [|? [|? [|? [|? [|? ?]]]]];
      cbn [Py.len String.length Nat.eqb Py.all_chars andb orb] in H;
      try discriminate H;
      rewrite ?andb_true_r, ?orb_false_r in H;
      repeat match type of H with
             | (_ && _) = true => let H' := fresh "Hd" in
                                  apply andb_prop in H as [H' H]
             end
  end.

Ltac date_eval :=
  unfold MainWithApi.parse_date, MainWithApi.parse_date_try, Re.search;
  destruct date_patterns_compile as (-> & -> & -> & ->);
  cbv beta iota delta [String.append];
  unfold pattern1_regex, pattern2_regex, pattern3_regex, pattern4_regex;
  re_eval; reflexivity.

Section NumericDateShapes.

Lemma parse_date_day_first (dd mm yyyy : string) (a b : ascii) :
  one_or_two_digits dd = true -> one_or_two_digits mm = true ->
  digits_of 4 yyyy = true ->
  date_separator a = true -> date_separator b = true ->
  MainWithApi.parse_date (dd ++ String a (mm ++ String b yyyy))
  = Some (yyyy ++ "-" ++ Py.zfill 2 mm ++ "-" ++ Py.zfill 2 dd).
Proof.
  intros Hdd Hmm Hyyyy Ha%separator_cases Hb%separator_cases.
  digits_cases Hdd; digits_cases Hmm; digits_cases Hyyyy;
    destruct Ha as [-> | ->], Hb as [-> | ->]; date_eval.
Qed.

Lemma parse_date_year_first (yyyy mm dd : string) (a b : ascii) :
  digits_of 4 yyyy = true ->
  one_or_two_digits mm = true -> one_or_two_digits dd = true ->
  date_separator a = true -> date_separator b = true ->
  MainWithApi.parse_date (yyyy ++ String a (mm ++ String b dd))
  = Some (yyyy ++ "-" ++ Py.zfill 2 mm ++ "-" ++ Py.zfill 2 dd).
Proof.
  intros Hyyyy Hmm Hdd Ha%separator_cases Hb%separator_cases.
  digits_cases Hdd; digits_cases Hmm; digits_cases Hyyyy;
    destruct Ha as [-> | ->], Hb as [-> | ->]; date_eval.
Qed.

Lemma parse_date_two_digit_year (yy mm dd : string) (a b : ascii) :
  digits_of 2 yy = true ->
  one_or_two_digits mm = true -> one_or_two_digits dd = true ->
  date_separator a = true -> date_separator b = true ->
  MainWithApi.parse_date (yy ++ String a (mm ++ String b dd))
  = Some ("20" ++ yy ++ "-" ++ Py.zfill 2 mm ++ "-" ++ Py.zfill 2 dd).
Proof.
  intros Hyy Hmm Hdd Ha%separator_cases Hb%separator_cases.
  digits_cases Hdd; digits_cases Hmm; digits_cases Hyy;
    destruct Ha as [-> | ->], Hb as [-> | ->]; date_eval.
Qed.

End NumericDateShapes.

(** ** Dates with a two-digit year *)

Section TransactionDate.

Variable out : string.

Lemma has_date_insert (key : string) (v : value) (d : gmap string value) :
  key <> "transaction_date" -> has_date out d -> has_date out (<[key := v]> d).
Proof. intros Hne Hd. unfold has_date. now rewrite lookup_insert_ne. Qed.

Lemma has_date_main_store_number (key captured : string) (d : gmap string value) :
  key <> "transaction_date" -> has_date out d ->
  has_date out (MainWithApi.store_number key captured d).
Proof.
  intros Hne Hd. unfold MainWithApi.store_number.
  destruct (MainWithApi.clean_numeric_string captured) as [cleaned|]; [|exact Hd].
  destruct (Py.truthy cleaned); [|exact Hd].
  destruct (Conv.float cleaned); [|exact Hd].
  now apply has_date_insert.
Qed.

Lemma has_date_routes_store_number (key captured : string) (d : gmap string value) :
  key <> "transaction_date" -> has_date out d ->
  has_date out (Routes.store_number key captured d).
Proof.
  intros Hne Hd. unfold Routes.store_number.
  destruct (Routes.clean_numeric_string captured) as [cleaned|]; [|exact Hd].
  destruct (Py.truthy cleaned); [|exact Hd].
  destruct (Conv.float cleaned); [|exact Hd].
  now apply has_date_insert.
Qed.

Lemma has_date_bank_name (banks : list string) (message : string)
    (d : gmap string value) :
  has_date out d -> has_date out (Routes.bank_name banks message d).
Proof.
  intros Hd. induction banks as [|bank rest IH]; [exact Hd|].
  cbn [Routes.bank_name].
  destruct (Py.contains _ _); [|exact IH].
  now apply has_date_insert.
Qed.

Lemma has_date_insurance_company (companies : list string) (message : string)
    (d : gmap string value) :
  has_date out d ->
  has_date out (MainWithApi.insurance_company companies message d).
Proof.
  intros Hd. induction companies as [|company rest IH]; [exact Hd|].
  cbn [MainWithApi.insurance_company].
  destruct (Py.contains _ _); [|exact IH].
  now apply has_date_insert.
Qed.

Lemma has_date_let (v : gmap string value)
    (body : gmap string value -> gmap string value) :
  has_date out v ->
  (forall data, has_date out data -> has_date out (body data)) ->
  has_date out (let data := v in body data).
Proof. intros Hv Hbody. now apply Hbody. Qed.

Lemma has_date_store_date (date_str : string) (d : gmap string value) :
  MainWithApi.parse_date date_str = Some out -> Py.truthy out = true ->
  has_date out (MainWithApi.store_date date_str d).
Proof.
  intros Hp Ht. unfold MainWithApi.store_date. rewrite Hp, Ht.
  apply lookup_insert_eq.
Qed.

End TransactionDate.

(** The steps that follow the date: none of them touches the field. *)
Ltac has_date_steps :=
  repeat first
    [ assumption
    | lazymatch goal with
      | |- has_date ?o (let x := ?v in @?body x) =>
          lazymatch type of v with
          | gmap string value =>
              apply (has_date_let o v body);
              [|let d := fresh "data" in
                let H := fresh "Hdata" in
                intros d H; cbv beta]
          | _ => change (has_date o (body v)); cbv beta
          end
      | |- has_date _ (match ?x with _ => _ end) => destruct x
      | |- has_date _ (MainWithApi.store_number _ _ _) =>
          apply has_date_main_store_number; [discriminate|]
      | |- has_date _ (Routes.store_number _ _ _) =>
          apply has_date_routes_store_number; [discriminate|]
      | |- has_date _ (Routes.bank_name _ _ _) => apply has_date_bank_name
      | |- has_date _ (MainWithApi.insurance_company _ _ _) =>
          apply has_date_insurance_company
      | |- has_date _ (<[_ := _]> _) => apply has_date_insert; [discriminate|]
      end ].

Section TwoDigitYears.

Variables (dd mm yy : string) (a b : ascii).
Hypothesis Hdd : digits_of 2 dd = true.
Hypothesis Hmm : digits_of 2 mm = true.
Hypothesis Hyy : digits_of 2 yy = true.
Hypothesis Ha : date_separator a = true.
Hypothesis Hb : date_separator b = true.

Lemma two_digits_one_or_two (s : string) :
  digits_of 2 s = true -> one_or_two_digits s = true.
Proof. unfold one_or_two_digits. intros ->. apply orb_true_r. Qed.

Lemma zfill_two_digits (s : string) :
  digits_of 2 s = true -> Py.zfill 2 s = s.
Proof.
  unfold digits_of. intros [Hlen _]%andb_prop. apply Nat.eqb_eq in Hlen.
  unfold Py.zfill. now rewrite Hlen.
Qed.

Lemma digits_of_all (n : nat) (s : string) :
  digits_of n s = true -> Py.all_chars Py.is_digit s = true /\ Py.len s = n.
Proof.
  unfold digits_of. intros [Hlen Hs]%andb_prop. now apply Nat.eqb_eq in Hlen.
Qed.

(** [parse_date] takes the first group for the year. *)
Lemma main_two_digit_year :
  MainWithApi.parse_date (dd ++ String a (mm ++ String b yy))
  = Some ("20" ++ dd ++ "-" ++ mm ++ "-" ++ yy).
Proof.
  rewrite (parse_date_two_digit_year dd mm yy a b)
    by auto using two_digits_one_or_two.
  now rewrite !zfill_two_digits.
Qed.

(** The inline conversion of routes.py takes the last group for the
    year. *)
Lemma routes_two_digit_year :
  Routes.unpack3
    (Py.split_str "-" (Py.replace "/" "-" (dd ++ String a (mm ++ String b yy))))
  = Ok (dd, mm, yy).
Proof.
  destruct (digits_of_all 2 dd Hdd) as [Hd Hld].
  destruct (digits_of_all 2 mm Hmm) as [Hm Hlm].
  destruct (digits_of_all 2 yy Hyy) as [Hy Hly].
  assert (Hsep : forall c, date_separator c = true ->
                   Py.replace "/" "-" (String c EmptyString) = "-").
  { intros c [-> | ->]%separator_cases; reflexivity. }
  assert (Hcut : forall c rest, String c rest = String c EmptyString ++ rest)
    by reflexivity.
  rewrite (Hcut a), (Hcut b), !replace_append, (Hsep a Ha), (Hsep b Hb).
  rewrite !(replace_absent Py.is_digit "/" "-" _ eq_refl) by assumption.
  rewrite !append_single. unfold Py.split_str.
  assert (Hlen : forall (c : ascii) (x : string),
             Py.len (String c x) = S (Py.len x)) by reflexivity.
  rewrite split_fuel_head
    by (try assumption; rewrite ?len_append, ?Hlen, ?len_append, ?Hlen; lia).
  rewrite split_fuel_head
    by (try assumption; rewrite ?len_append, ?Hlen, ?len_append, ?Hlen; lia).
  now rewrite split_fuel_last.
Qed.

Variables (message_type message : string) (cs : Re.captures).
Hypothesis Hother : message_type <> "SIP_INVESTMENT".

Lemma main_extract_two_digit_year :
  Re.search main_date_pattern false message = Some cs ->
  Re.text cs 1 = dd ++ String a (mm ++ String b yy) ->
  has_date ("20" ++ dd ++ "-" ++ mm ++ "-" ++ yy)
    (MainWithApi.extract_financial_data message_type message).
Proof.
  unfold main_date_pattern. intros Hs Ht.
  cbv beta delta [MainWithApi.extract_financial_data].
  (* the bindings up to the date *)
  do 7 lazymatch goal with
    | |- has_date ?o (let x := ?v in @?body x) =>
        change (has_date o (body v)); cbv beta
    end.
  match goal with
  | |- has_date ?o (let x := ?v in @?body x) =>
      apply (has_date_let o v body)
  end.
  { rewrite Hs, Ht. apply has_date_store_date; [apply main_two_digit_year|].
    reflexivity. }
  intros data Hdata. cbv beta.
  do 2 match goal with
    | |- has_date ?o (let x := ?v in @?body x) =>
        apply (has_date_let o v body); [has_date_steps|];
        clear data Hdata; intros data Hdata; cbv beta
    end.
  destruct (String.eqb_spec message_type "SALARY_CREDIT") as [_|_];
    [has_date_steps|].
  destruct (String.eqb_spec message_type "EMI_PAYMENT") as [_|_];
    [has_date_steps|].
  destruct (String.eqb_spec message_type "CREDIT_CARD_TRANSACTION") as [_|_];
    [has_date_steps|].
  destruct (String.eqb_spec message_type "SIP_INVESTMENT") as [E|_];
    [contradiction|].
  destruct (String.eqb_spec message_type "INSURANCE_PAYMENT") as [_|_];
    has_date_steps.
Qed.

Lemma routes_extract_two_digit_year (d : gmap string value) :
  Re.search routes_date_pattern false message = Some cs ->
  Re.text cs 1 = dd ++ String a (mm ++ String b yy) ->
  Routes.extract_financial_data message_type message = Ok d ->
  has_date ("20" ++ yy ++ "-" ++ mm ++ "-" ++ dd) d.
Proof.
  unfold routes_date_pattern. intros Hs Ht.
  unfold Routes.extract_financial_data.
  assert (Hcommon : forall d0, Routes.common_fields message = Ok d0 ->
            has_date ("20" ++ yy ++ "-" ++ mm ++ "-" ++ dd) d0).
  { intros d0. cbv beta delta [Routes.common_fields].
    do 7 lazymatch goal with
      | |- (let x := ?v in @?body x) = _ -> _ =>
          change (body v = Ok d0 ->
                  has_date ("20" ++ yy ++ "-" ++ mm ++ "-" ++ dd) d0);
          cbv beta
      end.
    rewrite Hs, Ht. cbv zeta. rewrite routes_two_digit_year.
    cbn [mbind result_bind].
    destruct (digits_of_all 2 yy Hyy) as [_ ->]. cbn [Nat.eqb].
    intros [= <-]. has_date_steps; apply lookup_insert_eq. }
  destruct (Routes.common_fields message) as [d0|]; [|discriminate].
  specialize (Hcommon d0 eq_refl). cbn [mbind result_bind].
  destruct (String.eqb_spec message_type "SALARY_CREDIT") as [_|_];
    [intros [= <-]; has_date_steps|].
  destruct (String.eqb_spec message_type "EMI_PAYMENT") as [_|_];
    [intros [= <-]; has_date_steps|].
  destruct (String.eqb_spec message_type "CREDIT_CARD_TRANSACTION") as [_|_];
    [intros [= <-]; has_date_steps|].
  destruct (String.eqb_spec message_type "SIP_INVESTMENT") as [E|_];
    [contradiction|].
  now intros [= <-].
Qed.

End TwoDigitYears.

(** X20.  [parse_date] reads a numeric date that ends in a four-digit
    year day first: for every day and month of one or two digits and
    every pair of separators among "-" and "/", the answer is
    year-month-day with month and day filled to two digits.  The
    digits are not checked against the calendar. *)
Theorem parse_date_day_first_dates :
  forall (dd mm yyyy : string) (a b : ascii),
    one_or_two_digits dd = true -> one_or_two_digits mm = true ->
    digits_of 4 yyyy = true ->
    date_separator a = true -> date_separator b = true ->
    MainWithApi.parse_date (dd ++ String a (mm ++ String b yyyy))
    = Some (yyyy ++ "-" ++ Py.zfill 2 mm ++ "-" ++ Py.zfill 2 dd).
Proof. exact parse_date_day_first. Qed.

Lemma parse_date_day_first_dates_witness :
  MainWithApi.parse_date "31/2/2024" = Some "2024-02-31".
Proof.
  exact (parse_date_day_first_dates "31" "2" "2024" "/" "/"
           eq_refl eq_refl eq_refl eq_refl eq_refl).
Defined.

(** X21.  [parse_date] reads a numeric date that starts with a four-digit
    year as year, month, day, and answers it with hyphens and two-digit
    month and day; a date already written that way comes back
    unchanged, so the answers of this form are fixed points. *)
Theorem parse_date_year_first_dates :
  forall (yyyy mm dd : string) (a b : ascii),
    digits_of 4 yyyy = true ->
    one_or_two_digits mm = true -> one_or_two_digits dd = true ->
    date_separator a = true -> date_separator b = true ->
    MainWithApi.parse_date (yyyy ++ String a (mm ++ String b dd))
    = Some (yyyy ++ "-" ++ Py.zfill 2 mm ++ "-" ++ Py.zfill 2 dd)
    /\ (digits_of 2 mm = true -> digits_of 2 dd = true ->
        MainWithApi.parse_date (yyyy ++ "-" ++ mm ++ "-" ++ dd)
        = Some (yyyy ++ "-" ++ mm ++ "-" ++ dd)).
Proof.
  intros yyyy mm dd a b Hy Hm Hd Ha Hb.
  split; [now apply parse_date_year_first|].
  intros Hm2 Hd2.
  rewrite <- (zfill_two_digits mm Hm2) at 2.
  rewrite <- (zfill_two_digits dd Hd2) at 2.
  now apply (parse_date_year_first yyyy mm dd "-" "-").
Qed.

Lemma parse_date_year_first_dates_witness :
  MainWithApi.parse_date "2024/6/3" = Some "2024-06-03"
  /\ MainWithApi.parse_date "2024-06-03" = Some "2024-06-03".
Proof.
  split.
  - exact (proj1 (parse_date_year_first_dates "2024" "6" "3" "/" "/"
                    eq_refl eq_refl eq_refl eq_refl eq_refl)).
  - exact (proj2 (parse_date_year_first_dates "2024" "06" "03" "-" "-"
                    eq_refl eq_refl eq_refl eq_refl eq_refl) eq_refl eq_refl).
Defined.

(** X22.  The two files disagree on dates with a two-digit year.  For a
    date of three groups of two digits, [parse_date] of
    main_with_api.py takes the first group for the year, 20 put in
    front, and so does its extraction; the extraction of routes.py
    takes the last group for the year and the first for the day.
    (SIP_INVESTMENT apart, where the SIP fields are merged in.) *)
Theorem two_digit_year_dates_differ :
  forall (g1 g2 g3 : string) (a b : ascii),
    digits_of 2 g1 = true -> digits_of 2 g2 = true -> digits_of 2 g3 = true ->
    date_separator a = true -> date_separator b = true ->
    let date := g1 ++ String a (g2 ++ String b g3) in
    MainWithApi.parse_date date = Some ("20" ++ g1 ++ "-" ++ g2 ++ "-" ++ g3)
    /\ forall message_type message,
         message_type <> "SIP_INVESTMENT" ->
         (forall found,
            Re.search main_date_pattern false message = Some found ->
            Re.text found 1 = date ->
            has_date ("20" ++ g1 ++ "-" ++ g2 ++ "-" ++ g3)
              (MainWithApi.extract_financial_data message_type message))
         /\ (forall found d,
               Re.search routes_date_pattern false message = Some found ->
               Re.text found 1 = date ->
               Routes.extract_financial_data message_type message = Ok d ->
               has_date ("20" ++ g3 ++ "-" ++ g2 ++ "-" ++ g1) d).
Proof.
  intros g1 g2 g3 a b H1 H2 H3 Ha Hb. cbv zeta.
  split; [now apply main_two_digit_year|].
  intros message_type message Hother. split.
  - intros found. now apply main_extract_two_digit_year.
  - intros found d. now apply routes_extract_two_digit_year.
Qed.

Lemma two_digit_year_dates_differ_witness :
  let message := "Rs.500 debited from A/c XX1234 on 05-11-24" in
  has_date "2005-11-24"
    (MainWithApi.extract_financial_data "DEBIT_TRANSACTION" message)
  /\ forall d, Routes.extract_financial_data "DEBIT_TRANSACTION" message = Ok d ->
       has_date "2024-11-05" d.
Proof.
  cbv zeta.
  destruct (two_digit_year_dates_differ "05" "11" "24" "-" "-"
              eq_refl eq_refl eq_refl eq_refl eq_refl) as [_ H].
  destruct (H "DEBIT_TRANSACTION" "Rs.500 debited from A/c XX1234 on 05-11-24")
    as [Hmain Hroutes]; [discriminate|].
  split.
  - eapply Hmain; vm_compute; reflexivity.
  - intros d. eapply Hroutes; vm_compute; reflexivity.
Defined.
